(** * StudentDiary backend: a shallow embedding of the Express routes

    The server of [src/models/User.js] is a set of Express route handlers over
    Mongoose collections.  Each handler is embedded as a function from the
    request and the store to a response and the next store.  The libraries the
    handlers call (validator.js, bcryptjs, jsonwebtoken) are an interface,
    [Libraries], with the laws the proofs need stated in [LibraryLaws]. *)

From Stdlib Require Import String Ascii List ZArith Lia Bool Arith PeanoNat.
Import ListNotations.
Open Scope string_scope.

(** ** JavaScript string primitives used by the handlers *)

Module Js.

(** [s.split(sep)] for a one-character separator: never empty, and
    the empty string splits into the one-element list holding it. *)
Fixpoint split (sep : ascii) (s : string) : list string :=
  match s with
  | EmptyString => [EmptyString]
  | String c rest =>
      if Ascii.eqb c sep then EmptyString :: split sep rest
      else match split sep rest with
           | [] => [String c EmptyString]
           | h :: t => String c h :: t
           end
  end.

Fixpoint replicate (n : nat) (c : ascii) : string :=
  match n with
  | O => EmptyString
  | S k => String c (replicate k c)
  end.

(** [s.padStart(n, fill)] for a one-character [fill]. *)
Definition padStart (s : string) (n : nat) (fill : ascii) : string :=
  replicate (n - String.length s) fill ++ s.

(** Truthiness of a string value: the empty string is falsy. *)
Definition truthy (s : string) : bool :=
  match s with EmptyString => false | _ => true end.

(** [c] occurs in [s]. *)
Fixpoint mem (c : ascii) (s : string) : bool :=
  match s with
  | EmptyString => false
  | String d rest => Ascii.eqb d c || mem c rest
  end.

(** [s.toLowerCase()] on ASCII letters. *)
Definition lower_ascii (c : ascii) : ascii :=
  let n := nat_of_ascii c in
  if Nat.leb 65 n && Nat.leb n 90 then ascii_of_nat (n + 32) else c.

Fixpoint toLowerCase (s : string) : string :=
  match s with
  | EmptyString => EmptyString
  | String c rest => String (lower_ascii c) (toLowerCase rest)
  end.

(** A template literal prints an undefined value as ["undefined"]. *)
Definition show (o : option string) : string :=
  match o with Some s => s | None => "undefined" end.

End Js.

(** ** Documents (the Mongoose schemas) *)

Definition ObjectId := nat.

Record User := {
  u_id : ObjectId;
  u_email : string;
  u_password : string;
  u_role : string;
  u_name : string;
  u_additionalInfo : option string;
  u_degree : string;
  u_department : string
}.

Record FileRef := { f_name : string; f_url : string }.
Record SectionDoc := { sec_title : string; sec_content : string; sec_files : list FileRef }.
Record UnitDoc := { unit_title : string; unit_sections : list SectionDoc }.

Record Subject := {
  s_id : ObjectId;
  s_title : string;
  s_degree : string;
  s_department : string;
  s_creator : ObjectId;
  s_units : list UnitDoc
}.

Record Grade := {
  g_id : ObjectId;
  g_student : ObjectId;
  g_subject : ObjectId;
  g_cycleTest1 : Z;
  g_cycleTest2 : Z;
  g_assignments : Z
}.

Record CalendarEntry := {
  c_id : ObjectId;
  c_day : string;
  c_date : string;
  c_description : string
}.

(** Dates are milliseconds since the epoch, as [Date.getTime()]. *)
Record Task := {
  t_id : ObjectId;
  t_text : string;
  t_category : string;
  t_priority : string;
  t_dueDate : Z;
  t_completed : bool;
  t_creator : ObjectId;
  t_notificationSent : bool
}.

(** The collections, each in insertion order, and the supply of fresh
    [_id] values. *)
Record Store := {
  users : list User;
  subjects : list Subject;
  grades : list Grade;
  calendar : list CalendarEntry;
  tasks : list Task;
  next_id : ObjectId
}.

Definition empty_store : Store :=
  {| users := []; subjects := []; grades := []; calendar := []; tasks := [];
     next_id := 0 |}.

(** ** Responses *)

(** The payload a token carries: [{ userId, role }]. *)
Record Claims := { userId : ObjectId; role : string }.

(** The JSON bodies the handlers send.  [JMessageWithError] is
    [{ message, error }]; where [error] is the runtime's own [error.message]
    its text is left out. *)
Inductive Json :=
| JMessage (message : string)
| JMessageWithError (message : string)
| JErrors (errors : list string)
| JAuth (token role name : string)
| JSubject (s : Subject)
| JSubjects (l : list Subject)
| JSubjectRefs (l : list (option Subject))
| JGrade (g : Grade)
| JTask (t : Task)
| JTasks (l : list Task)
| JCalendar (l : list CalendarEntry).

Record Response := { status : nat; body : Json }.

(** [res.status(n).json(b)], and [res.json(b)] which leaves the status at 200. *)
Definition reply (n : nat) (b : Json) : Response := {| status := n; body := b |}.
Definition json (b : Json) : Response := reply 200 b.

(** ** The libraries the handlers call *)

Class Libraries := {
  (** validator.js [isEmail] *)
  isEmail : string -> bool;
  (** [bcrypt.hash(password, rounds)]; the salt it draws is an argument *)
  bcrypt_hash : string -> nat -> string -> string;
  (** [bcrypt.compare(password, digest)] *)
  bcrypt_compare : string -> string -> bool;
  (** [jwt.sign(claims, secret, { expiresIn })] at a clock reading (ms) *)
  jwt_sign : Claims -> string -> Z -> Z -> string;
  (** [jwt.verify(token, secret)] at a clock reading (ms); [None] is [err] *)
  jwt_verify : string -> string -> Z -> option Claims;
  (** [process.env.JWT_SECRET] *)
  JWT_SECRET : string
}.

(** What the proofs assume of bcryptjs and jsonwebtoken: a digest matches the
    password it was made from, and a token verifies to its claims under the
    signing secret until its [exp] second. *)
Class LibraryLaws (L : Libraries) : Prop := {
  bcrypt_compare_hash :
    forall p rounds salt, bcrypt_compare p (bcrypt_hash p rounds salt) = true;
  jwt_verify_sign :
    forall c secret ttl now now',
      (now' / 1000 < now / 1000 + ttl)%Z ->
      jwt_verify (jwt_sign c secret ttl now) secret now' = Some c
}.

Section Server.

Context {L : Libraries}.

(** ** Authentication middleware (lines 165-176) *)

Inductive Guard :=
| Rejected (r : Response)
| Next (user : Claims).

(** [authHeader && authHeader.split(' ')[1]], with [!token] folded in:
    [None] when the header is missing or empty, has no second word, or the
    second word is empty. *)
Definition bearer_token (authHeader : option string) : option string :=
  match authHeader with
  | None => None
  | Some h =>
      if Js.truthy h then
        match nth_error (Js.split " " h) 1 with
        | Some tok => if Js.truthy tok then Some tok else None
        | None => None
        end
      else None
  end.

Definition authenticateToken (authHeader : option string) (now : Z) : Guard :=
  match bearer_token authHeader with
  | None => Rejected (reply 401 (JMessage "No token provided"))
  | Some token =>
      match jwt_verify token JWT_SECRET now with
      | None => Rejected (reply 403 (JMessage "Invalid or expired token"))
      | Some user => Next user
      end
  end.

(** A route registered as [app.METHOD(path, authenticateToken, handler)]:
    the handler runs only when the middleware calls [next()]. *)
Definition protected (authHeader : option string) (now : Z)
    (handler : Claims -> Store -> Response * Store) (st : Store)
    : Response * Store :=
  match authenticateToken authHeader now with
  | Rejected r => (r, st)
  | Next user => handler user st
  end.

(** ** Signup (lines 179-220) *)

(** A request body field is [None] when the JSON body lacks it. *)
Record SignupBody := {
  sb_email : option string;
  sb_password : option string;
  sb_role : option string;
  sb_name : option string;
  sb_additionalInfo : option string;
  sb_degree : option string;
  sb_department : option string
}.

(** express-validator hands a missing field to the validator as the
    empty string. *)
Definition field (o : option string) : string :=
  match o with Some s => s | None => EmptyString end.

Definition isIn (allowed : list string) (s : string) : bool :=
  existsb (String.eqb s) allowed.

Definition notEmpty (s : string) : bool := negb (Nat.eqb (String.length s) 0).

(** One validation chain: its message when the check fails. *)
Definition check (ok : bool) (msg : string) : list string :=
  if ok then [] else [msg].

Definition signup_validation (b : SignupBody) : list string :=
  check (isEmail (field (sb_email b))) "Please enter a valid email address"
  ++ check (Nat.leb 6 (String.length (field (sb_password b))))
       "Password must be at least 6 characters long"
  ++ check (isIn ["teacher"; "student"; "alumni"] (field (sb_role b)))
       "Role must be either teacher, student, or alumni"
  ++ check (notEmpty (field (sb_name b))) "Name is required"
  ++ check (notEmpty (field (sb_degree b))) "Degree is required"
  ++ check (notEmpty (field (sb_department b))) "Department is required".

(** [User.findOne({ email })]: the first document with that email. *)
Definition findUserByEmail (st : Store) (email : string) : option User :=
  find (fun u => String.eqb (u_email u) email) (users st).

(** [User.findById(id)] *)
Definition findUserById (st : Store) (id : ObjectId) : option User :=
  find (fun u => Nat.eqb (u_id u) id) (users st).

Definition save_user (st : Store) (u : User) : Store :=
  {| users := users st ++ [u]; subjects := subjects st; grades := grades st;
     calendar := calendar st; tasks := tasks st; next_id := S (next_id st) |}.

(** The token lifetime [{ expiresIn: '1h' }], in seconds. *)
Definition one_hour : Z := 3600.

Definition signup (st : Store) (b : SignupBody) (salt : string) (now : Z)
    : Response * Store :=
  match signup_validation b with
  | (_ :: _) as errors => (reply 400 (JErrors errors), st)
  | [] =>
      let email := field (sb_email b) in
      match findUserByEmail st email with
      | Some _ => (reply 400 (JMessage "User already exists with this email"), st)
      | None =>
          let hashedPassword := bcrypt_hash (field (sb_password b)) 10 salt in
          let user :=
            {| u_id := next_id st;
               u_email := email;
               u_password := hashedPassword;
               u_role := field (sb_role b);
               u_name := field (sb_name b);
               u_additionalInfo := sb_additionalInfo b;
               u_degree := field (sb_degree b);
               u_department := field (sb_department b) |} in
          let token :=
            jwt_sign {| userId := u_id user; role := u_role user |}
                     JWT_SECRET one_hour now in
          (reply 201 (JAuth token (u_role user) (u_name user)), save_user st user)
      end
  end.

(** ** Login (lines 223-265) *)

Record LoginBody := {
  lb_email : option string;
  lb_password : option string;
  lb_role : option string
}.

(** [body(f).exists()]: the field is not [undefined]. *)
Definition exists_ (o : option string) : bool :=
  match o with Some _ => true | None => false end.

Definition login_validation (b : LoginBody) : list string :=
  check (isEmail (field (lb_email b))) "Please enter a valid email address"
  ++ check (exists_ (lb_password b)) "Password is required"
  ++ check (exists_ (lb_role b)) "Role is required".

(** The store and library calls a login makes, in order. *)
Inductive Call :=
| FindOneUser (email : string)
| BcryptCompare (password digest : string)
| JwtSign (c : Claims).

Definition role_mismatch_message (stored : string) : string :=
  "Access denied. Please login with your assigned role as " ++ stored ++ ".".

Definition login (st : Store) (b : LoginBody) (now : Z) : Response * list Call :=
  match login_validation b with
  | (_ :: _) as errors => (reply 400 (JErrors errors), [])
  | [] =>
      let email := field (lb_email b) in
      let password := field (lb_password b) in
      match findUserByEmail st email with
      | None => (reply 400 (JMessage "Invalid credentials"), [FindOneUser email])
      | Some user =>
          if negb (String.eqb (u_role user) (field (lb_role b))) then
            (reply 403 (JMessage (role_mismatch_message (u_role user))),
             [FindOneUser email])
          else if negb (bcrypt_compare password (u_password user)) then
            (reply 400 (JMessage "Invalid credentials"),
             [FindOneUser email; BcryptCompare password (u_password user)])
          else
            let c := {| userId := u_id user; role := u_role user |} in
            let token := jwt_sign c JWT_SECRET one_hour now in
            (json (JAuth token (u_role user) (u_name user)),
             [FindOneUser email; BcryptCompare password (u_password user);
              JwtSign c])
      end
  end.

(** ** Collection primitives *)

(** [Model.findOneAndUpdate(filter, update, { new: true })]: the first
    document the filter selects is replaced by its update, which is returned;
    [None] (JavaScript [null]) when the filter selects nothing. *)
Fixpoint findOneAndUpdate {A : Type} (p : A -> bool) (f : A -> A) (l : list A)
    : option A * list A :=
  match l with
  | [] => (None, [])
  | x :: rest =>
      if p x then (Some (f x), f x :: rest)
      else let (r, rest') := findOneAndUpdate p f rest in (r, x :: rest')
  end.

(** [Model.updateMany(filter, update)] *)
Definition updateMany {A : Type} (p : A -> bool) (f : A -> A) (l : list A)
    : list A :=
  map (fun x => if p x then f x else x) l.

(** No value occurs twice. *)
Fixpoint distinct {A : Type} (eqb : A -> A -> bool) (l : list A) : bool :=
  match l with
  | [] => true
  | x :: rest => negb (existsb (eqb x) rest) && distinct eqb rest
  end.

(** Mongoose's [required] on a [String] path: present and not empty. *)
Definition required_string (o : option string) : option string :=
  match o with
  | Some s => if Js.truthy s then Some s else None
  | None => None
  end.

(** ** Subjects (lines 268-351 and 577-591) *)

Record SubjectBody := {
  sj_title : option string;
  sj_degree : option string;
  sj_department : option string
}.

Definition set_subjects (st : Store) (l : list Subject) (n : ObjectId) : Store :=
  {| users := users st; subjects := l; grades := grades st;
     calendar := calendar st; tasks := tasks st; next_id := n |}.

(** [POST /api/subjects] *)
Definition createSubject (b : SubjectBody) (user : Claims) (st : Store)
    : Response * Store :=
  if negb (Js.truthy (field (sj_title b)))
     || negb (Js.truthy (field (sj_degree b)))
     || negb (Js.truthy (field (sj_department b)))
  then (reply 400 (JMessage "All fields are required"), st)
  else
    let subject :=
      {| s_id := next_id st;
         s_title := field (sj_title b);
         s_degree := field (sj_degree b);
         s_department := field (sj_department b);
         s_creator := userId user;
         s_units := [] |} in
    (reply 201 (JSubject subject),
     set_subjects st (subjects st ++ [subject]) (S (next_id st))).

(** [Subject.find({ degree, department })] *)
Definition in_scope (degree department : string) (s : Subject) : bool :=
  String.eqb (s_degree s) degree && String.eqb (s_department s) department.

(** [Subject.find({ creator })] *)
Definition created_by (creator : ObjectId) (s : Subject) : bool :=
  Nat.eqb (s_creator s) creator.

(** [GET /api/subjects/student] (line 293).  Reading [user.degree] of a
    missing user throws, which the handler's [catch] turns into a 500. *)
Definition subjectsStudent (user : Claims) (st : Store) : Response * Store :=
  match findUserById st (userId user) with
  | None => (reply 500 (JMessage "Error fetching subjects"), st)
  | Some u =>
      (json (JSubjects (filter (in_scope (u_degree u) (u_department u))
                               (subjects st))), st)
  end.

(** [GET /api/subjects/:role], first registration (line 317). *)
Definition subjectsByRole (roleParam : string) (user : Claims) (st : Store)
    : Response * Store :=
  if String.eqb roleParam "teacher" then
    (json (JSubjects (filter (created_by (userId user)) (subjects st))), st)
  else if String.eqb roleParam "student" then
    (json (JSubjects (subjects st)), st)
  else (reply 400 (JMessage "Invalid role specified"), st).

(** [Grade.find({ student }).populate('subject')] mapped to the subjects:
    for each grade of the student the subject document it points to, which
    is [null] when that subject does not exist. *)
Definition graded_subjects (st : Store) (student : ObjectId)
    : list (option Subject) :=
  map (fun g => find (fun s => Nat.eqb (s_id s) (g_subject g)) (subjects st))
      (filter (fun g => Nat.eqb (g_student g) student) (grades st)).

(** [GET /api/subjects/:role], second registration (line 468). *)
Definition subjectsByRoleGrades (roleParam : string) (user : Claims)
    (st : Store) : Response * Store :=
  if String.eqb roleParam "teacher" then
    (json (JSubjects (filter (created_by (userId user)) (subjects st))), st)
  else if String.eqb roleParam "student" then
    (json (JSubjectRefs (graded_subjects st (userId user))), st)
  else (reply 400 (JMessage "Invalid role specified"), st).

(** [PUT /api/subjects/:subjectId/units] (line 334). *)
Definition updateUnits (subjectId : ObjectId) (units : list UnitDoc)
    (user : Claims) (st : Store) : Response * Store :=
  let (found, l) :=
    findOneAndUpdate
      (fun s => Nat.eqb (s_id s) subjectId && created_by (userId user) s)
      (fun s => {| s_id := s_id s; s_title := s_title s; s_degree := s_degree s;
                   s_department := s_department s; s_creator := s_creator s;
                   s_units := units |})
      (subjects st) in
  match found with
  | None =>
      (reply 404 (JMessage
         "Subject not found or you do not have permission to update it"), st)
  | Some subject => (json (JSubject subject), set_subjects st l (next_id st))
  end.

(** [GET /api/subjects] (line 577). *)
Definition listSubjects (user : Claims) (st : Store) : Response * Store :=
  match findUserById st (userId user) with
  | None => (reply 500 (JMessage "Error fetching subjects"), st)
  | Some u =>
      if String.eqb (u_role u) "teacher" then
        (json (JSubjects (filter (created_by (u_id u)) (subjects st))), st)
      else
        (json (JSubjects (filter (in_scope (u_degree u) (u_department u))
                                 (subjects st))), st)
  end.

(** ** Grades (lines 534-559) *)

Record GradeBody := {
  gb_student : ObjectId;
  gb_subject : ObjectId;
  gb_cycleTest1 : Z;
  gb_cycleTest2 : Z;
  gb_assignments : Z
}.

Definition set_grades (st : Store) (l : list Grade) (n : ObjectId) : Store :=
  {| users := users st; subjects := subjects st; grades := l;
     calendar := calendar st; tasks := tasks st; next_id := n |}.

(** [{ student, subject }] as a query on grades *)
Definition grade_for (student subject : ObjectId) (g : Grade) : bool :=
  Nat.eqb (g_student g) student && Nat.eqb (g_subject g) subject.

(** The three assignments to the found document. *)
Definition set_scores (b : GradeBody) (g : Grade) : Grade :=
  {| g_id := g_id g; g_student := g_student g; g_subject := g_subject g;
     g_cycleTest1 := gb_cycleTest1 b; g_cycleTest2 := gb_cycleTest2 b;
     g_assignments := gb_assignments b |}.

(** [POST /api/grades].  [grade.save()] of a found document writes it back
    under its [_id]; of a new one inserts it. *)
Definition submitGrade (b : GradeBody) (user : Claims) (st : Store)
    : Response * Store :=
  match find (grade_for (gb_student b) (gb_subject b)) (grades st) with
  | Some found =>
      let grade := set_scores b found in
      let l := snd (findOneAndUpdate (fun g => Nat.eqb (g_id g) (g_id found))
                                     (fun _ => grade) (grades st)) in
      (reply 201 (JGrade grade), set_grades st l (next_id st))
  | None =>
      let grade :=
        {| g_id := next_id st; g_student := gb_student b;
           g_subject := gb_subject b; g_cycleTest1 := gb_cycleTest1 b;
           g_cycleTest2 := gb_cycleTest2 b;
           g_assignments := gb_assignments b |} in
      (reply 201 (JGrade grade),
       set_grades st (grades st ++ [grade]) (S (next_id st)))
  end.

(** ** Academic calendar import (lines 721-761) *)

(** An element of the uploaded array; [r_date] is [None] when the element
    has no string [date]. *)
Record RawEntry := {
  r_day : string;
  r_date : option string;
  r_description : string
}.

(** The uploaded file once read and handed to [JSON.parse].  [EntryArray]
    is an array whose elements have a string (or no) [day] and
    [description].  [MistypedArray] is an array in which the [day] or
    [description] of some element is an object or an array, which Mongoose
    cannot cast to the schema's [String]; its entries carry the elements'
    dates, and the two strings of the well-typed elements. *)
Inductive CalendarFile :=
| InvalidJSON
| NotAnArray
| EntryArray (entries : list RawEntry)
| MistypedArray (entries : list RawEntry).

(** The body of the [map] callback on one date: [None] is the [TypeError]
    of calling [padStart] on an undefined [month]. *)
Definition formatDate (date : string) : option string :=
  let parts := Js.split "." date in
  match nth_error parts 0, nth_error parts 1 with
  | Some day, Some month =>
      Some (Js.show (nth_error parts 2) ++ "-" ++ Js.padStart month 2 "0"
            ++ "-" ++ Js.padStart day 2 "0")
  | _, _ => None
  end.

Definition formatEntry (e : RawEntry) : option RawEntry :=
  match r_date e with
  | None => None
  | Some date =>
      match formatDate date with
      | None => None
      | Some formattedDate =>
          Some {| r_day := r_day e; r_date := Some formattedDate;
                  r_description := r_description e |}
      end
  end.

(** [calendarData.map(...)]: the first callback that throws aborts the map. *)
Fixpoint formatEntries (l : list RawEntry) : option (list RawEntry) :=
  match l with
  | [] => Some []
  | e :: rest =>
      match formatEntry e with
      | None => None
      | Some e' =>
          match formatEntries rest with
          | None => None
          | Some rest' => Some (e' :: rest')
          end
      end
  end.

(** [AcademicCalendar.insertMany(docs)]: one document per element, in order,
    each under a fresh [_id]. *)
Fixpoint insertMany (n : ObjectId) (docs : list RawEntry) : list CalendarEntry :=
  match docs with
  | [] => []
  | e :: rest =>
      {| c_id := n; c_day := r_day e; c_date := field (r_date e);
         c_description := r_description e |} :: insertMany (S n) rest
  end.

Definition set_calendar (st : Store) (l : list CalendarEntry) (n : ObjectId)
    : Store :=
  {| users := users st; subjects := subjects st; grades := grades st;
     calendar := l; tasks := tasks st; next_id := n |}.

(** [POST /api/academic-calendar/upload]; [file] is [req.file].  The map
    over the dates comes first, then [deleteMany], then [insertMany], which
    validates every document before it writes any: on a mistyped array it
    rejects with nothing inserted, after the old entries are gone. *)
Definition uploadCalendar (file : option CalendarFile) (user : Claims)
    (st : Store) : Response * Store :=
  if negb (String.eqb (role user) "teacher") then
    (reply 403 (JMessage "Access denied"), st)
  else
    match file with
    | None => (reply 400 (JMessage "No file uploaded"), st)
    | Some InvalidJSON => (reply 400 (JMessage "Invalid JSON file"), st)
    | Some NotAnArray =>
        (reply 500 (JMessageWithError "Error uploading calendar"), st)
    | Some (EntryArray entries) =>
        match formatEntries entries with
        | None => (reply 500 (JMessageWithError "Error uploading calendar"), st)
        | Some calendarData =>
            let newEntries := insertMany (next_id st) calendarData in
            (reply 201 (JCalendar newEntries),
             set_calendar st newEntries (next_id st + length calendarData))
        end
    | Some (MistypedArray entries) =>
        match formatEntries entries with
        | None => (reply 500 (JMessageWithError "Error uploading calendar"), st)
        | Some _ =>
            (reply 500 (JMessageWithError "Error uploading calendar"),
             set_calendar st [] (next_id st))
        end
    end.

(** ** Tasks (lines 764-780 and 826-848) *)

Record TaskBody := {
  tb_text : option string;
  tb_category : option string;
  tb_priority : option string;
  tb_dueDate : option Z
}.

Definition set_tasks (st : Store) (l : list Task) (n : ObjectId) : Store :=
  {| users := users st; subjects := subjects st; grades := grades st;
     calendar := calendar st; tasks := l; next_id := n |}.

(** [POST /api/tasks].  Text, category, priority and due date are required
    paths of the schema: [task.save()] rejects a task without one of them
    (or with an empty string for one of the first three), which the
    handler's [catch] answers with a 500.  [tb_dueDate] is [None] when the
    field is missing or is not a date. *)
Definition createTask (b : TaskBody) (user : Claims) (st : Store)
    : Response * Store :=
  match required_string (tb_text b), required_string (tb_category b),
        required_string (tb_priority b), tb_dueDate b with
  | Some text, Some category, Some priority, Some dueDate =>
      let task :=
        {| t_id := next_id st; t_text := text; t_category := category;
           t_priority := priority; t_dueDate := dueDate;
           t_completed := false; t_creator := userId user;
           t_notificationSent := false |} in
      (reply 201 (JTask task),
       set_tasks st (tasks st ++ [task]) (S (next_id st)))
  | _, _, _, _ => (reply 500 (JMessage "Error creating task"), st)
  end.

(** [24 * 60 * 60 * 1000] *)
Definition one_day_ms : Z := 24 * 60 * 60 * 1000.

(** The query of the sweep: owner, not completed, not notified, and
    [now < dueDate < now + 24h]. *)
Definition deadline_due (owner : ObjectId) (now : Z) (t : Task) : bool :=
  Nat.eqb (t_creator t) owner
  && negb (t_completed t)
  && negb (t_notificationSent t)
  && (now <? t_dueDate t)%Z
  && (t_dueDate t <? now + one_day_ms)%Z.

Definition mark_sent (t : Task) : Task :=
  {| t_id := t_id t; t_text := t_text t; t_category := t_category t;
     t_priority := t_priority t; t_dueDate := t_dueDate t;
     t_completed := t_completed t; t_creator := t_creator t;
     t_notificationSent := true |}.

(** [GET /api/tasks/check-deadlines]: the documents as read by [find], then
    [updateMany] on their [_id]s. *)
Definition checkDeadlines (now : Z) (user : Claims) (st : Store)
    : Response * Store :=
  let found := filter (deadline_due (userId user) now) (tasks st) in
  let ids := map t_id found in
  (json (JTasks found),
   set_tasks st
     (updateMany (fun t => existsb (Nat.eqb (t_id t)) ids) mark_sent (tasks st))
     (next_id st)).

(** ** Routing *)

Inductive Method := GET | POST | PUT | DELETE.

Definition method_eqb (a b : Method) : bool :=
  match a, b with
  | GET, GET | POST, POST | PUT, PUT | DELETE, DELETE => true
  | _, _ => false
  end.

(** One name per [app.METHOD(path, ...)] call of the server. *)
Inductive Route :=
| PostSignup | PostLogin | PostSubjects | GetSubjectsStudent | GetUser
| GetSubjectsRole | PutSubjectUnits | PostUpload | GetFile
| PostAssignment | GetAssignments | PostAssignmentSubmit
| GetSubjectsRoleGrades | GetStudents | GetStudentsOfSubject
| PostGrades | GetGrades | GetSubjects | GetMessages | PostMessages
| GetAlumniMessages | PostAlumniMessages
| GetCalendar | PostCalendar | PutCalendar | DeleteCalendar | PostCalendarUpload
| PostTasks | GetTasks | PutTask | DeleteTask | GetCheckDeadlines.

(** The registrations, in source order. *)
Definition routes : list (Method * string * Route) :=
  [ (POST, "/api/auth/signup", PostSignup);
    (POST, "/api/auth/login", PostLogin);
    (POST, "/api/subjects", PostSubjects);
    (GET, "/api/subjects/student", GetSubjectsStudent);
    (GET, "/api/user", GetUser);
    (GET, "/api/subjects/:role", GetSubjectsRole);
    (PUT, "/api/subjects/:subjectId/units", PutSubjectUnits);
    (POST, "/api/upload", PostUpload);
    (GET, "/api/files/:filename", GetFile);
    (POST, "/api/assignments/:subjectId", PostAssignment);
    (GET, "/api/assignments/:subjectId", GetAssignments);
    (POST, "/api/assignments/:assignmentId/submit", PostAssignmentSubmit);
    (GET, "/api/subjects/:role", GetSubjectsRoleGrades);
    (GET, "/api/students", GetStudents);
    (GET, "/api/students/:subjectId", GetStudentsOfSubject);
    (POST, "/api/grades", PostGrades);
    (GET, "/api/grades/:subjectId", GetGrades);
    (GET, "/api/subjects", GetSubjects);
    (GET, "/api/messages/:subjectId", GetMessages);
    (POST, "/api/messages", PostMessages);
    (GET, "/api/alumni-messages", GetAlumniMessages);
    (POST, "/api/alumni-messages", PostAlumniMessages);
    (GET, "/api/academic-calendar", GetCalendar);
    (POST, "/api/academic-calendar", PostCalendar);
    (PUT, "/api/academic-calendar/:id", PutCalendar);
    (DELETE, "/api/academic-calendar/:id", DeleteCalendar);
    (POST, "/api/academic-calendar/upload", PostCalendarUpload);
    (POST, "/api/tasks", PostTasks);
    (GET, "/api/tasks", GetTasks);
    (PUT, "/api/tasks/:taskId", PutTask);
    (DELETE, "/api/tasks/:taskId", DeleteTask);
    (GET, "/api/tasks/check-deadlines", GetCheckDeadlines) ].

(** A pattern segment written [:name] binds one non-empty path segment. *)
Definition is_param (seg : string) : bool :=
  match seg with
  | String c _ => Ascii.eqb c ":"
  | EmptyString => false
  end.

(** The value of a hexadecimal digit. *)
Definition hex_value (c : ascii) : option nat :=
  let n := nat_of_ascii c in
  if Nat.leb 48 n && Nat.leb n 57 then Some (n - 48)
  else if Nat.leb 65 n && Nat.leb n 70 then Some (n - 55)
  else if Nat.leb 97 n && Nat.leb n 102 then Some (n - 87)
  else None.

(** The pieces of a parameter value as [decodeURIComponent] reads it: a
    character taken as it is, or the byte written by an escape [%XX].
    [None] is the [URIError] of a [%] not followed by two hexadecimal
    digits. *)
Inductive UriPiece :=
| Plain (c : ascii)
| Escaped (byte : nat).

Fixpoint uri_pieces (s : string) : option (list UriPiece) :=
  match s with
  | EmptyString => Some []
  | String c rest =>
      if Ascii.eqb c "%" then
        match rest with
        | String h (String l rest') =>
            match hex_value h, hex_value l with
            | Some a, Some b =>
                option_map (cons (Escaped (16 * a + b))) (uri_pieces rest')
            | _, _ => None
            end
        | _ => None
        end
      else option_map (cons (Plain c)) (uri_pieces rest)
  end.

Definition between (lo n hi : nat) : bool := Nat.leb lo n && Nat.leb n hi.

(** What may follow the first byte of a character in UTF-8: how many
    bytes, and the range of the next one.  The ranges leave out the
    overlong forms, the surrogates and what lies beyond U+10FFFF, for
    which [decodeURIComponent] throws. *)
Definition utf8_lead (byte : nat) : option (nat * nat * nat) :=
  if between 194 byte 223 then Some (1, 128, 191)
  else if Nat.eqb byte 224 then Some (2, 160, 191)
  else if between 225 byte 236 || between 238 byte 239 then Some (2, 128, 191)
  else if Nat.eqb byte 237 then Some (2, 128, 159)
  else if Nat.eqb byte 240 then Some (3, 144, 191)
  else if between 241 byte 243 then Some (3, 128, 191)
  else if Nat.eqb byte 244 then Some (3, 128, 143)
  else None.

(** [pending] bytes of the current character are still to come, the next
    of them between [lo] and [hi]; they must be escapes. *)
Fixpoint utf8_decode (pending lo hi : nat) (pieces : list UriPiece)
    : option string :=
  match pieces with
  | [] => match pending with 0 => Some EmptyString | S _ => None end
  | piece :: rest =>
      match pending, piece with
      | 0, Plain c => option_map (String c) (utf8_decode 0 128 191 rest)
      | 0, Escaped byte =>
          if Nat.ltb byte 128 then
            option_map (String (ascii_of_nat byte)) (utf8_decode 0 128 191 rest)
          else
            match utf8_lead byte with
            | Some (more, lo', hi') =>
                option_map (String (ascii_of_nat byte))
                           (utf8_decode more lo' hi' rest)
            | None => None
            end
      | S pending', Escaped byte =>
          if between lo byte hi then
            option_map (String (ascii_of_nat byte))
                       (utf8_decode pending' 128 191 rest)
          else None
      | S _, Plain _ => None
      end
  end.

(** [decodeURIComponent], which Express applies to every parameter value:
    each [%XX] becomes the byte it writes, and the escaped bytes above 127
    must spell characters in UTF-8 (strings are held here as their UTF-8
    bytes).  [None] is the [URIError] thrown otherwise. *)
Definition decodeURIComponent (s : string) : option string :=
  match uri_pieces s with
  | Some pieces => utf8_decode 0 128 191 pieces
  | None => None
  end.

(** The parameter values when the path fits the pattern, segment by
    segment.  Express is set up with its defaults here: literal segments
    are compared, as written in the request, without regard to letter
    case; one trailing slash on the path is allowed; a parameter takes one
    non-empty segment and is percent-decoded.  Express skips a
    registration whose parameter does not decode, and answers 400 itself
    when no later registration fits; here the pattern then does not fit
    (nor does a later one: no pattern of this server has a [%] in a
    literal segment). *)
Fixpoint match_segments (pattern path : list string) : option (list string) :=
  match pattern, path with
  | [], [] => Some []
  | [], [EmptyString] => Some []
  | p :: pattern', s :: path' =>
      if is_param p then
        if Js.truthy s then
          match decodeURIComponent s with
          | Some value => option_map (cons value) (match_segments pattern' path')
          | None => None
          end
        else None
      else if String.eqb (Js.toLowerCase p) (Js.toLowerCase s)
           then match_segments pattern' path'
      else None
  | _, _ => None
  end.

Definition match_route (pattern path : string) : option (list string) :=
  match_segments (Js.split "/" pattern) (Js.split "/" path).

(** Express runs the first registered route that fits; every handler of this
    server answers without calling [next()], so later ones never run. *)
Fixpoint first_route (table : list (Method * string * Route)) (m : Method)
    (path : string) : option (Route * list string) :=
  match table with
  | [] => None
  | (m', pattern, r) :: rest =>
      if method_eqb m m' then
        match match_route pattern path with
        | Some params => Some (r, params)
        | None => first_route rest m path
        end
      else first_route rest m path
  end.

Definition route_of (m : Method) (path : string) : option (Route * list string) :=
  first_route routes m path.

(** An [_id] in a path, written in decimal. *)
Definition digit_of (c : ascii) : option nat :=
  let n := nat_of_ascii c in
  if Nat.leb 48 n && Nat.leb n 57 then Some (n - 48) else None.

Fixpoint parse_id_from (acc : nat) (s : string) : option ObjectId :=
  match s with
  | EmptyString => Some acc
  | String c rest =>
      match digit_of c with
      | Some d => parse_id_from (10 * acc + d) rest
      | None => None
      end
  end.

Definition castObjectId (s : string) : option ObjectId :=
  match s with
  | EmptyString => None
  | _ => parse_id_from 0 s
  end.

(** What a request carries besides its line and headers. *)
Inductive Payload :=
| NoBody
| SignupPayload (b : SignupBody)
| LoginPayload (b : LoginBody)
| SubjectPayload (b : SubjectBody)
| UnitsPayload (units : list UnitDoc)
| GradePayload (b : GradeBody)
| FilePayload (file : option CalendarFile)
| TaskPayload (b : TaskBody).

Record Request := {
  method : Method;
  path : string;
  authorization : option string;
  payload : Payload
}.

(** The server on the routes embedded here.  [None]: no route fits (the
    request is left to Express, which answers 404, or 400 for a parameter
    that does not decode), the route is not embedded, or the payload is
    not of the route's shape. *)
Definition app (st : Store) (req : Request) (salt : string) (now : Z)
    : option (Response * Store) :=
  let guarded := protected (authorization req) now in
  match route_of (method req) (path req), payload req with
  | Some (PostSignup, _), SignupPayload b => Some (signup st b salt now)
  | Some (PostLogin, _), LoginPayload b => Some (fst (login st b now), st)
  | Some (PostSubjects, _), SubjectPayload b => Some (guarded (createSubject b) st)
  | Some (GetSubjectsStudent, _), NoBody => Some (guarded subjectsStudent st)
  | Some (GetSubjectsRole, [r]), NoBody => Some (guarded (subjectsByRole r) st)
  | Some (GetSubjectsRoleGrades, [r]), NoBody =>
      Some (guarded (subjectsByRoleGrades r) st)
  | Some (PutSubjectUnits, [sid]), UnitsPayload units =>
      match castObjectId sid with
      | Some subjectId => Some (guarded (updateUnits subjectId units) st)
      | None =>
          Some (guarded (fun _ st' =>
            (reply 500 (JMessageWithError "Error updating units"), st')) st)
      end
  | Some (PostGrades, _), GradePayload b => Some (guarded (submitGrade b) st)
  | Some (GetSubjects, _), NoBody => Some (guarded listSubjects st)
  | Some (PostCalendarUpload, _), FilePayload f =>
      Some (guarded (uploadCalendar f) st)
  | Some (PostTasks, _), TaskPayload b => Some (guarded (createTask b) st)
  | Some (GetCheckDeadlines, _), NoBody => Some (guarded (checkDeadlines now) st)
  | _, _ => None
  end.

(** The stores the server can be in, started empty. *)
Inductive reachable : Store -> Prop :=
| reachable_empty : reachable empty_store
| reachable_step st req salt now r st' :
    reachable st -> app st req salt now = Some (r, st') -> reachable st'.

(** ** Store invariants *)

Definition ids_below (n : ObjectId) (ids : list ObjectId) : bool :=
  forallb (fun i => Nat.ltb i n) ids.

Definition pair_eqb (a b : ObjectId * ObjectId) : bool :=
  Nat.eqb (fst a) (fst b) && Nat.eqb (snd a) (snd b).

Definition grade_key (g : Grade) : ObjectId * ObjectId :=
  (g_student g, g_subject g).

(** Stored emails went through [isEmail]. *)
Definition emails_valid (st : Store) : bool :=
  forallb (fun u => isEmail (u_email u)) (users st).

(** Subject [_id]s are unique and were drawn from the supply. *)
Definition subjects_ok (st : Store) : bool :=
  distinct Nat.eqb (map s_id (subjects st))
  && ids_below (next_id st) (map s_id (subjects st)).

(** Grade [_id]s are unique and drawn from the supply, and no
    (student, subject) pair has two grade documents. *)
Definition grades_ok (st : Store) : bool :=
  distinct Nat.eqb (map g_id (grades st))
  && ids_below (next_id st) (map g_id (grades st))
  && distinct pair_eqb (map grade_key (grades st)).

(** Calendar [_id]s were drawn from the supply. *)
Definition calendar_ok (st : Store) : bool :=
  ids_below (next_id st) (map c_id (calendar st)).

Definition store_ok (st : Store) : bool :=
  emails_valid st && subjects_ok st && grades_ok st && calendar_ok st.

(** ** Notions the statements use *)

(** The grade documents of a (student, subject) pair. *)
Definition grades_of (st : Store) (student subject : ObjectId) : list Grade :=
  filter (grade_for student subject) (grades st).





(** What a client can read off a role-mismatch message: the text between
    the fixed opening and the final full stop. *)
Fixpoint strip_prefix (p s : string) : option string :=
  match p, s with
  | EmptyString, _ => Some s
  | String a p', String b s' => if Ascii.eqb a b then strip_prefix p' s' else None
  | String _ _, EmptyString => None
  end.

Fixpoint drop_last (s : string) : string :=
  match s with
  | EmptyString => EmptyString
  | String _ EmptyString => EmptyString
  | String c rest => String c (drop_last rest)
  end.

Definition role_of_denial (message : string) : option string :=
  option_map drop_last
    (strip_prefix "Access denied. Please login with your assigned role as "
                  message).

(** A login body with all three fields present. *)
Definition login_body (email password stated : string) : LoginBody :=
  {| lb_email := Some email; lb_password := Some password;
     lb_role := Some stated |}.

Definition json_message (b : Json) : option string :=
  match b with JMessage m => Some m | _ => None end.

Definition json_token (b : Json) : option string :=
  match b with JAuth token _ _ => Some token | _ => None end.

Definition json_subjects (b : Json) : list Subject :=
  match b with JSubjects l => l | _ => [] end.

Definition json_tasks (b : Json) : list Task :=
  match b with JTasks l => l | _ => [] end.

End Server.

(** ** A reference implementation of the library interface

    Tokens are the claims spelled out ([userId] in unary, a dot, the role);
    digests are the password behind a fixed marker.  It satisfies
    [LibraryLaws], and is what the worked examples run on. *)

Definition sample_encode (c : Claims) : string :=
  Js.replicate (userId c) "i" ++ "." ++ role c.

Fixpoint sample_decode (s : string) : option Claims :=
  match s with
  | EmptyString => None
  | String c rest =>
      if Ascii.eqb c "i" then
        option_map (fun cl => {| userId := S (userId cl); role := role cl |})
                   (sample_decode rest)
      else if Ascii.eqb c "." then Some {| userId := 0; role := rest |}
      else None
  end.

Definition sample_libraries : Libraries :=
  {| isEmail := Js.mem "@";
     bcrypt_hash := fun p _ _ => "$2a$" ++ p;
     bcrypt_compare := fun p digest => String.eqb digest ("$2a$" ++ p);
     jwt_sign := fun c _ _ _ => sample_encode c;
     jwt_verify := fun token _ _ => sample_decode token;
     JWT_SECRET := "secret" |}.

(** ** Requests and a worked scenario on the seed data *)

Definition request_get (path : string) (authHeader : option string) : Request :=
  {| method := GET; path := path; authorization := authHeader;
     payload := NoBody |}.

Definition request_post (path : string) (authHeader : option string)
    (p : Payload) : Request :=
  {| method := POST; path := path; authorization := authHeader; payload := p |}.

Definition store_after (o : option (Response * Store)) : Store :=
  match o with Some (_, st) => st | None => empty_store end.

(** The first student and the Maths subject of the seed script. *)
Definition student1 : SignupBody :=
  {| sb_email := Some "student1@example.com";
     sb_password := Some "password123";
     sb_role := Some "student";
     sb_name := Some "Arun Patel";
     sb_additionalInfo := Some "Enrolled in 2023";
     sb_degree := Some "BCA";
     sb_department := Some "Computer Science" |}.

Definition maths_subject : SubjectBody :=
  {| sj_title := Some "Calculus and Differential Equations";
     sj_degree := Some "BSc";
     sj_department := Some "Maths" |}.

(** The token the reference libraries issue to the first user as a student. *)
Definition student1_bearer : option string := Some "Bearer .student".

(** The store after [student1] signs up ... *)
Definition store_signed_up : Store :=
  store_after (app (L := sample_libraries) empty_store
                 (request_post "/api/auth/signup" None (SignupPayload student1))
                 "salt" 0).

(** ... and then creates the Maths subject with the token of that signup. *)
Definition store_with_subject : Store :=
  store_after (app (L := sample_libraries) store_signed_up
                 (request_post "/api/subjects" student1_bearer
                    (SubjectPayload maths_subject))
                 "salt" 0).

(** The documents those two requests store. *)
Definition student1_user : User :=
  {| u_id := 0; u_email := "student1@example.com";
     u_password := "$2a$password123"; u_role := "student";
     u_name := "Arun Patel"; u_additionalInfo := Some "Enrolled in 2023";
     u_degree := "BCA"; u_department := "Computer Science" |}.

Definition maths_subject_doc : Subject :=
  {| s_id := 1; s_title := "Calculus and Differential Equations";
     s_degree := "BSc"; s_department := "Maths"; s_creator := 0;
     s_units := [] |}.

(** A second caller, a teacher, and the token the reference libraries
    would issue to them. *)
Definition teacher_claims : Claims := {| userId := 1; role := "teacher" |}.
Definition teacher_bearer : option string := Some "Bearer i.teacher".

Definition limits_unit : UnitDoc :=
  {| unit_title := "Limits and Continuity"; unit_sections := [] |}.

Definition first_scores : GradeBody :=
  {| gb_student := 0; gb_subject := 1; gb_cycleTest1 := 12;
     gb_cycleTest2 := 15; gb_assignments := 7 |}.

Definition second_scores : GradeBody :=
  {| gb_student := 0; gb_subject := 1; gb_cycleTest1 := 21;
     gb_cycleTest2 := 18; gb_assignments := 9 |}.

Definition guest_lecture : RawEntry :=
  {| r_day := "Tuesday"; r_date := Some "05.11.2025";
     r_description := "Guest lecture on AI" |}.

Definition sports_day : RawEntry :=
  {| r_day := "Friday"; r_date := Some "01.11.2025";
     r_description := "Sports day" |}.

(** The store once a teacher has imported a one-entry calendar. *)
Definition store_with_calendar : Store :=
  snd (uploadCalendar (Some (EntryArray [sports_day])) teacher_claims
         store_with_subject).

From Stdlib Require Import Permutation.

(** * The remaining routes

    The handlers below take the claims the authentication middleware put in
    [req.user].  Those that only read answer without a next store. *)

(** [res.status(n).json(value)], or [res.status(n).json({ message })] on a
    refusal. *)
Inductive Answer (A : Type) :=
| Sent (code : nat) (value : A)
| Refused (code : nat) (message : string).

Arguments Sent {A} code value.
Arguments Refused {A} code message.

Definition answer_code {A : Type} (a : Answer A) : nat :=
  match a with Sent n _ => n | Refused n _ => n end.

(** [Model.findOneAndDelete(filter)]: the first document the filter selects
    is removed and returned; [None] when it selects nothing. *)
Fixpoint findOneAndDelete {A : Type} (p : A -> bool) (l : list A)
    : option A * list A :=
  match l with
  | [] => (None, [])
  | x :: rest =>
      if p x then (Some x, rest)
      else let (r, rest') := findOneAndDelete p rest in (r, x :: rest')
  end.

(** [.sort('createdAt')]: ascending; documents with equal keys keep the
    order the collection has them in. *)
Fixpoint insert_by {A : Type} (key : A -> Z) (x : A) (l : list A) : list A :=
  match l with
  | [] => [x]
  | y :: rest =>
      if (key y <=? key x)%Z then y :: insert_by key x rest
      else x :: y :: rest
  end.

Definition sort_by {A : Type} (key : A -> Z) (l : list A) : list A :=
  fold_left (fun acc x => insert_by key x acc) l [].

(** ** Profile and students (lines 304-315 and 488-531) *)




(** A user document after [.select('_id name')]. *)
Record StudentRow := { sr_id : ObjectId; sr_name : string }.

Definition is_student (u : User) : bool := String.eqb (u_role u) "student".

(** [GET /api/students] *)
Definition getStudents (user : Claims) (st : Store) : Answer (list StudentRow) :=
  if negb (String.eqb (role user) "teacher") then Refused 403 "Access denied"
  else Sent 200 (map (fun u => {| sr_id := u_id u; sr_name := u_name u |})
                     (filter is_student (users st))).

(** [{ ...student.toObject(), grades }] *)
Record StudentGrades := {
  sg_id : ObjectId;
  sg_name : string;
  sg_grades : option Grade
}.

(** [User.find({ role: 'student', degree, department })] for a subject *)
Definition student_of_subject (subject : Subject) (u : User) : bool :=
  is_student u
  && String.eqb (u_degree u) (s_degree subject)
  && String.eqb (u_department u) (s_department subject).

(** [GET /api/students/:subjectId] *)
Definition getStudentsOfSubject (subjectId : ObjectId) (user : Claims)
    (st : Store) : Answer (list StudentGrades) :=
  match find (fun s => Nat.eqb (s_id s) subjectId) (subjects st) with
  | None => Refused 404 "Subject not found"
  | Some subject =>
      Sent 200
        (map (fun student =>
                {| sg_id := u_id student; sg_name := u_name student;
                   sg_grades := find (grade_for (u_id student) (s_id subject))
                                     (grades st) |})
             (filter (student_of_subject subject) (users st)))
  end.

(** ** Reading grades (lines 562-573) *)

(** A grade with [.populate('subject', 'title')] applied: the subject's
    [_id] and title, or [null] when no such subject is stored. *)
Record GradeView := {
  gv_grade : Grade;
  gv_subject : option (ObjectId * string)
}.

Definition populate_subject_title (st : Store) (g : Grade) : GradeView :=
  {| gv_grade := g;
     gv_subject :=
       option_map (fun s => (s_id s, s_title s))
         (find (fun s => Nat.eqb (s_id s) (g_subject g)) (subjects st)) |}.

(** [GET /api/grades/:subjectId] *)
Definition getGrades (subjectId : ObjectId) (user : Claims) (st : Store)
    : Answer (list GradeView) :=
  Sent 200 (map (populate_subject_title st)
                (filter (grade_for (userId user) subjectId) (grades st))).

(** ** Calendar entries one at a time (lines 659-719) *)






Definition or_keep {A : Type} (o : option A) (old : A) : A :=
  match o with Some v => v | None => old end.




(** ** Tasks one at a time (lines 782-823) *)

Definition owned_by (owner : ObjectId) (t : Task) : bool :=
  Nat.eqb (t_creator t) owner.

(** [GET /api/tasks] *)
Definition getTasks (user : Claims) (st : Store) : Answer (list Task) :=
  Sent 200 (filter (owned_by (userId user)) (tasks st)).

(** The body of a task update is used as the update document itself: any
    schema path it carries is set, [creator] and [notificationSent]
    included. *)
Record TaskPatch := {
  tp_text : option string;
  tp_category : option string;
  tp_priority : option string;
  tp_dueDate : option Z;
  tp_completed : option bool;
  tp_creator : option ObjectId;
  tp_notificationSent : option bool
}.

Definition patch_task (p : TaskPatch) (t : Task) : Task :=
  {| t_id := t_id t;
     t_text := or_keep (tp_text p) (t_text t);
     t_category := or_keep (tp_category p) (t_category t);
     t_priority := or_keep (tp_priority p) (t_priority t);
     t_dueDate := or_keep (tp_dueDate p) (t_dueDate t);
     t_completed := or_keep (tp_completed p) (t_completed t);
     t_creator := or_keep (tp_creator p) (t_creator t);
     t_notificationSent := or_keep (tp_notificationSent p) (t_notificationSent t) |}.

(** [{ _id: taskId, creator: req.user.userId }] *)
Definition own_task (taskId : ObjectId) (user : Claims) (t : Task) : bool :=
  Nat.eqb (t_id t) taskId && owned_by (userId user) t.

(** [PUT /api/tasks/:taskId] *)
Definition putTask (taskId : ObjectId) (p : TaskPatch) (user : Claims)
    (st : Store) : Answer Task * Store :=
  match findOneAndUpdate (own_task taskId user) (patch_task p) (tasks st) with
  | (None, _) => (Refused 404 "Task not found", st)
  | (Some task, l) => (Sent 200 task, set_tasks st l (next_id st))
  end.

(** [DELETE /api/tasks/:taskId]; the value sent is the message. *)
Definition deleteTask (taskId : ObjectId) (user : Claims) (st : Store)
    : Answer string * Store :=
  match findOneAndDelete (own_task taskId user) (tasks st) with
  | (None, _) => (Refused 404 "Task not found", st)
  | (Some _, l) => (Sent 200 "Task deleted successfully",
                    set_tasks st l (next_id st))
  end.

(** ** Further invariants *)

(** No two stored users share an email or an [_id], every [_id] was drawn
    from the supply, and every stored role is one of the three. *)
Definition users_ok (st : Store) : bool :=
  distinct String.eqb (map u_email (users st))
  && distinct Nat.eqb (map u_id (users st))
  && ids_below (next_id st) (map u_id (users st))
  && forallb (fun u => isIn ["teacher"; "student"; "alumni"] (u_role u))
             (users st).

(** Task [_id]s are unique and were drawn from the supply. *)
Definition tasks_ok (st : Store) : bool :=
  distinct Nat.eqb (map t_id (tasks st))
  && ids_below (next_id st) (map t_id (tasks st)).

(** Calendar [_id]s are unique. *)
Definition calendar_distinct (st : Store) : bool :=
  distinct Nat.eqb (map c_id (calendar st)).

(** An entry of an uploaded array whose date the import can split: a string
    with a dot in it. *)
Definition has_dotted_date (e : RawEntry) : bool :=
  match r_date e with Some date => Js.mem "." date | None => false end.

(** ** Assignments and messages (lines 404-465 and 594-656)

    These routes work on three more collections, kept beside the store. *)

(** [req.file] as multer leaves it: the name the client gave and the name
    the file was stored under. *)
Record FileUpload := { originalname : string; filename : string }.

Definition file_ref (f : FileUpload) : FileRef :=
  {| f_name := originalname f; f_url := "/api/files/" ++ filename f |}.

Record Submission := {
  sub_student : ObjectId;
  sub_file : FileRef;
  sub_submittedAt : Z
}.

Record Assignment := {
  a_id : ObjectId;
  a_title : string;
  a_description : string;
  a_dueDate : Z;
  a_subject : ObjectId;
  a_creator : ObjectId;
  a_file : option FileRef;
  a_submissions : list Submission
}.

Record Message := {
  m_id : ObjectId;
  m_text : string;
  m_sender : ObjectId;
  m_subject : option ObjectId;
  m_createdAt : Z
}.

Record AlumniMessage := {
  am_id : ObjectId;
  am_text : string;
  am_sender : ObjectId;
  am_degree : string;
  am_department : string;
  am_createdAt : Z
}.

Record Campus := {
  store : Store;
  assignments : list Assignment;
  messages : list Message;
  alumniMessages : list AlumniMessage
}.

Definition empty_campus : Campus :=
  {| store := empty_store; assignments := []; messages := [];
     alumniMessages := [] |}.

(** The store with its supply of [_id]s advanced by one. *)
Definition take_id (st : Store) : Store :=
  {| users := users st; subjects := subjects st; grades := grades st;
     calendar := calendar st; tasks := tasks st; next_id := S (next_id st) |}.

(** The multipart fields of a new assignment; [ab_dueDate] is [None] when
    the field is missing or is not a date. *)
Record AssignmentBody := {
  ab_title : option string;
  ab_description : option string;
  ab_dueDate : option Z
}.

(** [POST /api/assignments/:subjectId].  [assignment.save()] rejects a
    document without its required paths, which the handler's [catch]
    answers with a 500. *)
Definition postAssignment (subjectId : ObjectId) (b : AssignmentBody)
    (file : option FileUpload) (user : Claims) (c : Campus)
    : Answer Assignment * Campus :=
  match required_string (ab_title b), required_string (ab_description b),
        ab_dueDate b with
  | Some title, Some description, Some dueDate =>
      let assignment :=
        {| a_id := next_id (store c); a_title := title;
           a_description := description; a_dueDate := dueDate;
           a_subject := subjectId; a_creator := userId user;
           a_file := option_map file_ref file; a_submissions := [] |} in
      (Sent 201 assignment,
       {| store := take_id (store c);
          assignments := assignments c ++ [assignment];
          messages := messages c; alumniMessages := alumniMessages c |})
  | _, _, _ => (Refused 500 "Error creating assignment", c)
  end.

(** [GET /api/assignments/:subjectId] *)
Definition getAssignments (subjectId : ObjectId) (user : Claims) (c : Campus)
    : Answer (list Assignment) :=
  Sent 200 (filter (fun a => Nat.eqb (a_subject a) subjectId) (assignments c)).

Definition push_submission (s : Submission) (a : Assignment) : Assignment :=
  {| a_id := a_id a; a_title := a_title a; a_description := a_description a;
     a_dueDate := a_dueDate a; a_subject := a_subject a;
     a_creator := a_creator a; a_file := a_file a;
     a_submissions := a_submissions a ++ [s] |}.

(** [POST /api/assignments/:assignmentId/submit]; [now] is the
    [Date.now] default of [submittedAt].  Reading [req.file.originalname]
    without an uploaded file throws, which the [catch] answers with a 500. *)
Definition submitAssignment (assignmentId : ObjectId) (file : option FileUpload)
    (user : Claims) (now : Z) (c : Campus) : Answer string * Campus :=
  match find (fun a => Nat.eqb (a_id a) assignmentId) (assignments c) with
  | None => (Refused 404 "Assignment not found", c)
  | Some assignment =>
      match file with
      | None => (Refused 500 "Error submitting assignment", c)
      | Some f =>
          let submission :=
            {| sub_student := userId user; sub_file := file_ref f;
               sub_submittedAt := now |} in
          (Sent 201 "Assignment submitted successfully",
           {| store := store c;
              assignments :=
                snd (findOneAndUpdate
                       (fun a => Nat.eqb (a_id a) (a_id assignment))
                       (push_submission submission) (assignments c));
              messages := messages c; alumniMessages := alumniMessages c |})
      end
  end.

(** The submissions stored for an assignment. *)
Definition submissions_of (c : Campus) (assignmentId : ObjectId)
    : list Submission :=
  match find (fun a => Nat.eqb (a_id a) assignmentId) (assignments c) with
  | Some a => a_submissions a
  | None => []
  end.

(** A sender after [.populate('sender', 'name role')]: [None] when no such
    user is stored. *)
Record Sender := { sn_id : ObjectId; sn_name : string; sn_role : string }.

Definition populate_sender (st : Store) (id : ObjectId) : option Sender :=
  option_map (fun u => {| sn_id := u_id u; sn_name := u_name u;
                          sn_role := u_role u |})
             (findUserById st id).

Record MessageView := { mv_message : Message; mv_sender : option Sender }.

Record AlumniMessageView := {
  av_message : AlumniMessage;
  av_sender : option Sender
}.

(** [GET /api/messages/:subjectId] *)
Definition getMessages (subjectId : ObjectId) (user : Claims) (c : Campus)
    : Answer (list MessageView) :=
  Sent 200
    (map (fun m => {| mv_message := m;
                      mv_sender := populate_sender (store c) (m_sender m) |})
         (sort_by m_createdAt
            (filter (fun m => match m_subject m with
                              | Some s => Nat.eqb s subjectId
                              | None => false
                              end)
                    (messages c)))).

Record MessageBody := { mb_text : option string; mb_subjectId : option ObjectId }.

(** [POST /api/messages] *)
Definition postMessage (b : MessageBody) (user : Claims) (now : Z) (c : Campus)
    : Answer MessageView * Campus :=
  match required_string (mb_text b) with
  | None => (Refused 500 "Error posting message", c)
  | Some text =>
      let message :=
        {| m_id := next_id (store c); m_text := text; m_sender := userId user;
           m_subject := mb_subjectId b; m_createdAt := now |} in
      (Sent 201 {| mv_message := message;
                   mv_sender := populate_sender (store c) (userId user) |},
       {| store := take_id (store c); assignments := assignments c;
          messages := messages c ++ [message];
          alumniMessages := alumniMessages c |})
  end.

(** [AlumniMessage.find({ degree, department })] *)
Definition alumni_scope (degree department : string) (m : AlumniMessage) : bool :=
  String.eqb (am_degree m) degree && String.eqb (am_department m) department.

(** [GET /api/alumni-messages].  Reading [user.degree] of a missing user
    throws, which the [catch] answers with a 500. *)
Definition getAlumniMessages (user : Claims) (c : Campus)
    : Answer (list AlumniMessageView) :=
  match findUserById (store c) (userId user) with
  | None => Refused 500 "Error fetching alumni messages"
  | Some u =>
      Sent 200
        (map (fun m => {| av_message := m;
                          av_sender := populate_sender (store c) (am_sender m) |})
             (sort_by am_createdAt
                (filter (alumni_scope (u_degree u) (u_department u))
                        (alumniMessages c))))
  end.

(** [POST /api/alumni-messages]: the message is filed under the sender's
    own degree and department, all three of text, degree and department
    being required paths. *)
Definition postAlumniMessage (text : option string) (user : Claims) (now : Z)
    (c : Campus) : Answer AlumniMessageView * Campus :=
  match findUserById (store c) (userId user) with
  | None => (Refused 500 "Error posting alumni message", c)
  | Some u =>
      match required_string text, required_string (Some (u_degree u)),
            required_string (Some (u_department u)) with
      | Some t, Some degree, Some department =>
          let message :=
            {| am_id := next_id (store c); am_text := t;
               am_sender := userId user; am_degree := degree;
               am_department := department; am_createdAt := now |} in
          (Sent 201 {| av_message := message;
                       av_sender := populate_sender (store c) (userId user) |},
           {| store := take_id (store c); assignments := assignments c;
              messages := messages c;
              alumniMessages := alumniMessages c ++ [message] |})
      | _, _, _ => (Refused 500 "Error posting alumni message", c)
      end
  end.

(** Ascending in the key. *)
Fixpoint ascending {A : Type} (key : A -> Z) (l : list A) : bool :=
  match l with
  | [] => true
  | x :: rest =>
      forallb (fun y => (key x <=? key y)%Z) rest && ascending key rest
  end.

(** The three together. *)
Definition records_ok (st : Store) : bool :=
  users_ok st && tasks_ok st && calendar_distinct st.

(** ** More of the worked scenario *)

Definition student_claims : Claims := {| userId := 0; role := "student" |}.

(** [student1] with a five-character password. *)
Definition student1_short_password : SignupBody :=
  {| sb_email := Some "student1@example.com";
     sb_password := Some "12345";
     sb_role := Some "student";
     sb_name := Some "Arun Patel";
     sb_additionalInfo := Some "Enrolled in 2023";
     sb_degree := Some "BCA";
     sb_department := Some "Computer Science" |}.

(** The store once the student's grade is in, and scores for another
    student of the same subject. *)
Definition store_with_grade : Store :=
  snd (submitGrade first_scores teacher_claims store_with_subject).

Definition other_scores : GradeBody :=
  {| gb_student := 5; gb_subject := 1; gb_cycleTest1 := 9;
     gb_cycleTest2 := 11; gb_assignments := 6 |}.

(** The first task of the seed script, due an hour after the epoch, as the
    student would create it. *)
Definition dsa_task : TaskBody :=
  {| tb_text := Some "Complete DSA assignment"; tb_category := Some "Academic";
     tb_priority := Some "High"; tb_dueDate := Some 3600000%Z |}.

Definition dsa_task_doc : Task :=
  {| t_id := 2; t_text := "Complete DSA assignment"; t_category := "Academic";
     t_priority := "High"; t_dueDate := 3600000; t_completed := false;
     t_creator := 0; t_notificationSent := false |}.

Definition store_with_task : Store :=
  snd (createTask dsa_task student_claims store_with_subject).

Definition no_patch : TaskPatch :=
  {| tp_text := None; tp_category := None; tp_priority := None;
     tp_dueDate := None; tp_completed := Some true; tp_creator := None;
     tp_notificationSent := None |}.



(** The campus around [store_with_subject], with no assignment or message
    yet, and then with the first assignment of the seed script. *)
Definition campus_start : Campus :=
  {| store := store_with_subject; assignments := []; messages := [];
     alumniMessages := [] |}.

Definition stack_assignment : AssignmentBody :=
  {| ab_title := Some "Implement Stack using Arrays";
     ab_description :=
       Some "Write a program to implement stack operations using arrays in C++";
     ab_dueDate := Some 1763164800000%Z |}.

Definition campus_with_assignment : Campus :=
  snd (postAssignment 1 stack_assignment None teacher_claims campus_start).

Definition stack_upload : FileUpload :=
  {| originalname := "stack.cpp"; filename := "1700000000000-stack.cpp" |}.

Definition welcome : MessageBody :=
  {| mb_text := Some "Welcome to the Data Structures class! Please check the syllabus.";
     mb_subjectId := Some 1 |}.

(** * Properties *)

(** ** The reference libraries satisfy the laws *)

Lemma sample_decode_encode (c : Claims) : sample_decode (sample_encode c) = Some c.
Proof.
  destruct c as [n r]. unfold sample_encode. simpl.
  induction n as [|n IH]; simpl.
  - reflexivity.
  - rewrite IH. reflexivity.
Qed.

Lemma sample_laws : LibraryLaws sample_libraries.
Proof.
  split; simpl.
  - intros p _ _. apply String.eqb_refl.
  - intros c _ _ _ _ _. apply sample_decode_encode.
Qed.

(** ** Lists and strings *)

Lemma find_first {A : Type} (p : A -> bool) (l : list A) (x : A) :
  find p l = Some x ->
  exists l1 l2, l = (l1 ++ x :: l2)%list /\ forallb (fun y => negb (p y)) l1 = true
                /\ p x = true.
Proof.
  induction l as [|y l IH]; simpl; [discriminate|].
  destruct (p y) eqn:Hy.
  - intros [= ->]. exists [], l. auto.
  - intros H. destruct (IH H) as (l1 & l2 & -> & Hl1 & Hx).
    exists (y :: l1), l2. simpl. rewrite Hy, Hl1. auto.
Qed.

Lemma find_none_filter {A : Type} (p : A -> bool) (l : list A) :
  find p l = None -> filter p l = [].
Proof.
  induction l as [|y l IH]; simpl; [reflexivity|].
  destruct (p y); [discriminate | exact IH].
Qed.

Lemma findOneAndUpdate_none {A : Type} (p : A -> bool) (f : A -> A) (l : list A) :
  forallb (fun y => negb (p y)) l = true -> findOneAndUpdate p f l = (None, l).
Proof.
  induction l as [|y l IH]; simpl; [reflexivity|].
  intros H. apply andb_true_iff in H as [Hy Hl].
  apply negb_true_iff in Hy. rewrite Hy, (IH Hl). reflexivity.
Qed.

Lemma findOneAndUpdate_at {A : Type} (p : A -> bool) (f : A -> A)
    (l1 l2 : list A) (x : A) :
  forallb (fun y => negb (p y)) l1 = true -> p x = true ->
  findOneAndUpdate p f (l1 ++ x :: l2)%list
  = (Some (f x), (l1 ++ f x :: l2)%list).
Proof.
  induction l1 as [|y l1 IH]; simpl; intros Hl Hx.
  - rewrite Hx. reflexivity.
  - apply andb_true_iff in Hl as [Hy Hl].
    apply negb_true_iff in Hy. rewrite Hy, (IH Hl Hx). reflexivity.
Qed.

Lemma distinct_NoDup {A : Type} (eqb : A -> A -> bool) (l : list A) :
  (forall a b, eqb a b = true <-> a = b) ->
  distinct eqb l = true <-> NoDup l.
Proof.
  intros Heq. induction l as [|x l IH]; simpl.
  - split; [constructor | reflexivity].
  - rewrite andb_true_iff, negb_true_iff, IH. split.
    + intros [Hx Hl]. constructor; [|exact Hl].
      intros Hin. assert (existsb (eqb x) l = true) as E.
      { apply existsb_exists. exists x. split; [exact Hin | now apply Heq]. }
      congruence.
    + intros H. inversion H as [|? ? Hx Hl]; subst. split; [|exact Hl].
      destruct (existsb (eqb x) l) eqn:E; [|reflexivity].
      apply existsb_exists in E as (y & Hy & Hxy).
      apply Heq in Hxy. subst y. contradiction.
Qed.

Lemma NoDup_snoc {A : Type} (l : list A) (x : A) :
  NoDup l -> ~ In x l -> NoDup (l ++ [x])%list.
Proof.
  induction l as [|y l IH]; simpl; intros Hl Hx.
  - constructor; [intros [] | constructor].
  - inversion Hl as [|? ? Hy Hl']; subst. constructor.
    + intros Hin. apply in_app_or in Hin as [Hin|[->|[]]]; [contradiction|].
      apply Hx. now left.
    + apply IH; [exact Hl' | intros Hin; apply Hx; now right].
Qed.

Lemma pair_eqb_eq (a b : ObjectId * ObjectId) : pair_eqb a b = true <-> a = b.
Proof.
  destruct a as [a1 a2], b as [b1 b2]. unfold pair_eqb. simpl.
  rewrite andb_true_iff, !Nat.eqb_eq. split; [intros [-> ->]; reflexivity|].
  intros [= -> ->]. auto.
Qed.

Lemma ids_below_mono (n m : ObjectId) (ids : list ObjectId) :
  n <= m -> ids_below n ids = true -> ids_below m ids = true.
Proof.
  unfold ids_below. rewrite !forallb_forall. intros Hnm H i Hi.
  specialize (H i Hi). apply Nat.ltb_lt in H. apply Nat.ltb_lt. lia.
Qed.

Lemma ids_below_fresh (n : ObjectId) (ids : list ObjectId) :
  ids_below n ids = true -> ~ In n ids.
Proof.
  unfold ids_below. rewrite forallb_forall. intros H Hin.
  specialize (H n Hin). apply Nat.ltb_lt in H. lia.
Qed.

Lemma strip_prefix_app (p s : string) : strip_prefix p (p ++ s) = Some s.
Proof.
  induction p as [|a p IH]; simpl; [reflexivity|].
  rewrite Ascii.eqb_refl. exact IH.
Qed.

Lemma drop_last_app (s : string) (c : ascii) :
  drop_last (s ++ String c EmptyString) = s.
Proof.
  induction s as [|a s IH]; simpl; [reflexivity|].
  rewrite IH. destruct s; reflexivity.
Qed.

Lemma role_of_denial_message (stored : string) :
  role_of_denial (role_mismatch_message stored) = Some stored.
Proof.
  unfold role_of_denial, role_mismatch_message.
  rewrite strip_prefix_app. simpl. f_equal. apply drop_last_app.
Qed.

Section Authentication.

Context {L : Libraries}.

Lemma findUserByEmail_some (st : Store) (email : string) (user : User) :
  findUserByEmail st email = Some user ->
  In user (users st) /\ u_email user = email.
Proof.
  unfold findUserByEmail. intros H. apply find_some in H as [Hin He].
  apply String.eqb_eq in He. auto.
Qed.

Lemma stored_email_valid (st : Store) (email : string) (user : User) :
  emails_valid st = true -> findUserByEmail st email = Some user ->
  isEmail email = true.
Proof.
  unfold emails_valid. rewrite forallb_forall. intros Hv Hf.
  apply findUserByEmail_some in Hf as [Hin <-]. exact (Hv user Hin).
Qed.

(** C1 (as amended): a request to a protected route whose bearer token
    fails [jwt.verify] is answered by the guard with status 403 and the
    message 'Invalid or expired token'; the route handler does not run and
    the store is left as it was.  (401 is the answer to a missing token.) *)
Theorem invalid_token_rejected_403 :
  forall (authHeader : option string) (token : string) (now : Z)
         (handler : Claims -> Store -> Response * Store) (st : Store),
    bearer_token authHeader = Some token ->
    jwt_verify token JWT_SECRET now = None ->
    protected authHeader now handler st
    = (reply 403 (JMessage "Invalid or expired token"), st).
Proof.
  intros authHeader token now handler st Htok Hver.
  unfold protected, authenticateToken. rewrite Htok, Hver. reflexivity.
Qed.

(** A request without a usable token is the one the guard answers 401. *)
Lemma missing_token_rejected_401 :
  forall (authHeader : option string) (now : Z)
         (handler : Claims -> Store -> Response * Store) (st : Store),
    bearer_token authHeader = None ->
    protected authHeader now handler st
    = (reply 401 (JMessage "No token provided"), st).
Proof.
  intros authHeader now handler st Htok.
  unfold protected, authenticateToken. rewrite Htok. reflexivity.
Qed.

Lemma login_role_mismatch (st : Store) (email password stated : string)
    (now : Z) (user : User) :
  emails_valid st = true ->
  findUserByEmail st email = Some user ->
  u_role user <> stated ->
  login st (login_body email password stated) now
  = (reply 403 (JMessage (role_mismatch_message (u_role user))),
     [FindOneUser email]).
Proof.
  intros Hv Hf Hne. unfold login, login_validation. simpl.
  rewrite (stored_email_valid st email user Hv Hf). simpl. rewrite Hf.
  apply String.eqb_neq in Hne. rewrite Hne. reflexivity.
Qed.

(** C3: a login whose email is that of a stored user and whose stated role
    is not the stored one is answered 403 with the role-mismatch message,
    whatever password is supplied: the answer is the same for a password
    [bcrypt.compare] accepts and for one it rejects. *)
Theorem login_wrong_role_403_any_password :
  forall (st : Store) (email stated : string) (now : Z) (user : User),
    emails_valid st = true ->
    findUserByEmail st email = Some user ->
    u_role user <> stated ->
    forall password : string,
      fst (login st (login_body email password stated) now)
      = reply 403 (JMessage (role_mismatch_message (u_role user))).
Proof.
  intros st email stated now user Hv Hf Hne password.
  rewrite (login_role_mismatch st email password stated now user Hv Hf Hne). reflexivity.
Qed.

(** C10: on such a login the rejection is produced after the user lookup
    alone, with no call to [bcrypt.compare]; its message is the fixed
    sentence around the stored role, so the stored role can be read off the
    response by a caller who supplied any password at all. *)
Theorem login_wrong_role_discloses_role :
  forall (st : Store) (email stated password : string) (now : Z) (user : User),
    emails_valid st = true ->
    findUserByEmail st email = Some user ->
    u_role user <> stated ->
    let (r, calls) := login st (login_body email password stated) now in
    calls = [FindOneUser email]
    /\ (forall p d, ~ In (BcryptCompare p d) calls)
    /\ status r = 403
    /\ json_message (body r)
       = Some ("Access denied. Please login with your assigned role as "
               ++ u_role user ++ ".")
    /\ match json_message (body r) with
       | Some m => role_of_denial m
       | None => None
       end = Some (u_role user).
Proof.
  intros st email stated password now user Hv Hf Hne.
  rewrite (login_role_mismatch st email password stated now user Hv Hf Hne). simpl.
  repeat split.
  - intros p d [H|[]]. discriminate.
  - apply role_of_denial_message.
Qed.

End Authentication.

Section Signup.

Context {L : Libraries}.

Lemma check_nil (ok : bool) (msg : string) : check ok msg = [] -> ok = true.
Proof. destruct ok; [reflexivity | discriminate]. Qed.

Lemma signup_validation_nil (b : SignupBody) :
  signup_validation b = [] ->
  isEmail (field (sb_email b)) = true
  /\ Nat.leb 6 (String.length (field (sb_password b))) = true
  /\ isIn ["teacher"; "student"; "alumni"] (field (sb_role b)) = true
  /\ notEmpty (field (sb_name b)) = true
  /\ notEmpty (field (sb_degree b)) = true
  /\ notEmpty (field (sb_department b)) = true.
Proof.
  unfold signup_validation. intros H.
  repeat (apply app_eq_nil in H; destruct H as [?%check_nil H]).
  apply check_nil in H. auto 10.
Qed.

Lemma find_app_none {A : Type} (p : A -> bool) (l l' : list A) :
  find p l = None -> find p (l ++ l')%list = find p l'.
Proof.
  induction l as [|y l IH]; simpl; [reflexivity|].
  destruct (p y); [discriminate | exact IH].
Qed.

(** C9 (as amended): a signup whose email is that of a stored user is
    answered 400 and leaves the store, and so every stored user, exactly as
    it was.  The validators run before the lookup: when the body passes
    them the answer is the duplicate-email message 'User already exists
    with this email', and when it does not the answer is the list of the
    validators' messages. *)
Theorem signup_existing_email_400 :
  forall (st : Store) (b : SignupBody) (salt : string) (now : Z)
         (email : string) (user : User),
    sb_email b = Some email ->
    findUserByEmail st email = Some user ->
    status (fst (signup st b salt now)) = 400
    /\ snd (signup st b salt now) = st
    /\ (signup_validation b = [] ->
        fst (signup st b salt now)
        = reply 400 (JMessage "User already exists with this email"))
    /\ (signup_validation b <> [] ->
        fst (signup st b salt now)
        = reply 400 (JErrors (signup_validation b))).
Proof.
  intros st b salt now email user He Hf. unfold signup.
  destruct (signup_validation b) as [|e errs].
  - rewrite He. simpl. rewrite Hf. simpl.
    repeat split. intros H. contradiction H. reflexivity.
  - simpl. repeat split. discriminate.
Qed.

(** The user document a successful signup stores. *)
Lemma signup_fresh_email (st : Store) (b : SignupBody) (salt : string) (now : Z) :
  signup_validation b = [] ->
  findUserByEmail st (field (sb_email b)) = None ->
  let user :=
    {| u_id := next_id st; u_email := field (sb_email b);
       u_password := bcrypt_hash (field (sb_password b)) 10 salt;
       u_role := field (sb_role b); u_name := field (sb_name b);
       u_additionalInfo := sb_additionalInfo b;
       u_degree := field (sb_degree b);
       u_department := field (sb_department b) |} in
  signup st b salt now
  = (reply 201 (JAuth (jwt_sign {| userId := next_id st;
                                   role := field (sb_role b) |}
                                JWT_SECRET one_hour now)
                      (field (sb_role b)) (field (sb_name b))),
     save_user st user).
Proof.
  intros Hv Hf. unfold signup. rewrite Hv, Hf. reflexivity.
Qed.

Context {LL : LibraryLaws L}.

(** C4: a signup that passes validation with an email no stored user has is
    answered 201 and stores one new user; a login with the same email,
    password and role is then answered 200, and the token it returns, like
    the one signup returned, verifies (within the hour) to the [_id] and
    role of the user signup created. *)
Theorem signup_then_login_same_identity :
  forall (st : Store) (b : SignupBody) (salt : string) (t1 t2 : Z)
         (email password stated : string),
    sb_email b = Some email ->
    sb_password b = Some password ->
    sb_role b = Some stated ->
    signup_validation b = [] ->
    findUserByEmail st email = None ->
    let r1 := fst (signup st b salt t1) in
    let st1 := snd (signup st b salt t1) in
    let r2 := fst (login st1 (login_body email password stated) t2) in
    status r1 = 201 /\ status r2 = 200
    /\ exists (user : User) (token1 token2 : string),
         users st1 = (users st ++ [user])%list
         /\ u_email user = email /\ u_role user = stated
         /\ json_token (body r1) = Some token1
         /\ json_token (body r2) = Some token2
         /\ (forall t, (t / 1000 < t1 / 1000 + 3600)%Z ->
               jwt_verify token1 JWT_SECRET t
               = Some {| userId := u_id user; role := stated |})
         /\ (forall t, (t / 1000 < t2 / 1000 + 3600)%Z ->
               jwt_verify token2 JWT_SECRET t
               = Some {| userId := u_id user; role := stated |}).
Proof.
  intros st b salt t1 t2 email password stated He Hp Hr Hv Hf.
  pose proof (signup_validation_nil b Hv) as (Hmail & _).
  assert (field (sb_email b) = email) as Fe by (rewrite He; reflexivity).
  assert (field (sb_password b) = password) as Fp by (rewrite Hp; reflexivity).
  assert (field (sb_role b) = stated) as Fr by (rewrite Hr; reflexivity).
  rewrite <- Fe in Hf.
  rewrite (signup_fresh_email st b salt t1 Hv Hf).
  rewrite Fe, Fp, Fr in *. cbn [fst snd].
  set (user := {| u_id := next_id st; u_email := email;
                  u_password := bcrypt_hash password 10 salt;
                  u_role := stated; u_name := field (sb_name b);
                  u_additionalInfo := sb_additionalInfo b;
                  u_degree := field (sb_degree b);
                  u_department := field (sb_department b) |}).
  assert (findUserByEmail (save_user st user) email = Some user) as Hfound.
  { unfold findUserByEmail in *. cbn [save_user users].
    rewrite (find_app_none _ (users st) [user] Hf). simpl.
    rewrite String.eqb_refl. reflexivity. }
  assert (login (save_user st user) (login_body email password stated) t2
          = (json (JAuth (jwt_sign {| userId := next_id st; role := stated |}
                                   JWT_SECRET one_hour t2)
                         stated (field (sb_name b))),
             [FindOneUser email;
              BcryptCompare password (bcrypt_hash password 10 salt);
              JwtSign {| userId := next_id st; role := stated |}])) as Hlogin.
  { unfold login, login_validation. simpl. rewrite Hmail. simpl.
    rewrite Hfound. simpl. rewrite String.eqb_refl. simpl.
    rewrite bcrypt_compare_hash. reflexivity. }
  rewrite Hlogin. cbn [fst snd].
  split; [reflexivity|]. split; [reflexivity|].
  exists user. eexists. eexists.
  split; [reflexivity|]. split; [reflexivity|]. split; [reflexivity|].
  split; [reflexivity|]. split; [reflexivity|].
  split; intros t Ht; apply jwt_verify_sign; exact Ht.
Qed.

End Signup.

Section Subjects.

Context {L : Libraries}.

Lemma subject_id_unique (st : Store) (s s' : Subject) :
  subjects_ok st = true ->
  In s (subjects st) -> In s' (subjects st) -> s_id s' = s_id s -> s' = s.
Proof.
  unfold subjects_ok. intros H%andb_true_iff. destruct H as [Hd _].
  apply (distinct_NoDup Nat.eqb _ Nat.eqb_eq) in Hd. revert Hd.
  induction (subjects st) as [|x l IH]; simpl; [contradiction|].
  intros Hd Hs Hs' Hid. inversion Hd as [|? ? Hx Hl]; subst.
  destruct Hs as [->|Hs], Hs' as [->|Hs'].
  - reflexivity.
  - exfalso. apply Hx. rewrite <- Hid. apply in_map. exact Hs'.
  - exfalso. apply Hx. rewrite Hid. apply in_map. exact Hs.
  - apply IH; assumption.
Qed.

(** C5: when the authenticated caller is not the creator of a stored
    subject, a unit update aimed at that subject is answered 404 (not found
    or no permission) and the store, the subject included, is exactly as it
    was before the call. *)
Theorem update_units_by_non_creator_404 :
  forall (st : Store) (subject : Subject) (units : list UnitDoc)
         (authHeader : option string) (now : Z) (caller : Claims),
    subjects_ok st = true ->
    In subject (subjects st) ->
    authenticateToken authHeader now = Next caller ->
    userId caller <> s_creator subject ->
    protected authHeader now (updateUnits (s_id subject) units) st
    = (reply 404 (JMessage
         "Subject not found or you do not have permission to update it"), st).
Proof.
  intros st subject units authHeader now caller Hok Hin Hauth Hne.
  unfold protected. rewrite Hauth. unfold updateUnits.
  rewrite findOneAndUpdate_none; [reflexivity|].
  apply forallb_forall. intros s' Hs'. apply negb_true_iff.
  apply andb_false_iff.
  destruct (Nat.eqb (s_id s') (s_id subject)) eqn:Hid; [right | left; reflexivity].
  apply Nat.eqb_eq in Hid.
  rewrite (subject_id_unique st subject s' Hok Hin Hs' Hid).
  unfold created_by. apply Nat.eqb_neq. auto.
Qed.

(** The creator's own update, for contrast: it is applied. *)
Lemma update_units_by_creator (st : Store) (subject : Subject)
    (units : list UnitDoc) (caller : Claims) :
  In subject (subjects st) ->
  userId caller = s_creator subject ->
  exists updated,
    fst (updateUnits (s_id subject) units caller st) = json (JSubject updated)
    /\ s_units updated = units.
Proof.
  intros Hin Hc. unfold updateUnits.
  set (p := fun s => Nat.eqb (s_id s) (s_id subject)
                     && created_by (userId caller) s).
  destruct (find p (subjects st)) as [x|] eqn:Hf.
  - apply find_first in Hf as (l1 & l2 & -> & Hl1 & Hx).
    rewrite (findOneAndUpdate_at p _ l1 l2 x Hl1 Hx). simpl. eauto.
  - exfalso. apply (find_none _ _ Hf) in Hin. unfold p, created_by in Hin.
    rewrite Nat.eqb_refl, Hc, Nat.eqb_refl in Hin. discriminate.
Qed.

End Subjects.

Section Grades.

Lemma filter_all_false {A : Type} (p : A -> bool) (l : list A) :
  (forall x, In x l -> p x = false) -> filter p l = [].
Proof.
  induction l as [|y l IH]; simpl; intros H; [reflexivity|].
  rewrite (H y (or_introl eq_refl)). apply IH. intros x Hx. apply H. now right.
Qed.

(** What one submission does to a store whose grades satisfy the
    invariant: the pair has exactly the submitted grade afterwards, and
    the invariant still holds. *)
Lemma submitGrade_spec (b : GradeBody) (user : Claims) (st : Store) :
  grades_ok st = true ->
  let st' := snd (submitGrade b user st) in
  grades_ok st' = true
  /\ next_id st <= next_id st'
  /\ exists g,
       grades_of st' (gb_student b) (gb_subject b) = [g]
       /\ fst (submitGrade b user st) = reply 201 (JGrade g)
       /\ g_cycleTest1 g = gb_cycleTest1 b
       /\ g_cycleTest2 g = gb_cycleTest2 b
       /\ g_assignments g = gb_assignments b.
Proof.
  unfold grades_ok, grades_of, submitGrade.
  intros H. apply andb_true_iff in H as [H Hkeys].
  apply andb_true_iff in H as [Hids Hbelow].
  destruct (find (grade_for (gb_student b) (gb_subject b)) (grades st))
    as [found|] eqn:Hf; cbn [snd fst set_grades grades next_id].
  - apply find_first in Hf as (l1 & l2 & Hl & Hl1 & Hx).
    rewrite Hl in *.
    assert (forallb (fun y => negb (Nat.eqb (g_id y) (g_id found))) l1 = true)
      as Hid1.
    { apply forallb_forall. intros y Hy. apply negb_true_iff, Nat.eqb_neq.
      apply (distinct_NoDup Nat.eqb _ Nat.eqb_eq) in Hids.
      rewrite map_app in Hids. simpl in Hids.
      apply NoDup_remove_2 in Hids. intros E. apply Hids.
      apply in_or_app. left. rewrite <- E. apply in_map. exact Hy. }
    rewrite (findOneAndUpdate_at _ (fun _ => set_scores b found) l1 l2 found
               Hid1 (Nat.eqb_refl _)).
    cbn [snd]. rewrite !map_app in *. cbn [map set_scores g_id grade_key
      g_student g_subject] in *.
    change (grade_key (set_scores b found)) with (grade_key found).
    rewrite Hids, Hbelow, Hkeys.
    split; [reflexivity|]. split; [lia|].
    exists (set_scores b found). rewrite filter_app. simpl.
    unfold grade_for at 2. cbn [set_scores g_student g_subject].
    fold (grade_for (gb_student b) (gb_subject b) found). rewrite Hx.
    rewrite (filter_all_false _ l1).
    2:{ intros y Hy. rewrite forallb_forall in Hl1.
        apply negb_true_iff. exact (Hl1 y Hy). }
    rewrite (filter_all_false _ l2).
    2:{ intros y Hy. destruct (grade_for _ _ y) eqn:Hgy; [|reflexivity].
        exfalso. apply (distinct_NoDup pair_eqb _ pair_eqb_eq) in Hkeys.
        apply NoDup_remove_2 in Hkeys. apply Hkeys. apply in_or_app. right.
        assert (grade_key found = grade_key y) as ->.
        { unfold grade_for in *. apply andb_true_iff in Hx as [X1 X2].
          apply andb_true_iff in Hgy as [Y1 Y2].
          apply Nat.eqb_eq in X1, X2, Y1, Y2. unfold grade_key. congruence. }
        apply in_map. exact Hy. }
    simpl. auto 10.
  - rewrite !map_app. cbn [map g_id grade_key g_student g_subject].
    assert (distinct Nat.eqb (map g_id (grades st) ++ [next_id st])%list = true)
      as D1.
    { apply (distinct_NoDup Nat.eqb _ Nat.eqb_eq).
      apply (distinct_NoDup Nat.eqb _ Nat.eqb_eq) in Hids.
      apply NoDup_snoc; [exact Hids | apply ids_below_fresh; exact Hbelow]. }
    assert (ids_below (S (next_id st)) (map g_id (grades st) ++ [next_id st])%list
            = true) as D2.
    { unfold ids_below in *. rewrite forallb_app. simpl.
      rewrite (proj2 (Nat.ltb_lt _ _) (Nat.lt_succ_diag_r _)).
      rewrite andb_true_r. apply (ids_below_mono (next_id st)); [lia|exact Hbelow]. }
    assert (distinct pair_eqb
              (map grade_key (grades st) ++ [(gb_student b, gb_subject b)])%list
            = true) as D3.
    { apply (distinct_NoDup pair_eqb _ pair_eqb_eq).
      apply (distinct_NoDup pair_eqb _ pair_eqb_eq) in Hkeys.
      apply NoDup_snoc; [exact Hkeys|]. intros Hin. apply in_map_iff in Hin as (y & Hy & Hin).
      apply (find_none _ _ Hf) in Hin. unfold grade_for, grade_key in *.
      injection Hy as E1 E2. rewrite E1, E2, !Nat.eqb_refl in Hin. discriminate. }
    unfold grade_key at 2. cbn [g_student g_subject].
    rewrite D1, D2, D3. split; [reflexivity|]. split; [lia|].
    eexists. rewrite filter_app, (find_none_filter _ _ Hf). simpl.
    unfold grade_for. cbn [g_student g_subject]. rewrite !Nat.eqb_refl. simpl.
    repeat split.
Qed.

(** C6: on a store where no pair has two grade documents, two submissions
    in a row for the same (student, subject) pair leave exactly one grade
    document for the pair, and its cycleTest1, cycleTest2 and assignments
    are those of the second submission. *)
Theorem grade_upsert_last_write_wins :
  forall (st : Store) (b1 b2 : GradeBody) (u1 u2 : Claims),
    grades_ok st = true ->
    gb_student b1 = gb_student b2 ->
    gb_subject b1 = gb_subject b2 ->
    let st1 := snd (submitGrade b1 u1 st) in
    let st2 := snd (submitGrade b2 u2 st1) in
    exists g,
      grades_of st2 (gb_student b1) (gb_subject b1) = [g]
      /\ g_cycleTest1 g = gb_cycleTest1 b2
      /\ g_cycleTest2 g = gb_cycleTest2 b2
      /\ g_assignments g = gb_assignments b2.
Proof.
  intros st b1 b2 u1 u2 Hok Hs Hj st1 st2.
  destruct (submitGrade_spec b1 u1 st Hok) as (Hok1 & _ & _).
  destruct (submitGrade_spec b2 u2 st1 Hok1) as (_ & _ & g & Hg & _ & H1 & H2 & H3).
  exists g. rewrite Hs, Hj. auto.
Qed.

End Grades.

Section Tasks.

Lemma deadline_due_spec (owner : ObjectId) (now : Z) (t : Task) :
  deadline_due owner now t = true <->
  t_creator t = owner /\ t_completed t = false /\ t_notificationSent t = false
  /\ (now < t_dueDate t < now + 86400000)%Z.
Proof.
  unfold deadline_due, one_day_ms.
  rewrite !andb_true_iff, !negb_true_iff, Nat.eqb_eq, !Z.ltb_lt.
  change (24 * 60 * 60 * 1000)%Z with 86400000%Z. tauto.
Qed.

(** C7: the sweep answers with exactly the caller's tasks that are not
    completed, not yet notified and due strictly between now and 24 hours
    from now; a second sweep for the same owner on the store the first one
    left, at whatever time, returns no task with the [_id] of a task the
    first one returned. *)
Theorem deadline_sweep_returns_each_task_once :
  forall (st : Store) (user : Claims) (now1 now2 : Z),
    let r1 := fst (checkDeadlines now1 user st) in
    let st1 := snd (checkDeadlines now1 user st) in
    let r2 := fst (checkDeadlines now2 user st1) in
    status r1 = 200
    /\ body r1 = JTasks (filter (deadline_due (userId user) now1) (tasks st))
    /\ (forall t, In t (json_tasks (body r1)) <->
          In t (tasks st) /\ t_creator t = userId user
          /\ t_completed t = false /\ t_notificationSent t = false
          /\ (now1 < t_dueDate t < now1 + 86400000)%Z)
    /\ (forall t t', In t (json_tasks (body r1)) ->
          In t' (json_tasks (body r2)) -> t_id t' <> t_id t).
Proof.
  intros st user now1 now2. cbn zeta.
  unfold checkDeadlines. cbn [fst snd json reply status body json_tasks
    set_tasks tasks].
  split; [reflexivity|]. split; [reflexivity|]. split.
  - intros t. rewrite filter_In, deadline_due_spec. tauto.
  - intros t t' Ht Ht'. apply filter_In in Ht' as [Hin' Hdue'].
    apply deadline_due_spec in Hdue' as (_ & _ & Hns & _).
    unfold updateMany in Hin'. apply in_map_iff in Hin' as (t0 & Heq & _).
    destruct (existsb _ _) eqn:Hex in Heq.
    + subst t'. simpl in Hns. discriminate.
    + subst t'. intros E.
      assert (existsb (Nat.eqb (t_id t0))
                (map t_id (filter (deadline_due (userId user) now1) (tasks st)))
              = true) as Hyes.
      { apply existsb_exists. exists (t_id t). split.
        - apply in_map. exact Ht.
        - apply Nat.eqb_eq. exact E. }
      congruence.
Qed.

End Tasks.

Section Calendar.


Lemma split_no_sep (sep : ascii) (a : string) :
  Js.mem sep a = false -> Js.split sep a = [a].
Proof.
  induction a as [|c a IH]; cbn [Js.mem Js.split]; intros H; [reflexivity|].
  apply orb_false_iff in H as [Hc Ha]. rewrite Hc, (IH Ha). reflexivity.
Qed.

Lemma split_app_sep (sep : ascii) (a b : string) :
  Js.mem sep a = false ->
  Js.split sep (a ++ String sep b) = a :: Js.split sep b.
Proof.
  induction a as [|c a IH]; cbn [Js.mem Js.split append]; intros H.
  - rewrite Ascii.eqb_refl. reflexivity.
  - apply orb_false_iff in H as [Hc Ha]. rewrite Hc, (IH Ha). reflexivity.
Qed.

(** Dot-separated day, month and year come out as year-month-day, the day
    and month padded to two characters. *)
Lemma formatDate_parts (d m y : string) :
  Js.mem "." d = false -> Js.mem "." m = false -> Js.mem "." y = false ->
  formatDate (d ++ "." ++ m ++ "." ++ y)
  = Some (y ++ "-" ++ Js.padStart m 2 "0" ++ "-" ++ Js.padStart d 2 "0").
Proof.
  intros Hd Hm Hy. unfold formatDate.
  change (d ++ "." ++ m ++ "." ++ y)
    with (d ++ String "." (m ++ String "." y)).
  rewrite (split_app_sep "." d _ Hd), (split_app_sep "." m _ Hm),
    (split_no_sep "." y Hy).
  reflexivity.
Qed.



Lemma insertMany_fields (n : ObjectId) (docs : list RawEntry) :
  map c_day (insertMany n docs) = map r_day docs
  /\ map c_date (insertMany n docs) = map (fun e => field (r_date e)) docs
  /\ map c_description (insertMany n docs) = map r_description docs
  /\ map c_id (insertMany n docs) = seq n (length docs).
Proof.
  revert n. induction docs as [|e l IH]; intros n; simpl; [auto|].
  destruct (IH (S n)) as (-> & -> & -> & ->). auto.
Qed.


End Calendar.

Section Listing.

Context {L : Libraries}.

(** [GET /api/subjects/student] is served by the handler registered for
    that literal path, which comes before [/api/subjects/:role]. *)
Lemma route_subjects_student :
  route_of GET "/api/subjects/student" = Some (GetSubjectsStudent, []).
Proof. reflexivity. Qed.

Lemma route_subjects_student_any_case :
  route_of GET "/api/subjects/Student/" = Some (GetSubjectsStudent, []).
Proof. reflexivity. Qed.

Lemma route_subjects_teacher :
  route_of GET "/api/subjects/teacher" = Some (GetSubjectsRole, ["teacher"]).
Proof. reflexivity. Qed.

Lemma route_subjects : route_of GET "/api/subjects" = Some (GetSubjects, []).
Proof. reflexivity. Qed.

(** The [student] branch of the [:role] handler applies no filter. *)
Lemma subjectsByRole_student (user : Claims) (st : Store) :
  subjectsByRole "student" user st = (json (JSubjects (subjects st)), st).
Proof. reflexivity. Qed.

Lemma in_scope_spec (degree department : string) (s : Subject) :
  in_scope degree department s = true <->
  s_degree s = degree /\ s_department s = department.
Proof.
  unfold in_scope. rewrite andb_true_iff, !String.eqb_eq. tauto.
Qed.

(** C2 (as amended): [GET /api/subjects/student] for any authenticated
    caller, and [GET /api/subjects] for a caller whose stored role is not
    teacher, answer with exactly the stored subjects whose degree and
    department are the caller's own. *)
Theorem scoped_subject_listings_stay_in_scope :
  forall (st : Store) (authHeader : option string) (salt : string) (now : Z)
         (user : Claims) (caller : User),
    authenticateToken authHeader now = Next user ->
    findUserById st (userId user) = Some caller ->
    exists listed,
      app st (request_get "/api/subjects/student" authHeader) salt now
      = Some (json (JSubjects listed), st)
      /\ (u_role caller <> "teacher" ->
          app st (request_get "/api/subjects" authHeader) salt now
          = Some (json (JSubjects listed), st))
      /\ (forall s, In s listed <->
            In s (subjects st) /\ s_degree s = u_degree caller
            /\ s_department s = u_department caller).
Proof.
  intros st authHeader salt now user caller Hauth Hcaller.
  exists (filter (in_scope (u_degree caller) (u_department caller)) (subjects st)).
  unfold app, request_get. cbn [method path payload authorization].
  rewrite route_subjects_student, route_subjects.
  unfold protected. rewrite Hauth.
  unfold subjectsStudent, listSubjects. rewrite Hcaller.
  split; [reflexivity|]. split.
  - intros Hrole. apply String.eqb_neq in Hrole. rewrite Hrole. reflexivity.
  - intros s. rewrite filter_In, in_scope_spec. tauto.
Qed.

End Listing.

(** ** The invariants hold in every reachable store *)

Section Invariants.

Context {L : Libraries}.

Lemma store_ok_parts (st : Store) :
  store_ok st = true <->
  emails_valid st = true /\ subjects_ok st = true /\ grades_ok st = true
  /\ calendar_ok st = true.
Proof. unfold store_ok. rewrite !andb_true_iff. tauto. Qed.

Lemma emails_valid_frame (st st' : Store) :
  users st' = users st -> emails_valid st = true -> emails_valid st' = true.
Proof. unfold emails_valid. intros ->. auto. Qed.

Lemma subjects_ok_frame (st st' : Store) :
  subjects st' = subjects st -> next_id st <= next_id st' ->
  subjects_ok st = true -> subjects_ok st' = true.
Proof.
  unfold subjects_ok. intros -> Hn H. apply andb_true_iff in H as [H1 H2].
  rewrite H1, (ids_below_mono _ _ _ Hn H2). reflexivity.
Qed.

Lemma grades_ok_frame (st st' : Store) :
  grades st' = grades st -> next_id st <= next_id st' ->
  grades_ok st = true -> grades_ok st' = true.
Proof.
  unfold grades_ok. intros -> Hn H. apply andb_true_iff in H as [H H3].
  apply andb_true_iff in H as [H1 H2].
  rewrite H1, H3, (ids_below_mono _ _ _ Hn H2). reflexivity.
Qed.

Lemma calendar_ok_frame (st st' : Store) :
  calendar st' = calendar st -> next_id st <= next_id st' ->
  calendar_ok st = true -> calendar_ok st' = true.
Proof.
  unfold calendar_ok. intros -> Hn H. exact (ids_below_mono _ _ _ Hn H).
Qed.

Lemma findOneAndUpdate_map {A B : Type} (g : A -> B) (p : A -> bool)
    (f : A -> A) (l : list A) :
  (forall x, g (f x) = g x) ->
  map g (snd (findOneAndUpdate p f l)) = map g l.
Proof.
  intros Hg. induction l as [|x l IH]; simpl; [reflexivity|].
  destruct (p x); simpl.
  - rewrite Hg. reflexivity.
  - destruct (findOneAndUpdate p f l) as [r rest]. simpl in *.
    rewrite IH. reflexivity.
Qed.

Lemma signup_store_ok (st : Store) (b : SignupBody) (salt : string) (now : Z) :
  store_ok st = true -> store_ok (snd (signup st b salt now)) = true.
Proof.
  intros Hok. unfold signup.
  destruct (signup_validation b) as [|e errs] eqn:Hv; [|exact Hok].
  destruct (findUserByEmail st (field (sb_email b))); [exact Hok|].
  cbn [snd]. apply store_ok_parts in Hok as (He & Hs & Hg & Hc).
  apply store_ok_parts. repeat split.
  - unfold emails_valid in *. cbn [save_user users]. rewrite forallb_app, He.
    simpl. apply signup_validation_nil in Hv as (-> & _). reflexivity.
  - apply (subjects_ok_frame st); simpl; auto.
  - apply (grades_ok_frame st); simpl; auto.
  - apply (calendar_ok_frame st); simpl; auto.
Qed.

Lemma createSubject_store_ok (b : SubjectBody) (user : Claims) (st : Store) :
  store_ok st = true -> store_ok (snd (createSubject b user st)) = true.
Proof.
  intros Hok. unfold createSubject. destruct (_ || _); [exact Hok|].
  cbn [snd]. apply store_ok_parts in Hok as (He & Hs & Hg & Hc).
  apply store_ok_parts. repeat split.
  - apply (emails_valid_frame st); simpl; auto.
  - unfold subjects_ok in *. apply andb_true_iff in Hs as [H1 H2].
    cbn [set_subjects subjects next_id]. rewrite map_app. cbn [map s_id].
    apply andb_true_iff. split.
    + apply (distinct_NoDup Nat.eqb _ Nat.eqb_eq).
      apply (distinct_NoDup Nat.eqb _ Nat.eqb_eq) in H1.
      apply NoDup_snoc; [exact H1 | apply ids_below_fresh; exact H2].
    + unfold ids_below in *. rewrite forallb_app. simpl.
      rewrite (proj2 (Nat.ltb_lt _ _) (Nat.lt_succ_diag_r _)), andb_true_r.
      apply (ids_below_mono (next_id st)); [lia | exact H2].
  - apply (grades_ok_frame st); simpl; auto.
  - apply (calendar_ok_frame st); simpl; auto.
Qed.

Lemma updateUnits_store_ok (subjectId : ObjectId) (units : list UnitDoc)
    (user : Claims) (st : Store) :
  store_ok st = true -> store_ok (snd (updateUnits subjectId units user st)) = true.
Proof.
  intros Hok. unfold updateUnits.
  match goal with
  | |- context [findOneAndUpdate ?p ?f ?l] =>
      pose proof (findOneAndUpdate_map s_id p f l (fun _ => eq_refl)) as Hmap;
      destruct (findOneAndUpdate p f l) as [[subject|] l']
  end; [|exact Hok].
  cbn [snd] in *. apply store_ok_parts in Hok as (He & Hs & Hg & Hc).
  apply store_ok_parts. repeat split.
  - apply (emails_valid_frame st); simpl; auto.
  - unfold subjects_ok in *. cbn [set_subjects subjects next_id].
    rewrite Hmap. exact Hs.
  - apply (grades_ok_frame st); simpl; auto.
  - apply (calendar_ok_frame st); simpl; auto.
Qed.

Lemma submitGrade_store_ok (b : GradeBody) (user : Claims) (st : Store) :
  store_ok st = true -> store_ok (snd (submitGrade b user st)) = true.
Proof.
  intros Hok. apply store_ok_parts in Hok as (He & Hs & Hg & Hc).
  destruct (submitGrade_spec b user st Hg) as (Hg' & Hn & _).
  apply store_ok_parts. repeat split; [| | exact Hg' |].
  - apply (emails_valid_frame st); [|exact He].
    unfold submitGrade. destruct (find _ _); reflexivity.
  - apply (subjects_ok_frame st); [|exact Hn|exact Hs].
    unfold submitGrade. destruct (find _ _); reflexivity.
  - apply (calendar_ok_frame st); [|exact Hn|exact Hc].
    unfold submitGrade. destruct (find _ _); reflexivity.
Qed.

Lemma uploadCalendar_store_ok (file : option CalendarFile) (user : Claims)
    (st : Store) :
  store_ok st = true -> store_ok (snd (uploadCalendar file user st)) = true.
Proof.
  intros Hok. unfold uploadCalendar. destruct (negb _); [exact Hok|].
  destruct file as [[| |entries|entries]|]; try exact Hok;
    (destruct (formatEntries entries) as [docs|]; [|exact Hok]);
    cbn [snd]; apply store_ok_parts in Hok as (He & Hs & Hg & Hc);
    apply store_ok_parts; (split; [|split; [|split]]).
  - apply (emails_valid_frame st); simpl; auto.
  - apply (subjects_ok_frame st); simpl; auto. lia.
  - apply (grades_ok_frame st); simpl; auto. lia.
  - unfold calendar_ok, ids_below. cbn [set_calendar calendar next_id].
    destruct (insertMany_fields (next_id st) docs) as (_ & _ & _ & ->).
    apply forallb_forall. intros i Hi. apply in_seq in Hi.
    apply Nat.ltb_lt. lia.
  - apply (emails_valid_frame st); simpl; auto.
  - apply (subjects_ok_frame st); simpl; auto.
  - apply (grades_ok_frame st); simpl; auto.
  - reflexivity.
Qed.

Lemma createTask_store_ok (b : TaskBody) (user : Claims) (st : Store) :
  store_ok st = true -> store_ok (snd (createTask b user st)) = true.
Proof.
  intros Hok. unfold createTask.
  destruct (required_string (tb_text b)), (required_string (tb_category b)),
    (required_string (tb_priority b)), (tb_dueDate b); try exact Hok.
  cbn [snd]. apply store_ok_parts in Hok as (He & Hs & Hg & Hc).
  apply store_ok_parts. repeat split.
  - apply (emails_valid_frame st); simpl; auto.
  - apply (subjects_ok_frame st); simpl; auto.
  - apply (grades_ok_frame st); simpl; auto.
  - apply (calendar_ok_frame st); simpl; auto.
Qed.

Lemma checkDeadlines_store_ok (now : Z) (user : Claims) (st : Store) :
  store_ok st = true -> store_ok (snd (checkDeadlines now user st)) = true.
Proof.
  intros Hok. apply store_ok_parts in Hok as (He & Hs & Hg & Hc).
  apply store_ok_parts. repeat split.
  - apply (emails_valid_frame st); simpl; auto.
  - apply (subjects_ok_frame st); simpl; auto.
  - apply (grades_ok_frame st); simpl; auto.
  - apply (calendar_ok_frame st); simpl; auto.
Qed.

Lemma protected_store_ok (authHeader : option string) (now : Z)
    (handler : Claims -> Store -> Response * Store) (st : Store) :
  (forall user, store_ok st = true -> store_ok (snd (handler user st)) = true) ->
  store_ok st = true ->
  store_ok (snd (protected authHeader now handler st)) = true.
Proof.
  intros Hh Hok. unfold protected.
  destruct (authenticateToken authHeader now); [exact Hok | apply Hh, Hok].
Qed.

Lemma app_store_ok (st st' : Store) (req : Request) (salt : string) (now : Z)
    (r : Response) :
  store_ok st = true -> app st req salt now = Some (r, st') ->
  store_ok st' = true.
Proof.
  intros Hok Happ.
  assert (st' = snd (r, st')) as -> by reflexivity. revert Happ.
  unfold app.
  destruct (route_of (method req) (path req)) as [[route params]|];
    [|destruct (payload req); discriminate].
  destruct route, (payload req); try discriminate;
    repeat match goal with
           | |- context [match ?x with _ => _ end] =>
               match type of x with
               | list string => destruct x
               | option ObjectId => destruct x
               end
           end;
    try discriminate; intros E; injection E; clear E; intros; subst;
    try match goal with H : _ = (r, st') |- _ => rewrite <- H end;
    first [ exact Hok
          | apply signup_store_ok; exact Hok
          | apply protected_store_ok; [intros user Hu | exact Hok] ].
  all: first [ exact Hu
             | apply createSubject_store_ok; exact Hu
             | apply updateUnits_store_ok; exact Hu
             | apply submitGrade_store_ok; exact Hu
             | apply uploadCalendar_store_ok; exact Hu
             | apply createTask_store_ok; exact Hu
             | apply checkDeadlines_store_ok; exact Hu
             | unfold subjectsStudent, listSubjects;
               destruct (findUserById _ _); [|exact Hu];
               try destruct (String.eqb _ _); exact Hu
             | unfold subjectsByRole, subjectsByRoleGrades;
               repeat destruct (String.eqb _ _); exact Hu ].
Qed.

(** Every store the server reaches from the empty one satisfies the
    invariants the theorems above assume. *)
Lemma reachable_store_ok (st : Store) : reachable st -> store_ok st = true.
Proof.
  induction 1 as [|st req salt now r st' _ IH Happ].
  - reflexivity.
  - exact (app_store_ok st st' req salt now r IH Happ).
Qed.

(** The second registration of [GET /api/subjects/:role] (line 468) never
    runs: the first one takes every request that fits it. *)
Lemma second_role_route_shadowed (m : Method) (p : string) (params : list string) :
  route_of m p <> Some (GetSubjectsRoleGrades, params).
Proof.
  destruct m; cbv [route_of routes first_route method_eqb];
    repeat match goal with
           | |- context [match_route ?a p] =>
               destruct (match_route a p) eqn:?
           end;
    congruence.
Qed.

End Invariants.

(** * Worked instances on the reference libraries *)

(** The scenario stores are what the definitions say. *)
Lemma store_signed_up_users : users store_signed_up = [student1_user].
Proof. reflexivity. Qed.

Lemma store_with_subject_subjects :
  subjects store_with_subject = [maths_subject_doc].
Proof. reflexivity. Qed.

Lemma store_with_subject_reachable : reachable (L := sample_libraries) store_with_subject.
Proof.
  eapply reachable_step; [eapply reachable_step; [apply reachable_empty|]|].
  - exact (eq_refl : app (L := sample_libraries) empty_store
                       (request_post "/api/auth/signup" None
                          (SignupPayload student1)) "salt" 0
                     = Some (_, store_signed_up)).
  - exact (eq_refl : app (L := sample_libraries) store_signed_up
                       (request_post "/api/subjects" student1_bearer
                          (SubjectPayload maths_subject)) "salt" 0
                     = Some (_, store_with_subject)).
Qed.

(** C1, the claim as stated fails: a request carrying the bearer token
    [not-a-token], which does not verify, is answered 403, not 401. *)
Lemma invalid_token_status_is_not_401 :
  bearer_token (Some "Bearer not-a-token") = Some "not-a-token"
  /\ jwt_verify (Libraries := sample_libraries) "not-a-token"
       (JWT_SECRET (Libraries := sample_libraries)) 0 = None
  /\ status (fst (protected (L := sample_libraries) (Some "Bearer not-a-token")
                    0 subjectsStudent store_signed_up)) = 403
  /\ status (fst (protected (L := sample_libraries) (Some "Bearer not-a-token")
                    0 subjectsStudent store_signed_up)) <> 401.
Proof.
  split; [reflexivity|]. split; [reflexivity|]. split; [reflexivity|].
  simpl. discriminate.
Qed.

Lemma invalid_token_rejected_403_witness :
  protected (L := sample_libraries) (Some "Bearer not-a-token") 0
    subjectsStudent store_signed_up
  = (reply 403 (JMessage "Invalid or expired token"), store_signed_up).
Proof.
  apply (invalid_token_rejected_403 (L := sample_libraries)
           (Some "Bearer not-a-token") "not-a-token" 0 subjectsStudent
           store_signed_up); reflexivity.
Defined.

(** C2, the claim as stated fails: the student of the scenario, whose
    degree and department are BCA and Computer Science, lists subjects
    through [GET /api/subjects/teacher] and is sent the BSc Maths subject. *)
Lemma student_listing_leaves_scope :
  option_map (fun u => (u_role u, u_degree u, u_department u))
             (findUserById store_with_subject 0)
  = Some ("student", "BCA", "Computer Science")
  /\ authenticateToken (L := sample_libraries) student1_bearer 0
     = Next {| userId := 0; role := "student" |}
  /\ app (L := sample_libraries) store_with_subject
         (request_get "/api/subjects/teacher" student1_bearer) "salt" 0
     = Some (json (JSubjects [maths_subject_doc]), store_with_subject)
  /\ s_degree maths_subject_doc <> "BCA"
  /\ s_department maths_subject_doc <> "Computer Science".
Proof.
  split; [reflexivity|]. split; [reflexivity|]. split; [reflexivity|].
  split; discriminate.
Qed.

Lemma scoped_subject_listings_stay_in_scope_witness :
  exists listed,
    app (L := sample_libraries) store_with_subject
        (request_get "/api/subjects/student" student1_bearer) "salt" 0
    = Some (json (JSubjects listed), store_with_subject)
    /\ (u_role student1_user <> "teacher" ->
        app (L := sample_libraries) store_with_subject
            (request_get "/api/subjects" student1_bearer) "salt" 0
        = Some (json (JSubjects listed), store_with_subject))
    /\ (forall s, In s listed <->
          In s (subjects store_with_subject)
          /\ s_degree s = u_degree student1_user
          /\ s_department s = u_department student1_user).
Proof.
  apply (scoped_subject_listings_stay_in_scope (L := sample_libraries)
           store_with_subject student1_bearer "salt" 0
           {| userId := 0; role := "student" |} student1_user);
    reflexivity.
Defined.

Lemma login_wrong_role_403_any_password_witness :
  fst (login (L := sample_libraries) store_signed_up
         (login_body "student1@example.com" "not the password" "teacher") 0)
  = reply 403
      (JMessage "Access denied. Please login with your assigned role as student.").
Proof.
  apply (login_wrong_role_403_any_password (L := sample_libraries)
           store_signed_up "student1@example.com" "teacher" 0 student1_user);
    [reflexivity | reflexivity | discriminate].
Defined.

Lemma login_wrong_role_discloses_role_witness :
  let (r, calls) :=
    login (L := sample_libraries) store_signed_up
      (login_body "student1@example.com" "guess" "alumni") 0 in
  calls = [FindOneUser "student1@example.com"]
  /\ (forall p d, ~ In (BcryptCompare p d) calls)
  /\ status r = 403
  /\ json_message (body r)
     = Some ("Access denied. Please login with your assigned role as "
             ++ u_role student1_user ++ ".")
  /\ match json_message (body r) with
     | Some m => role_of_denial m
     | None => None
     end = Some (u_role student1_user).
Proof.
  apply (login_wrong_role_discloses_role (L := sample_libraries)
           store_signed_up "student1@example.com" "alumni" "guess" 0
           student1_user);
    [reflexivity | reflexivity | discriminate].
Defined.

Lemma signup_then_login_same_identity_witness :
  let r1 := fst (signup (L := sample_libraries) empty_store student1 "salt" 0) in
  let st1 := snd (signup (L := sample_libraries) empty_store student1 "salt" 0) in
  let r2 := fst (login (L := sample_libraries) st1
                   (login_body "student1@example.com" "password123" "student")
                   60000) in
  status r1 = 201 /\ status r2 = 200
  /\ exists (user : User) (token1 token2 : string),
       users st1 = (users empty_store ++ [user])%list
       /\ u_email user = "student1@example.com" /\ u_role user = "student"
       /\ json_token (body r1) = Some token1
       /\ json_token (body r2) = Some token2
       /\ (forall t, (t / 1000 < 0 / 1000 + 3600)%Z ->
             jwt_verify (Libraries := sample_libraries) token1
               (JWT_SECRET (Libraries := sample_libraries)) t
             = Some {| userId := u_id user; role := "student" |})
       /\ (forall t, (t / 1000 < 60000 / 1000 + 3600)%Z ->
             jwt_verify (Libraries := sample_libraries) token2
               (JWT_SECRET (Libraries := sample_libraries)) t
             = Some {| userId := u_id user; role := "student" |}).
Proof.
  apply (signup_then_login_same_identity (L := sample_libraries)
           (LL := sample_laws) empty_store student1 "salt" 0 60000
           "student1@example.com" "password123" "student");
    reflexivity.
Defined.

Lemma update_units_by_non_creator_404_witness :
  protected (L := sample_libraries) teacher_bearer 0
    (updateUnits (s_id maths_subject_doc) [limits_unit]) store_with_subject
  = (reply 404 (JMessage
       "Subject not found or you do not have permission to update it"),
     store_with_subject).
Proof.
  apply (update_units_by_non_creator_404 (L := sample_libraries)
           store_with_subject maths_subject_doc [limits_unit] teacher_bearer 0
           teacher_claims);
    [reflexivity | left; reflexivity | reflexivity | simpl; lia].
Defined.

Lemma grade_upsert_last_write_wins_witness :
  let st1 := snd (submitGrade first_scores teacher_claims store_with_subject) in
  let st2 := snd (submitGrade second_scores teacher_claims st1) in
  exists g,
    grades_of st2 (gb_student first_scores) (gb_subject first_scores) = [g]
    /\ g_cycleTest1 g = gb_cycleTest1 second_scores
    /\ g_cycleTest2 g = gb_cycleTest2 second_scores
    /\ g_assignments g = gb_assignments second_scores.
Proof.
  apply (grade_upsert_last_write_wins store_with_subject first_scores
           second_scores teacher_claims teacher_claims);
    reflexivity.
Defined.


(** The import of the scenario, spelled out: one entry before, one after,
    and it is the new one. *)
Lemma calendar_import_example :
  map c_date (calendar store_with_calendar) = ["2025-11-01"]
  /\ map c_date
       (calendar (snd (uploadCalendar (Some (EntryArray [guest_lecture]))
                         teacher_claims store_with_calendar)))
     = ["2025-11-05"].
Proof. split; reflexivity. Qed.

(** C9, the claim as stated fails: the email of [student1] is registered,
    yet a signup with that email and a five-character password is answered
    with the validators' list, not with the duplicate-email message. *)
Lemma registered_email_with_short_password_gets_the_validators_answer :
  findUserByEmail store_signed_up "student1@example.com" = Some student1_user
  /\ sb_email student1_short_password = Some "student1@example.com"
  /\ fst (signup (L := sample_libraries) store_signed_up
            student1_short_password "salt" 0)
     = reply 400 (JErrors ["Password must be at least 6 characters long"])
  /\ fst (signup (L := sample_libraries) store_signed_up
            student1_short_password "salt" 0)
     <> reply 400 (JMessage "User already exists with this email").
Proof.
  split; [reflexivity|]. split; [reflexivity|]. split; [reflexivity|].
  discriminate.
Qed.

Lemma signup_existing_email_400_witness :
  status (fst (signup (L := sample_libraries) store_signed_up student1 "salt" 0))
  = 400
  /\ snd (signup (L := sample_libraries) store_signed_up student1 "salt" 0)
     = store_signed_up
  /\ (signup_validation (L := sample_libraries) student1 = [] ->
      fst (signup (L := sample_libraries) store_signed_up student1 "salt" 0)
      = reply 400 (JMessage "User already exists with this email"))
  /\ (signup_validation (L := sample_libraries) student1 <> [] ->
      fst (signup (L := sample_libraries) store_signed_up student1 "salt" 0)
      = reply 400 (JErrors (signup_validation (L := sample_libraries) student1))).
Proof.
  apply (signup_existing_email_400 (L := sample_libraries) store_signed_up
           student1 "salt" 0 "student1@example.com" student1_user);
    reflexivity.
Defined.

(** A task due in an hour is returned by the first sweep and not by the
    second. *)
Lemma deadline_sweep_example :
  let user := {| userId := 0; role := "student" |} in
  let task := {| tb_text := Some "Complete DSA assignment";
                 tb_category := Some "Academic";
                 tb_priority := Some "High";
                 tb_dueDate := Some 3600000%Z |} in
  let st := snd (createTask task user store_with_subject) in
  let first := checkDeadlines 0 user st in
  let second := checkDeadlines 1 user (snd first) in
  map t_text (json_tasks (body (fst first))) = ["Complete DSA assignment"]
  /\ json_tasks (body (fst second)) = [].
Proof. split; reflexivity. Qed.

(** * Further properties of the routes *)

Section GuardAndLogin.

Context {L : Libraries}.

Lemma bearer_token_second_word (scheme token : string) :
  Js.mem " " scheme = false -> Js.mem " " token = false ->
  bearer_token (Some (scheme ++ " " ++ token))
  = if Js.truthy token then Some token else None.
Proof.
  intros Hs Ht. unfold bearer_token.
  assert (Js.truthy (scheme ++ " " ++ token) = true) as ->
    by (destruct scheme; reflexivity).
  change (scheme ++ " " ++ token) with (scheme ++ String " " token).
  rewrite (split_app_sep " " scheme token Hs), (split_no_sep " " token Ht).
  reflexivity.
Qed.

(** X1: the guard takes the second space-separated word of the
    Authorization header as the token and never looks at the first word:
    whatever scheme word precedes it, a token that verifies lets the handler
    run on its claims, and one that does not is answered 403. *)
Theorem guard_ignores_the_scheme_word :
  forall (scheme token : string) (now : Z)
         (handler : Claims -> Store -> Response * Store) (st : Store),
    Js.mem " " scheme = false ->
    Js.mem " " token = false ->
    token <> EmptyString ->
    protected (Some (scheme ++ " " ++ token)) now handler st
    = match jwt_verify token JWT_SECRET now with
      | Some user => handler user st
      | None => (reply 403 (JMessage "Invalid or expired token"), st)
      end.
Proof.
  intros scheme token now handler st Hs Ht Hne.
  unfold protected, authenticateToken.
  rewrite (bearer_token_second_word scheme token Hs Ht).
  destruct token as [|c token]; [contradiction|]. cbn [Js.truthy].
  destruct (jwt_verify _ _ _); reflexivity.
Qed.

(** X2: a request with no Authorization header, with a header of a single
    word, with nothing after the first space, or with a second space right
    after the first, is answered 401 'No token provided'; the handler does
    not run and [jwt.verify] is not consulted. *)
Theorem guard_without_second_word_401 :
  forall (word rest : string) (now : Z)
         (handler : Claims -> Store -> Response * Store) (st : Store),
    Js.mem " " word = false ->
    let refused := (reply 401 (JMessage "No token provided"), st) in
    protected None now handler st = refused
    /\ protected (Some word) now handler st = refused
    /\ protected (Some (word ++ " ")) now handler st = refused
    /\ protected (Some (word ++ "  " ++ rest)) now handler st = refused.
Proof.
  intros word rest now handler st Hw refused.
  assert (forall h, bearer_token h = None ->
                    protected h now handler st = refused) as Hno.
  { intros h Hh. unfold protected, authenticateToken. rewrite Hh. reflexivity. }
  split; [apply Hno; reflexivity|]. split; [|split]; apply Hno.
  - unfold bearer_token. rewrite (split_no_sep " " word Hw).
    destruct (Js.truthy word); reflexivity.
  - apply (bearer_token_second_word word EmptyString Hw). reflexivity.
  - unfold bearer_token.
    change (word ++ "  " ++ rest) with (word ++ String " " (String " " rest)).
    rewrite (split_app_sep " " word _ Hw). cbn [Js.split].
    rewrite Ascii.eqb_refl. cbn [nth_error Js.truthy].
    destruct (Js.truthy _); reflexivity.
Qed.

(** X3: a login is answered 200 only when a user with the submitted email
    is stored, the stated role is that user's role and [bcrypt.compare]
    accepts the submitted password against the stored digest; the token is
    then signed for that user's [_id] and role, for one hour. *)
Theorem login_200_only_for_matching_credentials :
  forall (st : Store) (b : LoginBody) (now : Z),
    status (fst (login st b now)) = 200 ->
    exists user,
      findUserByEmail st (field (lb_email b)) = Some user
      /\ lb_password b <> None /\ lb_role b = Some (u_role user)
      /\ bcrypt_compare (field (lb_password b)) (u_password user) = true
      /\ fst (login st b now)
         = json (JAuth (jwt_sign {| userId := u_id user; role := u_role user |}
                                 JWT_SECRET 3600 now)
                       (u_role user) (u_name user)).
Proof.
  intros st b now. unfold login.
  destruct (login_validation b) as [|e errs] eqn:Hv; [|discriminate].
  unfold login_validation in Hv.
  apply app_eq_nil in Hv as [_ Hv]. apply app_eq_nil in Hv as [Hp Hr].
  apply check_nil in Hp, Hr.
  destruct (findUserByEmail st (field (lb_email b))) as [user|]; [|discriminate].
  destruct (String.eqb (u_role user) (field (lb_role b))) eqn:Hrole;
    [|discriminate].
  destruct (bcrypt_compare _ _) eqn:Hc; [|discriminate].
  intros _. exists user. apply String.eqb_eq in Hrole.
  destruct (lb_password b), (lb_role b); try discriminate.
  simpl in *. subst. repeat split; try reflexivity; try assumption.
  discriminate.
Qed.

(** X4: a login for an email no stored user has and a login with the right
    role but a password [bcrypt.compare] rejects get the same answer, 400
    'Invalid credentials'. *)
Theorem login_unknown_email_like_wrong_password :
  forall (st : Store) (email password stated : string) (now : Z),
    isEmail email = true ->
    (findUserByEmail st email = None
     \/ exists user, findUserByEmail st email = Some user
                     /\ u_role user = stated
                     /\ bcrypt_compare password (u_password user) = false) ->
    fst (login st (login_body email password stated) now)
    = reply 400 (JMessage "Invalid credentials").
Proof.
  intros st email password stated now Hmail H.
  unfold login, login_validation. simpl. rewrite Hmail. simpl.
  destruct H as [-> | (user & -> & <- & Hc)]; [reflexivity|].
  rewrite String.eqb_refl. simpl. rewrite Hc. reflexivity.
Qed.

(** X5: a signup in which any one validator fails (not an email, a password
    under six characters, a role outside the three, or an empty name,
    degree or department) is answered 400 with the validators' messages,
    one per failing field, and stores nothing; a password under six
    characters puts its message in the answer. *)
Theorem signup_invalid_field_400 :
  forall (st : Store) (b : SignupBody) (salt : string) (now : Z),
    isEmail (field (sb_email b)) = false
    \/ String.length (field (sb_password b)) < 6
    \/ isIn ["teacher"; "student"; "alumni"] (field (sb_role b)) = false
    \/ field (sb_name b) = EmptyString
    \/ field (sb_degree b) = EmptyString
    \/ field (sb_department b) = EmptyString ->
    exists errors,
      signup st b salt now = (reply 400 (JErrors errors), st)
      /\ errors = signup_validation b
      /\ errors <> []
      /\ (String.length (field (sb_password b)) < 6 ->
          In "Password must be at least 6 characters long" errors).
Proof.
  intros st b salt now H.
  assert (signup_validation b <> []) as Hne.
  { intros Hv. apply signup_validation_nil in Hv as (H1 & H2 & H3 & H4 & H5 & H6).
    apply Nat.leb_le in H2. unfold notEmpty in *.
    destruct H as [H|[H|[H|[H|[H|H]]]]]; try congruence; try lia;
      rewrite H in *; discriminate. }
  exists (signup_validation b). split; [|split; [reflexivity|split; [exact Hne|]]].
  - unfold signup. destruct (signup_validation b); [contradiction|reflexivity].
  - intros Hshort. unfold signup_validation.
    apply in_or_app. right. apply in_or_app. left.
    apply Nat.leb_gt in Hshort. rewrite Hshort. left. reflexivity.
Qed.

End GuardAndLogin.

Section MoreInvariants.

Context {L : Libraries}.

Lemma records_ok_parts (st : Store) :
  records_ok st = true <->
  users_ok st = true /\ tasks_ok st = true /\ calendar_distinct st = true.
Proof. unfold records_ok. rewrite !andb_true_iff. tauto. Qed.

Lemma users_ok_frame (st st' : Store) :
  users st' = users st -> next_id st <= next_id st' ->
  users_ok st = true -> users_ok st' = true.
Proof.
  unfold users_ok. intros -> Hn H.
  repeat (apply andb_true_iff in H as [H ?]).
  repeat (apply andb_true_iff; split); try assumption.
  eapply ids_below_mono; eassumption.
Qed.

Lemma tasks_ok_frame (st st' : Store) :
  tasks st' = tasks st -> next_id st <= next_id st' ->
  tasks_ok st = true -> tasks_ok st' = true.
Proof.
  unfold tasks_ok. intros -> Hn H. apply andb_true_iff in H as [H1 H2].
  rewrite H1, (ids_below_mono _ _ _ Hn H2). reflexivity.
Qed.

Lemma records_ok_frame (st st' : Store) :
  users st' = users st -> tasks st' = tasks st -> calendar st' = calendar st ->
  next_id st <= next_id st' ->
  records_ok st = true -> records_ok st' = true.
Proof.
  intros Hu Ht Hc Hn H. apply records_ok_parts in H as (H1 & H2 & H3).
  apply records_ok_parts. split; [|split].
  - exact (users_ok_frame st st' Hu Hn H1).
  - exact (tasks_ok_frame st st' Ht Hn H2).
  - unfold calendar_distinct in *. rewrite Hc. exact H3.
Qed.

Lemma distinct_snoc {A : Type} (eqb : A -> A -> bool) (l : list A) (x : A) :
  (forall a b, eqb a b = true <-> a = b) ->
  distinct eqb l = true -> ~ In x l -> distinct eqb (l ++ [x])%list = true.
Proof.
  intros Heq Hl Hx. apply (distinct_NoDup eqb _ Heq).
  apply (distinct_NoDup eqb _ Heq) in Hl. apply NoDup_snoc; assumption.
Qed.

Lemma ids_below_snoc (n : ObjectId) (ids : list ObjectId) :
  ids_below n ids = true -> ids_below (S n) (ids ++ [n])%list = true.
Proof.
  intros H. unfold ids_below. rewrite forallb_app. simpl.
  rewrite (proj2 (Nat.ltb_lt _ _) (Nat.lt_succ_diag_r _)), andb_true_r.
  apply (ids_below_mono n); [lia | exact H].
Qed.

Lemma signup_records_ok (st : Store) (b : SignupBody) (salt : string) (now : Z) :
  records_ok st = true -> records_ok (snd (signup st b salt now)) = true.
Proof.
  intros Hok. unfold signup.
  destruct (signup_validation b) as [|e errs] eqn:Hv; [|exact Hok].
  destruct (findUserByEmail st (field (sb_email b))) eqn:Hf; [exact Hok|].
  cbn [snd]. apply records_ok_parts in Hok as (Hu & Ht & Hc).
  apply records_ok_parts. split; [|split].
  - unfold users_ok in *. repeat (apply andb_true_iff in Hu as [Hu ?]).
    cbn [save_user users next_id]. rewrite !map_app, forallb_app.
    cbn [map u_email u_id u_role forallb].
    apply signup_validation_nil in Hv as (_ & _ & Hrole & _).
    repeat (apply andb_true_iff; split); try assumption.
    + apply (distinct_snoc String.eqb _ _ String.eqb_eq); [assumption|].
      intros Hin. apply in_map_iff in Hin as (u & Hu' & Hin).
      unfold findUserByEmail in Hf. apply (find_none _ _ Hf) in Hin.
      rewrite Hu', String.eqb_refl in Hin. discriminate.
    + apply (distinct_snoc Nat.eqb _ _ Nat.eqb_eq); [assumption|].
      apply ids_below_fresh. assumption.
    + apply ids_below_snoc. assumption.
    + reflexivity.
  - apply (tasks_ok_frame st); simpl; auto.
  - exact Hc.
Qed.

Lemma createTask_records_ok (b : TaskBody) (user : Claims) (st : Store) :
  records_ok st = true -> records_ok (snd (createTask b user st)) = true.
Proof.
  intros Hok. unfold createTask.
  destruct (required_string (tb_text b)), (required_string (tb_category b)),
    (required_string (tb_priority b)), (tb_dueDate b); try exact Hok.
  cbn [snd]. apply records_ok_parts in Hok as (Hu & Ht & Hc).
  apply records_ok_parts. split; [|split].
  - apply (users_ok_frame st); simpl; auto.
  - unfold tasks_ok in *. apply andb_true_iff in Ht as [H1 H2].
    cbn [snd set_tasks tasks next_id]. rewrite map_app.
    cbn [map t_id]. apply andb_true_iff. split.
    + apply (distinct_snoc Nat.eqb _ _ Nat.eqb_eq); [exact H1|].
      apply ids_below_fresh. exact H2.
    + apply ids_below_snoc. exact H2.
  - exact Hc.
Qed.

Lemma updateMany_ids {A : Type} (id : A -> ObjectId) (p : A -> bool)
    (f : A -> A) (l : list A) :
  (forall x, id (f x) = id x) -> map id (updateMany p f l) = map id l.
Proof.
  intros Hid. unfold updateMany. rewrite map_map. apply map_ext.
  intros x. destruct (p x); [apply Hid | reflexivity].
Qed.

Lemma checkDeadlines_records_ok (now : Z) (user : Claims) (st : Store) :
  records_ok st = true -> records_ok (snd (checkDeadlines now user st)) = true.
Proof.
  intros Hok. apply records_ok_parts in Hok as (Hu & Ht & Hc).
  apply records_ok_parts. split; [|split].
  - apply (users_ok_frame st); simpl; auto.
  - unfold tasks_ok in *. cbn [checkDeadlines snd set_tasks tasks next_id].
    rewrite (updateMany_ids t_id _ mark_sent (tasks st) (fun _ => eq_refl)).
    exact Ht.
  - exact Hc.
Qed.

Lemma uploadCalendar_records_ok (file : option CalendarFile) (user : Claims)
    (st : Store) :
  records_ok st = true -> records_ok (snd (uploadCalendar file user st)) = true.
Proof.
  intros Hok. unfold uploadCalendar. destruct (negb _); [exact Hok|].
  destruct file as [[| |entries|entries]|]; try exact Hok;
    (destruct (formatEntries entries) as [docs|]; [|exact Hok]);
    cbn [snd]; apply records_ok_parts in Hok as (Hu & Ht & Hc);
    apply records_ok_parts; (split; [|split]).
  - apply (users_ok_frame st); simpl; auto. lia.
  - apply (tasks_ok_frame st); simpl; auto. lia.
  - unfold calendar_distinct. cbn [set_calendar calendar].
    destruct (insertMany_fields (next_id st) docs) as (_ & _ & _ & ->).
    apply (distinct_NoDup Nat.eqb _ Nat.eqb_eq). apply seq_NoDup.
  - apply (users_ok_frame st); simpl; auto.
  - apply (tasks_ok_frame st); simpl; auto.
  - reflexivity.
Qed.

Lemma app_records_ok (st st' : Store) (req : Request) (salt : string) (now : Z)
    (r : Response) :
  records_ok st = true -> app st req salt now = Some (r, st') ->
  records_ok st' = true.
Proof.
  intros Hok Happ.
  assert (st' = snd (r, st')) as -> by reflexivity. revert Happ.
  unfold app.
  destruct (route_of (method req) (path req)) as [[route params]|];
    [|destruct (payload req); discriminate].
  destruct route, (payload req); try discriminate;
    repeat match goal with
           | |- context [match ?x with _ => _ end] =>
               match type of x with
               | list string => destruct x
               | option ObjectId => destruct x
               end
           end;
    try discriminate; intros E; injection E; clear E; intros; subst;
    try match goal with H : _ = (r, st') |- _ => rewrite <- H end;
    first [ exact Hok
          | apply signup_records_ok; exact Hok
          | unfold protected; destruct (authenticateToken _ _);
            [exact Hok|] ].
  all: first [ exact Hok
             | apply createTask_records_ok; exact Hok
             | apply checkDeadlines_records_ok; exact Hok
             | apply uploadCalendar_records_ok; exact Hok
             | apply (records_ok_frame st); [| | | |exact Hok];
               unfold createSubject, subjectsStudent, listSubjects,
                 subjectsByRole, subjectsByRoleGrades, updateUnits, submitGrade;
               repeat match goal with
                      | |- context [match ?x with _ => _ end] => destruct x
                      | |- context [if ?x then _ else _] => destruct x
                      end;
               simpl; auto ].
Qed.

(** X6: in every store the embedded routes reach from the empty one, no
    two users share an email, every stored role is teacher, student or
    alumni, the [_id]s of users, subjects, grades, tasks and calendar
    entries are pairwise distinct within their collection, no (student,
    subject) pair has two grades, and every stored email passed
    [isEmail]. *)
Theorem reachable_stores_keep_the_invariants :
  forall st : Store,
    reachable st -> store_ok st = true /\ records_ok st = true.
Proof.
  induction 1 as [|st req salt now r st' _ [IH1 IH2] Happ].
  - split; reflexivity.
  - split.
    + exact (app_store_ok st st' req salt now r IH1 Happ).
    + exact (app_records_ok st st' req salt now r IH2 Happ).
Qed.

End MoreInvariants.

Section SubjectsAgain.

Context {L : Libraries}.

Lemma unique_id_split {A : Type} (id : A -> ObjectId) (l : list A) (x : A) :
  distinct Nat.eqb (map id l) = true -> In x l ->
  exists l1 l2,
    l = (l1 ++ x :: l2)%list
    /\ (forall y, In y l1 -> id y <> id x)
    /\ (forall y, In y l2 -> id y <> id x).
Proof.
  intros Hd Hin. apply (distinct_NoDup Nat.eqb _ Nat.eqb_eq) in Hd.
  apply in_split in Hin as (l1 & l2 & ->). exists l1, l2.
  rewrite map_app in Hd. cbn [map] in Hd. apply NoDup_remove_2 in Hd.
  split; [reflexivity|].
  split; intros y Hy E; apply Hd; rewrite <- E; apply in_or_app;
    [left | right]; apply in_map; exact Hy.
Qed.

Lemma map_if_id (A : Type) (id : A -> ObjectId) (n : ObjectId) (f : A -> A)
    (l : list A) :
  (forall y, In y l -> id y <> n) ->
  map (fun y => if Nat.eqb (id y) n then f y else y) l = l.
Proof.
  induction l as [|y l IH]; simpl; intros H; [reflexivity|].
  rewrite (proj2 (Nat.eqb_neq _ _) (H y (or_introl eq_refl))), IH; auto.
Qed.

(** X7: any authenticated caller, whatever the role in the token, can
    create a subject with three non-empty fields: it is answered 201, the
    new subject has the caller as creator and no units, is added after the
    stored ones, and is the last entry of the caller's teacher listing
    right after.  With a title, degree or department missing or empty the
    answer is 400 'All fields are required' and nothing is stored. *)
Theorem created_subject_is_owned_and_listed :
  forall (b : SubjectBody) (user : Claims) (st : Store)
         (title degree department : string),
    sj_title b = Some title -> sj_degree b = Some degree ->
    sj_department b = Some department ->
    title <> EmptyString -> degree <> EmptyString ->
    department <> EmptyString ->
    let subject :=
      {| s_id := next_id st; s_title := title; s_degree := degree;
         s_department := department; s_creator := userId user;
         s_units := [] |} in
    let st' := snd (createSubject b user st) in
    fst (createSubject b user st) = reply 201 (JSubject subject)
    /\ subjects st' = (subjects st ++ [subject])%list
    /\ fst (subjectsByRole "teacher" user st')
       = json (JSubjects (filter (created_by (userId user)) (subjects st)
                          ++ [subject])%list)
    /\ (forall b',
          field (sj_title b') = EmptyString
          \/ field (sj_degree b') = EmptyString
          \/ field (sj_department b') = EmptyString ->
          createSubject b' user st
          = (reply 400 (JMessage "All fields are required"), st)).
Proof.
  intros b user st title degree department Ht Hd Hp Nt Nd Np subject st'.
  subst st'. unfold createSubject. rewrite Ht, Hd, Hp. cbn [field].
  destruct title; [contradiction|]. destruct degree; [contradiction|].
  destruct department; [contradiction|]. cbn [Js.truthy negb orb fst snd].
  split; [reflexivity|]. split; [reflexivity|]. split.
  - unfold subjectsByRole. cbn [String.eqb Ascii.eqb Bool.eqb fst set_subjects
      subjects]. rewrite filter_app. cbn [filter]. unfold created_by at 2.
    cbn [s_creator]. rewrite Nat.eqb_refl. reflexivity.
  - intros b' H. unfold createSubject.
    destruct H as [-> | [-> | ->]]; cbn [Js.truthy negb orb];
      rewrite ?orb_true_r; reflexivity.
Qed.

(** X8: when the creator of a stored subject updates its units, the answer
    is 200 with the subject carrying the new units, that subject is stored
    with the new units in its old place, and every other subject and every
    other collection is as before. *)
Theorem creator_update_replaces_units_only :
  forall (st : Store) (subject : Subject) (units : list UnitDoc)
         (caller : Claims),
    subjects_ok st = true ->
    In subject (subjects st) ->
    userId caller = s_creator subject ->
    let updated :=
      {| s_id := s_id subject; s_title := s_title subject;
         s_degree := s_degree subject; s_department := s_department subject;
         s_creator := s_creator subject; s_units := units |} in
    updateUnits (s_id subject) units caller st
    = (json (JSubject updated),
       set_subjects st
         (map (fun s => if Nat.eqb (s_id s) (s_id subject) then updated else s)
              (subjects st))
         (next_id st)).
Proof.
  intros st subject units caller Hok Hin Hc updated.
  unfold subjects_ok in Hok. apply andb_true_iff in Hok as [Hd _].
  destruct (unique_id_split s_id (subjects st) subject Hd Hin)
    as (l1 & l2 & Hl & H1 & H2).
  unfold updateUnits. rewrite Hl.
  rewrite (findOneAndUpdate_at _ _ l1 l2 subject).
  - rewrite map_app. cbn [map]. rewrite Nat.eqb_refl.
    rewrite (map_if_id Subject s_id (s_id subject) (fun _ => updated) l1 H1).
    rewrite (map_if_id Subject s_id (s_id subject) (fun _ => updated) l2 H2).
    reflexivity.
  - apply forallb_forall. intros y Hy. apply negb_true_iff.
    rewrite (proj2 (Nat.eqb_neq _ _) (H1 y Hy)). reflexivity.
  - unfold created_by. rewrite Hc, !Nat.eqb_refl. reflexivity.
Qed.

(** X9: [GET /api/subjects/teacher] answers with exactly the stored
    subjects whose creator is the caller of the token, and [GET
    /api/subjects] does the same for a caller whose stored role is
    teacher. *)
Theorem teacher_listings_show_own_subjects :
  forall (st : Store) (authHeader : option string) (salt : string) (now : Z)
         (user : Claims),
    authenticateToken authHeader now = Next user ->
    exists listed,
      app st (request_get "/api/subjects/teacher" authHeader) salt now
      = Some (json (JSubjects listed), st)
      /\ (forall caller, findUserById st (userId user) = Some caller ->
            u_role caller = "teacher" ->
            app st (request_get "/api/subjects" authHeader) salt now
            = Some (json (JSubjects listed), st))
      /\ (forall s, In s listed <->
            In s (subjects st) /\ s_creator s = userId user).
Proof.
  intros st authHeader salt now user Hauth.
  exists (filter (created_by (userId user)) (subjects st)).
  unfold app, request_get. cbn [method path payload authorization].
  rewrite route_subjects_teacher, route_subjects.
  unfold protected. rewrite Hauth. split; [reflexivity|]. split.
  - intros caller Hcaller Hrole. unfold listSubjects. rewrite Hcaller, Hrole.
    cbn [String.eqb Ascii.eqb Bool.eqb].
    unfold findUserById in Hcaller. apply find_some in Hcaller as [_ Hid].
    apply Nat.eqb_eq in Hid. rewrite Hid. reflexivity.
  - intros s. rewrite filter_In. unfold created_by. rewrite Nat.eqb_eq. tauto.
Qed.

(** X10: dispatch runs the first registration, in source order, whose
    method and pattern fit the request; so the second handler registered
    for [GET /api/subjects/:role] (line 468), which lists a student's
    subjects from their grades, is never the one that runs. *)
Theorem dispatch_takes_the_first_fitting_registration :
  forall (table : list (Method * string * Route)) (m : Method) (p : string)
         (r : Route) (params : list string),
    first_route table m p = Some (r, params) ->
    (exists before pattern after,
       table = (before ++ (m, pattern, r) :: after)%list
       /\ match_route pattern p = Some params
       /\ forall m' pattern' r',
            In (m', pattern', r') before -> m' = m ->
            match_route pattern' p = None)
    /\ (table = routes -> r <> GetSubjectsRoleGrades).
Proof.
  intros table m p r params H. split.
  - revert H. induction table as [|[[m' pattern'] r'] table IH]; simpl;
      [discriminate|].
    destruct (method_eqb m m') eqn:Hm.
    + assert (m' = m) as -> by (destruct m, m'; try discriminate; reflexivity).
      destruct (match_route pattern' p) as [ps|] eqn:Hp.
      * intros [= <- <-]. exists [], pattern', table.
        split; [reflexivity|]. split; [exact Hp|]. intros ? ? ? [].
      * intros H. destruct (IH H) as (before & pattern & after & -> & Hfit & Hb).
        exists ((m, pattern', r') :: before), pattern, after.
        split; [reflexivity|]. split; [exact Hfit|].
        intros m1 p1 r1 [[= <- <- <-]|Hin] Hm1; [exact Hp | eauto].
    + intros H. destruct (IH H) as (before & pattern & after & -> & Hfit & Hb).
      exists ((m', pattern', r') :: before), pattern, after.
      split; [reflexivity|]. split; [exact Hfit|].
      intros m1 p1 r1 [[= <- <- <-]|Hin] Hm1; [|eauto].
      subst m'. destruct m; discriminate.
  - intros -> ->. exact (second_role_route_shadowed m p params H).
Qed.

End SubjectsAgain.

Section GradesAgain.

Lemma set_grades_same (st : Store) : set_grades st (grades st) (next_id st) = st.
Proof. destruct st; reflexivity. Qed.

Lemma filter_singleton_find {A : Type} (p : A -> bool) (l : list A) (x : A) :
  filter p l = [x] -> find p l = Some x.
Proof.
  induction l as [|y l IH]; simpl; [discriminate|].
  destruct (p y); [intros [= ->]; reflexivity | exact IH].
Qed.

(** What a submission does when the pair already has its grade. *)
Lemma submitGrade_found (b : GradeBody) (user : Claims) (st : Store)
    (found : Grade) :
  grades_ok st = true ->
  find (grade_for (gb_student b) (gb_subject b)) (grades st) = Some found ->
  exists l1 l2,
    grades st = (l1 ++ found :: l2)%list
    /\ submitGrade b user st
       = (reply 201 (JGrade (set_scores b found)),
          set_grades st (l1 ++ set_scores b found :: l2)%list (next_id st)).
Proof.
  unfold grades_ok. intros H Hf. apply andb_true_iff in H as [H _].
  apply andb_true_iff in H as [Hids _].
  unfold submitGrade. rewrite Hf.
  apply find_first in Hf as (l1 & l2 & Hl & _ & _). exists l1, l2.
  split; [exact Hl|]. rewrite Hl in *.
  rewrite (findOneAndUpdate_at _ (fun _ => set_scores b found) l1 l2 found).
  - reflexivity.
  - apply forallb_forall. intros y Hy. apply negb_true_iff, Nat.eqb_neq.
    apply (distinct_NoDup Nat.eqb _ Nat.eqb_eq) in Hids.
    rewrite map_app in Hids. cbn [map] in Hids.
    apply NoDup_remove_2 in Hids. intros E. apply Hids.
    apply in_or_app. left. rewrite <- E. apply in_map. exact Hy.
  - apply Nat.eqb_refl.
Qed.

(** X11: a grade submission for one (student, subject) pair leaves the
    grade documents of every other pair exactly as they were. *)
Theorem grade_submission_touches_one_pair :
  forall (st : Store) (b : GradeBody) (user : Claims)
         (student subject : ObjectId),
    grades_ok st = true ->
    (student, subject) <> (gb_student b, gb_subject b) ->
    grades_of (snd (submitGrade b user st)) student subject
    = grades_of st student subject.
Proof.
  intros st b user student subject Hok Hne. unfold grades_of.
  assert (forall g, g_student g = gb_student b -> g_subject g = gb_subject b ->
                    grade_for student subject g = false) as Hother.
  { intros g H1 H2. unfold grade_for. rewrite H1, H2.
    destruct (Nat.eqb (gb_student b) student) eqn:E1;
      destruct (Nat.eqb (gb_subject b) subject) eqn:E2; try reflexivity.
    apply Nat.eqb_eq in E1, E2. subst. contradiction. }
  destruct (find (grade_for (gb_student b) (gb_subject b)) (grades st))
    as [found|] eqn:Hf.
  - destruct (submitGrade_found b user st found Hok Hf) as (l1 & l2 & Hl & ->).
    apply find_some in Hf as [_ Hkey]. unfold grade_for in Hkey.
    apply andb_true_iff in Hkey as [K1 K2]. apply Nat.eqb_eq in K1, K2.
    cbn [snd set_grades grades]. rewrite Hl, !filter_app. cbn [filter].
    rewrite (Hother found K1 K2), (Hother (set_scores b found) K1 K2).
    reflexivity.
  - unfold submitGrade. rewrite Hf. cbn [snd set_grades grades].
    rewrite filter_app. cbn [filter]. rewrite Hother by reflexivity.
    apply app_nil_r.
Qed.

(** X12: submitting the same grades twice is the same as submitting them
    once: the second submission leaves the store exactly as the first one
    left it. *)
Theorem grade_submission_is_idempotent :
  forall (st : Store) (b : GradeBody) (u1 u2 : Claims),
    grades_ok st = true ->
    snd (submitGrade b u2 (snd (submitGrade b u1 st)))
    = snd (submitGrade b u1 st).
Proof.
  intros st b u1 u2 Hok.
  destruct (submitGrade_spec b u1 st Hok)
    as (Hok1 & _ & g & Hg & _ & H1 & H2 & H3).
  set (st1 := snd (submitGrade b u1 st)) in *.
  apply filter_singleton_find in Hg.
  assert (g_student g = gb_student b /\ g_subject g = gb_subject b) as [K1 K2].
  { apply find_some in Hg as [_ Hkey]. unfold grade_for in Hkey.
    apply andb_true_iff in Hkey as [K1 K2]. apply Nat.eqb_eq in K1, K2. auto. }
  destruct (submitGrade_found b u2 st1 g Hok1 Hg) as (l1 & l2 & Hl & ->).
  assert (set_scores b g = g) as ->.
  { destruct g. unfold set_scores. simpl in *. subst. reflexivity. }
  cbn [snd]. rewrite <- Hl. apply set_grades_same.
Qed.

(** X13: after a grade submission the student of the pair, reading
    [GET /api/grades/:subjectId] for that subject, gets exactly one grade,
    with the submitted scores; and whatever is stored, this route only ever
    returns grades of the caller for the subject asked. *)
Theorem submitted_grade_is_what_the_student_reads :
  forall (st : Store) (b : GradeBody) (teacher student : Claims),
    grades_ok st = true ->
    userId student = gb_student b ->
    let st' := snd (submitGrade b teacher st) in
    (exists g,
       getGrades (gb_subject b) student st'
       = Sent 200 [populate_subject_title st' g]
       /\ g_cycleTest1 g = gb_cycleTest1 b
       /\ g_cycleTest2 g = gb_cycleTest2 b
       /\ g_assignments g = gb_assignments b)
    /\ (forall subjectId caller store' views,
          getGrades subjectId caller store' = Sent 200 views ->
          forall v, In v views ->
            g_student (gv_grade v) = userId caller
            /\ g_subject (gv_grade v) = subjectId).
Proof.
  intros st b teacher student Hok Hid st'. split.
  - destruct (submitGrade_spec b teacher st Hok)
      as (_ & _ & g & Hg & _ & H1 & H2 & H3).
    exists g. unfold getGrades. rewrite Hid.
    unfold grades_of in Hg. fold st' in Hg. rewrite Hg. auto.
  - intros subjectId caller store' views [= <-] v Hv.
    apply in_map_iff in Hv as (g & <- & Hg). apply filter_In in Hg as [_ Hg].
    unfold grade_for in Hg. apply andb_true_iff in Hg as [K1 K2].
    apply Nat.eqb_eq in K1, K2. auto.
Qed.

(** X14: the plain list of students is refused (403) to a caller whose
    token role is not teacher, but the list of a subject's students with
    their grades is served to any caller: each row is a stored user with
    role student in the subject's degree and department, and a grade shown
    in a row is a stored grade of that student for that subject. *)
Theorem students_of_a_subject_are_served_to_anyone :
  forall (st : Store) (user : Claims) (subjectId : ObjectId) (subject : Subject),
    find (fun s => Nat.eqb (s_id s) subjectId) (subjects st) = Some subject ->
    (role user <> "teacher" -> getStudents user st = Refused 403 "Access denied")
    /\ exists rows,
         getStudentsOfSubject subjectId user st = Sent 200 rows
         /\ forall row, In row rows ->
              exists u, In u (users st)
                /\ sg_id row = u_id u /\ sg_name row = u_name u
                /\ u_role u = "student"
                /\ u_degree u = s_degree subject
                /\ u_department u = s_department subject
                /\ forall g, sg_grades row = Some g ->
                     In g (grades st) /\ g_student g = u_id u
                     /\ g_subject g = subjectId.
Proof.
  intros st user subjectId subject Hs. split.
  - intros Hr. unfold getStudents. apply String.eqb_neq in Hr. rewrite Hr.
    reflexivity.
  - unfold getStudentsOfSubject. rewrite Hs. eexists. split; [reflexivity|].
    apply find_some in Hs as [_ Hsid]. apply Nat.eqb_eq in Hsid.
    intros row Hrow. apply in_map_iff in Hrow as (u & <- & Hu).
    apply filter_In in Hu as [Hin Hu]. unfold student_of_subject, is_student in Hu.
    apply andb_true_iff in Hu as [Hu Hdep]. apply andb_true_iff in Hu as [Hrole Hdeg].
    apply String.eqb_eq in Hrole, Hdeg, Hdep.
    exists u. cbn [sg_id sg_name sg_grades]. repeat split; try assumption.
    + apply find_some in H as [Hg _]. exact Hg.
    + apply find_some in H as [_ Hg]. unfold grade_for in Hg.
      apply andb_true_iff in Hg as [K _]. apply Nat.eqb_eq in K. exact K.
    + apply find_some in H as [_ Hg]. unfold grade_for in Hg.
      apply andb_true_iff in Hg as [_ K]. apply Nat.eqb_eq in K. congruence.
Qed.

End GradesAgain.

Section CalendarAgain.

Lemma split_with_sep (sep : ascii) (s : string) :
  Js.mem sep s = true -> exists a b rest, Js.split sep s = a :: b :: rest.
Proof.
  induction s as [|c s IH]; cbn [Js.mem Js.split]; [discriminate|].
  destruct (Ascii.eqb c sep) eqn:Hc.
  - intros _. destruct (Js.split sep s) as [|b rest] eqn:Hs.
    + destruct s; cbn [Js.split] in Hs; [discriminate|].
      destruct (Ascii.eqb _ _); [discriminate|].
      destruct (Js.split sep s); discriminate.
    + eauto.
  - cbn [orb]. intros H. destruct (IH H) as (a & b & rest & ->). eauto.
Qed.

Lemma formatDate_none (date : string) :
  formatDate date = None <-> Js.mem "." date = false.
Proof.
  unfold formatDate. split.
  - destruct (Js.mem "." date) eqn:Hm; [|reflexivity].
    destruct (split_with_sep "." date Hm) as (a & b & rest & ->).
    discriminate.
  - intros Hm. rewrite (split_no_sep "." date Hm). reflexivity.
Qed.

Lemma formatEntries_some (entries : list RawEntry) :
  forallb has_dotted_date entries = true ->
  exists docs,
    formatEntries entries = Some docs
    /\ map r_day docs = map r_day entries
    /\ map r_description docs = map r_description entries.
Proof.
  induction entries as [|e l IH]; cbn [forallb formatEntries].
  - intros _. exists []. auto.
  - intros H. apply andb_true_iff in H as [He Hl].
    destruct (IH Hl) as (docs & -> & Hd & Hp).
    unfold formatEntry, has_dotted_date in *.
    destruct (r_date e) as [date|]; [|discriminate].
    destruct (formatDate date) as [iso|] eqn:Hf.
    + eexists. split; [reflexivity|]. cbn [map r_day r_description].
      rewrite Hd, Hp. auto.
    + apply formatDate_none in Hf. congruence.
Qed.

Lemma formatEntries_none (entries : list RawEntry) :
  forallb has_dotted_date entries = false -> formatEntries entries = None.
Proof.
  induction entries as [|e l IH]; cbn [forallb formatEntries]; [discriminate|].
  intros H. unfold formatEntry.
  destruct (has_dotted_date e) eqn:He.
  - cbn [andb] in H. rewrite (IH H).
    destruct (r_date e) as [date|]; [|reflexivity].
    destruct (formatDate date); reflexivity.
  - unfold has_dotted_date in He. destruct (r_date e) as [date|]; [|reflexivity].
    rewrite (proj2 (formatDate_none date) He). reflexivity.
Qed.

(** X15: the import rewrites any [day.month.year] whose three parts hold no
    dot to [year-month-day], padding month and day on the left with zeros
    to two characters: a one-character month or day gets one zero, one of
    two or more characters is kept as it is.  The parts are not checked to
    be digits. *)
Theorem import_pads_day_and_month :
  forall d m y : string,
    Js.mem "." d = false -> Js.mem "." m = false -> Js.mem "." y = false ->
    formatDate (d ++ "." ++ m ++ "." ++ y)
    = Some (y ++ "-" ++ Js.padStart m 2 "0" ++ "-" ++ Js.padStart d 2 "0")
    /\ (forall s, String.length s = 1 -> Js.padStart s 2 "0" = "0" ++ s)
    /\ (forall s, 2 <= String.length s -> Js.padStart s 2 "0" = s).
Proof.
  intros d m y Hd Hm Hy. split; [exact (formatDate_parts d m y Hd Hm Hy)|].
  unfold Js.padStart. split; intros s Hs.
  - rewrite Hs. reflexivity.
  - replace (2 - String.length s) with 0 by lia. reflexivity.
Qed.

(** X16: the import does not check that a date has three parts.  With two
    parts the missing year is written as the text [undefined]; parts after
    the third are dropped. *)
Theorem import_accepts_malformed_dates :
  forall d m y extra : string,
    Js.mem "." d = false -> Js.mem "." m = false -> Js.mem "." y = false ->
    formatDate (d ++ "." ++ m)
    = Some ("undefined-" ++ Js.padStart m 2 "0" ++ "-" ++ Js.padStart d 2 "0")
    /\ formatDate (d ++ "." ++ m ++ "." ++ y ++ "." ++ extra)
       = formatDate (d ++ "." ++ m ++ "." ++ y).
Proof.
  intros d m y extra Hd Hm Hy. split.
  - unfold formatDate. change (d ++ "." ++ m) with (d ++ String "." m).
    rewrite (split_app_sep "." d m Hd), (split_no_sep "." m Hm). reflexivity.
  - rewrite (formatDate_parts d m y Hd Hm Hy). unfold formatDate.
    change (d ++ "." ++ m ++ "." ++ y ++ "." ++ extra)
      with (d ++ String "." (m ++ String "." (y ++ String "." extra))).
    rewrite (split_app_sep "." d _ Hd), (split_app_sep "." m _ Hm),
      (split_app_sep "." y _ Hy).
    reflexivity.
Qed.


(** X18: whatever is uploaded and by whom, the import leaves users,
    subjects, grades and tasks alone; and it changes the store at all only
    for a token with role teacher and an uploaded array all of whose
    entries have a dotted date (be the array well typed or mistyped). *)
Theorem import_changes_only_the_calendar :
  forall (file : option CalendarFile) (user : Claims) (st : Store),
    let st' := snd (uploadCalendar file user st) in
    users st' = users st /\ subjects st' = subjects st
    /\ grades st' = grades st /\ tasks st' = tasks st
    /\ (st' <> st ->
        role user = "teacher"
        /\ exists entries,
             (file = Some (EntryArray entries)
              \/ file = Some (MistypedArray entries))
             /\ forallb has_dotted_date entries = true).
Proof.
  intros file user st. cbn zeta. unfold uploadCalendar.
  assert (forall x : Store,
            users x = users x /\ subjects x = subjects x
            /\ grades x = grades x /\ tasks x = tasks x
            /\ (x <> x ->
                role user = "teacher"
                /\ exists entries,
                     (file = Some (EntryArray entries)
                      \/ file = Some (MistypedArray entries))
                     /\ forallb has_dotted_date entries = true)) as Same.
  { intros x. do 4 (split; [reflexivity|]). intros Hne. contradiction Hne.
    reflexivity. }
  destruct (String.eqb (role user) "teacher") eqn:Hrole; cbn [negb];
    [|apply Same].
  apply String.eqb_eq in Hrole.
  destruct file as [[| |entries|entries]|]; try apply Same;
    destruct (forallb has_dotted_date entries) eqn:Hd;
    try (rewrite (formatEntries_none entries Hd); apply Same);
    destruct (formatEntries_some entries Hd) as (docs & -> & _);
    cbn [snd set_calendar users subjects grades tasks];
    do 4 (split; [reflexivity|]); intros _; (split; [exact Hrole|]);
    exists entries; auto.
Qed.

End CalendarAgain.

Section TasksAgain.

Lemma required_string_some (s : string) :
  s <> EmptyString -> required_string (Some s) = Some s.
Proof. destruct s; [contradiction | reflexivity]. Qed.

Lemma unique_id_eq {A : Type} (id : A -> ObjectId) (l : list A) (x y : A) :
  distinct Nat.eqb (map id l) = true ->
  In x l -> In y l -> id y = id x -> y = x.
Proof.
  intros Hd Hx Hy E.
  destruct (unique_id_split id l x Hd Hx) as (l1 & l2 & -> & H1 & H2).
  apply in_app_or in Hy as [Hy|[Hy|Hy]].
  - contradiction (H1 y Hy).
  - auto.
  - contradiction (H2 y Hy).
Qed.

Lemma findOneAndDelete_at {A : Type} (p : A -> bool) (l1 l2 : list A) (x : A) :
  forallb (fun y => negb (p y)) l1 = true -> p x = true ->
  findOneAndDelete p (l1 ++ x :: l2)%list = (Some x, (l1 ++ l2)%list).
Proof.
  induction l1 as [|y l1 IH]; simpl; intros Hl Hx.
  - rewrite Hx. reflexivity.
  - apply andb_true_iff in Hl as [Hy Hl].
    apply negb_true_iff in Hy. rewrite Hy, (IH Hl Hx). reflexivity.
Qed.

Lemma findOneAndDelete_none {A : Type} (p : A -> bool) (l : list A) :
  forallb (fun y => negb (p y)) l = true -> findOneAndDelete p l = (None, l).
Proof.
  induction l as [|y l IH]; simpl; [reflexivity|].
  intros H. apply andb_true_iff in H as [Hy Hl].
  apply negb_true_iff in Hy. rewrite Hy, (IH Hl). reflexivity.
Qed.

Lemma sweep_marks_the_due (st : Store) (user : Claims) (now : Z) :
  tasks_ok st = true ->
  tasks (snd (checkDeadlines now user st))
  = map (fun t => if deadline_due (userId user) now t then mark_sent t else t)
        (tasks st).
Proof.
  intros Hok. unfold tasks_ok in Hok. apply andb_true_iff in Hok as [Hd _].
  cbn [checkDeadlines snd set_tasks tasks]. unfold updateMany.
  apply map_ext_in. intros t Ht.
  destruct (deadline_due (userId user) now t) eqn:Hdue.
  - assert (existsb (Nat.eqb (t_id t))
              (map t_id (filter (deadline_due (userId user) now) (tasks st)))
            = true) as ->; [|reflexivity].
    apply existsb_exists. exists (t_id t). split; [|apply Nat.eqb_refl].
    apply in_map. apply filter_In. auto.
  - destruct (existsb _ _) eqn:Hex; [|reflexivity].
    apply existsb_exists in Hex as (i & Hi & E). apply Nat.eqb_eq in E. subst i.
    apply in_map_iff in Hi as (t' & E & Ht'). apply filter_In in Ht' as [Hin' Hdue'].
    rewrite (unique_id_eq t_id (tasks st) t t' Hd Ht Hin' E) in Hdue'. congruence.
Qed.

(** X19: with unique task [_id]s, the sweep changes nothing but the
    [notificationSent] flag of the tasks it returns: every other task (of
    another owner, completed, already notified or outside the window) and
    every other collection is stored exactly as before. *)
Theorem sweep_sets_only_the_flag_of_what_it_returns :
  forall (st : Store) (user : Claims) (now : Z),
    tasks_ok st = true ->
    let st' := snd (checkDeadlines now user st) in
    tasks st'
    = map (fun t => if deadline_due (userId user) now t then mark_sent t else t)
          (tasks st)
    /\ (forall t, In t (tasks st) -> deadline_due (userId user) now t = false ->
          In t (tasks st'))
    /\ users st' = users st /\ subjects st' = subjects st
    /\ grades st' = grades st /\ calendar st' = calendar st
    /\ next_id st' = next_id st.
Proof.
  intros st user now Hok st'. subst st'.
  rewrite (sweep_marks_the_due st user now Hok).
  split; [reflexivity|]. split; [|repeat split].
  intros t Ht Hdue. apply in_map_iff. exists t. rewrite Hdue. auto.
Qed.

(** X20: an update or a delete of a stored task by a caller who is not its
    creator is answered 404 'Task not found' and leaves the store exactly
    as it was. *)
Theorem task_of_another_user_is_not_found :
  forall (st : Store) (task : Task) (p : TaskPatch) (caller : Claims),
    tasks_ok st = true ->
    In task (tasks st) ->
    userId caller <> t_creator task ->
    putTask (t_id task) p caller st = (Refused 404 "Task not found", st)
    /\ deleteTask (t_id task) caller st = (Refused 404 "Task not found", st).
Proof.
  intros st task p caller Hok Hin Hne.
  unfold tasks_ok in Hok. apply andb_true_iff in Hok as [Hd _].
  assert (forallb (fun y => negb (own_task (t_id task) caller y)) (tasks st)
          = true) as Hnone.
  { apply forallb_forall. intros y Hy. apply negb_true_iff.
    unfold own_task, owned_by.
    destruct (Nat.eqb (t_id y) (t_id task)) eqn:E; [|reflexivity].
    apply Nat.eqb_eq in E.
    rewrite (unique_id_eq t_id (tasks st) task y Hd Hin Hy E).
    apply Nat.eqb_neq. auto. }
  unfold putTask, deleteTask.
  rewrite (findOneAndUpdate_none _ _ _ Hnone), (findOneAndDelete_none _ _ Hnone).
  split; reflexivity.
Qed.

(** X21: a task created with a non-empty text, category and priority and
    a due date is answered 201 and is the last of its creator's list; the
    creator deleting it by its [_id] puts the task collection back to what
    it was before the creation, and deleting it a second time is answered
    404.  A task lacking one of the four required fields, or with an empty
    text, category or priority, is answered 500 and nothing is stored. *)
Theorem created_task_is_listed_then_deleted :
  forall (st : Store) (b : TaskBody) (user : Claims)
         (text category priority : string) (dueDate : Z),
    tasks_ok st = true ->
    tb_text b = Some text -> tb_category b = Some category ->
    tb_priority b = Some priority -> tb_dueDate b = Some dueDate ->
    text <> EmptyString -> category <> EmptyString ->
    priority <> EmptyString ->
    let task :=
      {| t_id := next_id st; t_text := text; t_category := category;
         t_priority := priority; t_dueDate := dueDate;
         t_completed := false; t_creator := userId user;
         t_notificationSent := false |} in
    let st1 := snd (createTask b user st) in
    let st2 := snd (deleteTask (next_id st) user st1) in
    fst (createTask b user st) = reply 201 (JTask task)
    /\ getTasks user st1
       = Sent 200 (filter (owned_by (userId user)) (tasks st) ++ [task])%list
    /\ fst (deleteTask (next_id st) user st1)
       = Sent 200 "Task deleted successfully"
    /\ tasks st2 = tasks st
    /\ deleteTask (next_id st) user st2 = (Refused 404 "Task not found", st2)
    /\ (forall b',
          required_string (tb_text b') = None
          \/ required_string (tb_category b') = None
          \/ required_string (tb_priority b') = None
          \/ tb_dueDate b' = None ->
          createTask b' user st
          = (reply 500 (JMessage "Error creating task"), st)).
Proof.
  intros st b user text category priority dueDate Hok Ht Hc Hp Hd Nt Nc Np
    task st1 st2.
  unfold tasks_ok in Hok. apply andb_true_iff in Hok as [_ Hb].
  assert (createTask b user st
          = (reply 201 (JTask task),
             set_tasks st (tasks st ++ [task])%list (S (next_id st)))) as Hnew.
  { unfold createTask. rewrite Ht, Hc, Hp, Hd.
    rewrite (required_string_some text Nt), (required_string_some category Nc),
      (required_string_some priority Np). reflexivity. }
  assert (forallb (fun y => negb (own_task (next_id st) user y)) (tasks st)
          = true) as Hnone.
  { apply forallb_forall. intros y Hy. apply negb_true_iff. unfold own_task.
    destruct (Nat.eqb (t_id y) (next_id st)) eqn:E; [|reflexivity].
    apply Nat.eqb_eq in E. exfalso.
    apply (ids_below_fresh (next_id st) (map t_id (tasks st)) Hb).
    rewrite <- E. apply in_map. exact Hy. }
  assert (deleteTask (next_id st) user st1
          = (Sent 200 "Task deleted successfully",
             set_tasks st1 (tasks st) (next_id st1))) as Hdel.
  { unfold deleteTask. subst st1. rewrite Hnew. cbn [snd set_tasks tasks].
    rewrite (findOneAndDelete_at _ (tasks st) [] task Hnone).
    - rewrite app_nil_r. reflexivity.
    - unfold own_task, owned_by. cbn [task t_id t_creator].
      rewrite !Nat.eqb_refl. reflexivity. }
  split; [rewrite Hnew; reflexivity|]. split; [|split; [|split; [|split]]].
  - unfold getTasks. subst st1. rewrite Hnew. cbn [snd set_tasks tasks].
    rewrite filter_app. cbn [filter]. unfold owned_by at 2.
    cbn [task t_creator]. rewrite Nat.eqb_refl. reflexivity.
  - rewrite Hdel. reflexivity.
  - subst st2. rewrite Hdel. reflexivity.
  - subst st2. rewrite Hdel. cbn [snd]. unfold deleteTask.
    cbn [set_tasks tasks]. rewrite (findOneAndDelete_none _ _ Hnone).
    reflexivity.
  - intros b' H. unfold createTask.
    destruct (required_string (tb_text b')), (required_string (tb_category b')),
      (required_string (tb_priority b')), (tb_dueDate b'); try reflexivity;
      destruct H as [H|[H|[H|H]]]; discriminate.
Qed.

(** X22: the sweep returns a task once only as long as nobody resets its
    flag.  If, after a sweep has returned a task, its owner updates it with
    [notificationSent: false], the next sweep that finds it inside the
    window returns that same task again. *)
Theorem owner_update_rearms_the_sweep :
  forall (st : Store) (task : Task) (user : Claims) (now1 now2 : Z),
    tasks_ok st = true ->
    In task (tasks st) ->
    deadline_due (userId user) now1 task = true ->
    deadline_due (userId user) now2 task = true ->
    let rearm :=
      {| tp_text := None; tp_category := None; tp_priority := None;
         tp_dueDate := None; tp_completed := None; tp_creator := None;
         tp_notificationSent := Some false |} in
    let st1 := snd (checkDeadlines now1 user st) in
    let st2 := snd (putTask (t_id task) rearm user st1) in
    In task (json_tasks (body (fst (checkDeadlines now1 user st))))
    /\ fst (putTask (t_id task) rearm user st1) = Sent 200 task
    /\ In task (json_tasks (body (fst (checkDeadlines now2 user st2)))).
Proof.
  intros st task user now1 now2 Hok Hin Hdue1 Hdue2 rearm st1 st2.
  pose proof (sweep_marks_the_due st user now1 Hok) as Hst1. fold st1 in Hst1.
  unfold tasks_ok in Hok. apply andb_true_iff in Hok as [Hd _].
  destruct (unique_id_split t_id (tasks st) task Hd Hin)
    as (l1 & l2 & Hl & H1 & H2).
  set (f := fun t => if deadline_due (userId user) now1 t
                     then mark_sent t else t) in *.
  rewrite Hl, map_app in Hst1. cbn [map] in Hst1.
  assert (f task = mark_sent task) as Hf by (unfold f; rewrite Hdue1; reflexivity).
  rewrite Hf in Hst1.
  assert (patch_task rearm (mark_sent task) = task) as Hpatch.
  { apply deadline_due_spec in Hdue1 as (_ & _ & Hns & _).
    destruct task. simpl in *. subst. reflexivity. }
  assert (putTask (t_id task) rearm user st1
          = (Sent 200 task,
             set_tasks st1 (map f l1 ++ task :: map f l2)%list (next_id st1)))
    as Hput.
  { unfold putTask. rewrite Hst1.
    rewrite (findOneAndUpdate_at _ (patch_task rearm) (map f l1) (map f l2)
               (mark_sent task)).
    - rewrite Hpatch. reflexivity.
    - apply forallb_forall. intros y Hy. apply negb_true_iff.
      apply in_map_iff in Hy as (y0 & <- & Hy0). unfold own_task.
      assert (t_id (f y0) = t_id y0) as ->
        by (unfold f; destruct (deadline_due _ _ y0); reflexivity).
      rewrite (proj2 (Nat.eqb_neq _ _) (H1 y0 Hy0)). reflexivity.
    - unfold own_task, owned_by. cbn [mark_sent t_id t_creator].
      apply deadline_due_spec in Hdue1 as (Hc & _).
      rewrite Hc, !Nat.eqb_refl. reflexivity. }
  split; [|split].
  - cbn [checkDeadlines fst json reply body json_tasks].
    apply filter_In. auto.
  - rewrite Hput. reflexivity.
  - subst st2. rewrite Hput.
    cbn [checkDeadlines fst snd json reply body json_tasks set_tasks tasks].
    apply filter_In. split; [|exact Hdue2].
    apply in_or_app. right. left. reflexivity.
Qed.

End TasksAgain.

Section ProfileAndCalendar.

Context {L : Libraries}.


End ProfileAndCalendar.

Section CalendarEntries.


End CalendarEntries.

Section Sorting.

Context {A : Type} (key : A -> Z).

Lemma insert_by_perm (x : A) (l : list A) :
  Permutation (insert_by key x l) (x :: l).
Proof.
  induction l as [|y l IH]; simpl; [reflexivity|].
  destruct (key y <=? key x)%Z.
  - rewrite IH. apply perm_swap.
  - reflexivity.
Qed.

Lemma insert_by_ascending (x : A) (l : list A) :
  ascending key l = true -> ascending key (insert_by key x l) = true.
Proof.
  induction l as [|y l IH]; simpl; [reflexivity|].
  intros H. apply andb_true_iff in H as [Hy Hl].
  destruct (key y <=? key x)%Z eqn:E.
  - simpl. rewrite (IH Hl), andb_true_r. apply forallb_forall.
    intros z Hz. apply (Permutation_in _ (insert_by_perm x l)) in Hz.
    destruct Hz as [<-|Hz]; [exact E|].
    rewrite forallb_forall in Hy. exact (Hy z Hz).
  - simpl. rewrite Hy, Hl, !andb_true_r. apply Z.leb_gt in E.
    apply andb_true_iff. split; [apply Z.leb_le; lia|].
    apply forallb_forall. intros z Hz. rewrite forallb_forall in Hy.
    specialize (Hy z Hz). apply Z.leb_le in Hy. apply Z.leb_le. lia.
Qed.

Lemma sort_by_acc (l acc : list A) :
  ascending key acc = true ->
  ascending key (fold_left (fun a x => insert_by key x a) l acc) = true
  /\ Permutation (fold_left (fun a x => insert_by key x a) l acc) (acc ++ l)%list.
Proof.
  revert acc. induction l as [|x l IH]; simpl; intros acc Hacc.
  - rewrite app_nil_r. auto.
  - destruct (IH (insert_by key x acc) (insert_by_ascending x acc Hacc))
      as [H1 H2].
    split; [exact H1|].
    eapply Permutation_trans; [exact H2|].
    eapply Permutation_trans; [apply Permutation_app_tail, insert_by_perm|].
    apply Permutation_middle.
Qed.

Lemma sort_by_sorts (l : list A) :
  ascending key (sort_by key l) = true /\ Permutation (sort_by key l) l.
Proof. exact (sort_by_acc l [] eq_refl). Qed.

End Sorting.

Section AssignmentsAndMessages.

Lemma find_at {A : Type} (p : A -> bool) (l1 l2 : list A) (x : A) :
  forallb (fun y => negb (p y)) l1 = true -> p x = true ->
  find p (l1 ++ x :: l2)%list = Some x.
Proof.
  induction l1 as [|y l1 IH]; simpl; intros Hl Hx.
  - rewrite Hx. reflexivity.
  - apply andb_true_iff in Hl as [Hy Hl].
    apply negb_true_iff in Hy. rewrite Hy. exact (IH Hl Hx).
Qed.

(** One submission with a file, to a stored assignment. *)
Lemma submit_once (c : Campus) (id : ObjectId) (a : Assignment)
    (f : FileUpload) (user : Claims) (now : Z) :
  find (fun x => Nat.eqb (a_id x) id) (assignments c) = Some a ->
  let s := {| sub_student := userId user; sub_file := file_ref f;
              sub_submittedAt := now |} in
  fst (submitAssignment id (Some f) user now c)
  = Sent 201 "Assignment submitted successfully"
  /\ find (fun x => Nat.eqb (a_id x) id)
          (assignments (snd (submitAssignment id (Some f) user now c)))
     = Some (push_submission s a)
  /\ store (snd (submitAssignment id (Some f) user now c)) = store c.
Proof.
  intros Hf s. unfold submitAssignment. rewrite Hf. cbn [fst snd assignments store].
  split; [reflexivity|]. split; [|reflexivity].
  apply find_first in Hf as (l1 & l2 & -> & Hl1 & Hx).
  apply Nat.eqb_eq in Hx. rewrite Hx. subst s.
  rewrite (findOneAndUpdate_at _ _ l1 l2 a Hl1).
  - cbn [snd]. apply find_at; [exact Hl1|]. cbn [push_submission a_id].
    rewrite Hx. apply Nat.eqb_refl.
  - rewrite Hx. apply Nat.eqb_refl.
Qed.

(** X25: submissions are only ever added.  Two submissions in a row to a
    stored assignment, by any callers and with any files (the same student
    and the same file included), are both answered 201 and leave the
    assignment with its earlier submissions followed by the two new ones.
    A submission without a file is answered 500, one to an unknown
    assignment 404, and neither changes anything. *)
Theorem submissions_accumulate :
  forall (c : Campus) (id : ObjectId) (a : Assignment) (f1 f2 : FileUpload)
         (u1 u2 : Claims) (t1 t2 : Z),
    find (fun x => Nat.eqb (a_id x) id) (assignments c) = Some a ->
    let c1 := snd (submitAssignment id (Some f1) u1 t1 c) in
    let c2 := snd (submitAssignment id (Some f2) u2 t2 c1) in
    fst (submitAssignment id (Some f1) u1 t1 c)
    = Sent 201 "Assignment submitted successfully"
    /\ fst (submitAssignment id (Some f2) u2 t2 c1)
       = Sent 201 "Assignment submitted successfully"
    /\ submissions_of c2 id
       = (a_submissions a
          ++ [ {| sub_student := userId u1; sub_file := file_ref f1;
                  sub_submittedAt := t1 |};
               {| sub_student := userId u2; sub_file := file_ref f2;
                  sub_submittedAt := t2 |} ])%list
    /\ submitAssignment id None u1 t1 c
       = (Refused 500 "Error submitting assignment", c)
    /\ (forall other file,
          find (fun x => Nat.eqb (a_id x) other) (assignments c) = None ->
          submitAssignment other file u1 t1 c
          = (Refused 404 "Assignment not found", c)).
Proof.
  intros c id a f1 f2 u1 u2 t1 t2 Hf c1 c2.
  destruct (submit_once c id a f1 u1 t1 Hf) as (R1 & F1 & _). fold c1 in F1.
  destruct (submit_once c1 id _ f2 u2 t2 F1) as (R2 & F2 & _). fold c2 in F2.
  split; [exact R1|]. split; [exact R2|]. split; [|split].
  - unfold submissions_of. rewrite F2. cbn [push_submission a_submissions].
    rewrite <- app_assoc. reflexivity.
  - unfold submitAssignment. rewrite Hf. reflexivity.
  - intros other file Hnone. unfold submitAssignment. rewrite Hnone. reflexivity.
Qed.

(** X26: an assignment is created for whatever subject [_id] the path
    names, stored or not, by any caller: with a non-empty title and
    description and a due date it is answered 201, has the caller as
    creator and no submissions, links the uploaded file under
    [/api/files/], and is the last entry of that subject's assignment
    list.  With a title or description missing or empty, or without a due
    date, the answer is 500 and nothing is stored. *)
Theorem assignment_creation :
  forall (c : Campus) (subjectId : ObjectId) (b : AssignmentBody)
         (file : option FileUpload) (user : Claims)
         (title description : string) (dueDate : Z),
    ab_title b = Some title -> ab_description b = Some description ->
    ab_dueDate b = Some dueDate ->
    title <> EmptyString -> description <> EmptyString ->
    let a :=
      {| a_id := next_id (store c); a_title := title;
         a_description := description; a_dueDate := dueDate;
         a_subject := subjectId; a_creator := userId user;
         a_file := option_map
                     (fun f => {| f_name := originalname f;
                                  f_url := "/api/files/" ++ filename f |})
                     file;
         a_submissions := [] |} in
    let c' := snd (postAssignment subjectId b file user c) in
    fst (postAssignment subjectId b file user c) = Sent 201 a
    /\ getAssignments subjectId user c'
       = Sent 200 (filter (fun x => Nat.eqb (a_subject x) subjectId)
                          (assignments c) ++ [a])%list
    /\ (forall b',
          required_string (ab_title b') = None
          \/ required_string (ab_description b') = None
          \/ ab_dueDate b' = None ->
          postAssignment subjectId b' file user c
          = (Refused 500 "Error creating assignment", c)).
Proof.
  intros c subjectId b file user title description dueDate Ht Hd Hdue Nt Nd a c'.
  subst c'. unfold postAssignment. rewrite Ht, Hd, Hdue.
  destruct title; [contradiction|]. destruct description; [contradiction|].
  cbn [required_string Js.truthy fst snd]. split; [reflexivity|]. split.
  - unfold getAssignments. cbn [assignments]. rewrite filter_app.
    cbn [filter a_subject]. rewrite Nat.eqb_refl. reflexivity.
  - intros b' H.
    destruct (required_string (ab_title b')), (required_string (ab_description b')),
      (ab_dueDate b'); try reflexivity;
      destruct H as [H|[H|H]]; discriminate.
Qed.

End AssignmentsAndMessages.

Section Messages.

Lemma findUserById_take_id (st : Store) (id : ObjectId) :
  findUserById (take_id st) id = findUserById st id.
Proof. reflexivity. Qed.

(** X27: an alumni message is filed under its sender's own degree and
    department, whatever the sender's role, and after it is posted a
    reader finds it in [GET /api/alumni-messages] exactly when the reader's
    stored degree and department are the sender's. *)
Theorem alumni_message_reaches_the_senders_cohort :
  forall (c : Campus) (text : string) (sender reader : Claims) (now : Z)
         (author audience : User),
    findUserById (store c) (userId sender) = Some author ->
    findUserById (store c) (userId reader) = Some audience ->
    text <> EmptyString ->
    u_degree author <> EmptyString ->
    u_department author <> EmptyString ->
    let m :=
      {| am_id := next_id (store c); am_text := text;
         am_sender := userId sender; am_degree := u_degree author;
         am_department := u_department author; am_createdAt := now |} in
    let c' := snd (postAlumniMessage (Some text) sender now c) in
    fst (postAlumniMessage (Some text) sender now c)
    = Sent 201 {| av_message := m;
                  av_sender := populate_sender (store c) (userId sender) |}
    /\ exists views,
         getAlumniMessages reader c' = Sent 200 views
         /\ (In m (map av_message views) <->
             u_degree audience = u_degree author
             /\ u_department audience = u_department author).
Proof.
  intros c text sender reader now author audience Ha Hr Nt Nd Np m c'.
  assert (postAlumniMessage (Some text) sender now c
          = (Sent 201 {| av_message := m;
                         av_sender := populate_sender (store c) (userId sender) |},
             {| store := take_id (store c); assignments := assignments c;
                messages := messages c;
                alumniMessages := (alumniMessages c ++ [m])%list |})) as Hpost.
  { unfold postAlumniMessage. rewrite Ha.
    rewrite (required_string_some text Nt), (required_string_some _ Nd),
      (required_string_some _ Np). reflexivity. }
  subst c'. rewrite Hpost. cbn [fst snd]. split; [reflexivity|].
  unfold getAlumniMessages. cbn [store alumniMessages].
  rewrite findUserById_take_id, Hr. eexists. split; [reflexivity|].
  rewrite map_map. cbn [av_message]. rewrite map_id.
  match goal with
  | |- In m (sort_by ?k ?l) <-> _ =>
      destruct (sort_by_sorts k l) as [_ Hperm]
  end.
  split.
  - intros Hin. apply (Permutation_in _ Hperm) in Hin.
    apply filter_In in Hin as [_ Hs]. unfold alumni_scope in Hs.
    apply andb_true_iff in Hs as [H1 H2]. apply String.eqb_eq in H1, H2.
    cbn [m am_degree am_department] in H1, H2. auto.
  - intros [H1 H2]. apply (Permutation_in _ (Permutation_sym Hperm)).
    apply filter_In. split.
    + apply in_or_app. right. left. reflexivity.
    + unfold alumni_scope. cbn [m am_degree am_department].
      rewrite H1, H2, !String.eqb_refl. reflexivity.
Qed.

(** X28: the message list of a subject holds each stored message of that
    subject once, in ascending order of creation time, each with the name
    and role of its sender as stored now (or no sender, when that user is
    not stored); the alumni list does the same for the messages of the
    reader's degree and department. *)
Theorem message_lists_are_complete_and_ordered :
  forall (c : Campus) (subjectId : ObjectId) (user : Claims) (reader : User),
    findUserById (store c) (userId user) = Some reader ->
    (exists views,
       getMessages subjectId user c = Sent 200 views
       /\ ascending m_createdAt (map mv_message views) = true
       /\ Permutation (map mv_message views)
            (filter (fun m => match m_subject m with
                              | Some s => Nat.eqb s subjectId
                              | None => false
                              end) (messages c))
       /\ forall v, In v views ->
            mv_sender v = populate_sender (store c) (m_sender (mv_message v)))
    /\ (exists views,
          getAlumniMessages user c = Sent 200 views
          /\ ascending am_createdAt (map av_message views) = true
          /\ Permutation (map av_message views)
               (filter (alumni_scope (u_degree reader) (u_department reader))
                       (alumniMessages c))
          /\ forall v, In v views ->
               av_sender v = populate_sender (store c) (am_sender (av_message v))).
Proof.
  intros c subjectId user reader Hr. split.
  - unfold getMessages. eexists. split; [reflexivity|].
    rewrite map_map. cbn [mv_message]. rewrite map_id.
    match goal with
    | |- context [sort_by ?k ?l] => destruct (sort_by_sorts k l) as [Hs Hp]
    end.
    split; [exact Hs|]. split; [exact Hp|].
    intros v Hv. apply in_map_iff in Hv as (m & <- & _). reflexivity.
  - unfold getAlumniMessages. rewrite Hr. eexists. split; [reflexivity|].
    rewrite map_map. cbn [av_message]. rewrite map_id.
    match goal with
    | |- context [sort_by ?k ?l] => destruct (sort_by_sorts k l) as [Hs Hp]
    end.
    split; [exact Hs|]. split; [exact Hp|].
    intros v Hv. apply in_map_iff in Hv as (m & <- & _). reflexivity.
Qed.

(** X29: a posted message with a non-empty text is answered 201 and is then
    in the list of a subject exactly when that subject is the [subjectId]
    it was posted with; posted without a [subjectId] it is stored but no
    subject's list ever shows it.  Without a text, or with an empty one,
    the answer is 500 and nothing is stored. *)
Theorem posted_message_is_listed_under_its_subject :
  forall (c : Campus) (b : MessageBody) (user : Claims) (now : Z)
         (text : string),
    mb_text b = Some text ->
    text <> EmptyString ->
    let m :=
      {| m_id := next_id (store c); m_text := text; m_sender := userId user;
         m_subject := mb_subjectId b; m_createdAt := now |} in
    let c' := snd (postMessage b user now c) in
    fst (postMessage b user now c)
    = Sent 201 {| mv_message := m;
                  mv_sender := populate_sender (store c) (userId user) |}
    /\ messages c' = (messages c ++ [m])%list
    /\ (forall subjectId reader views,
          getMessages subjectId reader c' = Sent 200 views ->
          (In m (map mv_message views) <-> mb_subjectId b = Some subjectId))
    /\ (forall b',
          required_string (mb_text b') = None ->
          postMessage b' user now c = (Refused 500 "Error posting message", c)).
Proof.
  intros c b user now text Ht Nt m c'. subst c'.
  unfold postMessage at 1 2 3. rewrite Ht, (required_string_some text Nt).
  cbn [fst snd messages]. fold m.
  split; [reflexivity|]. split; [reflexivity|]. split.
  - intros subjectId reader views [= <-].
    rewrite map_map. cbn [mv_message]. rewrite map_id. cbn [messages].
    match goal with
    | |- In m (sort_by ?k ?l) <-> _ =>
        destruct (sort_by_sorts k l) as [_ Hperm]
    end.
    split.
    + intros Hin. apply (Permutation_in _ Hperm) in Hin.
      apply filter_In in Hin as [_ Hs]. cbn [m m_subject] in Hs.
      destruct (mb_subjectId b) as [s|]; [|discriminate].
      apply Nat.eqb_eq in Hs. congruence.
    + intros Hs. apply (Permutation_in _ (Permutation_sym Hperm)).
      apply filter_In. split.
      * apply in_or_app. right. left. reflexivity.
      * cbn [m m_subject]. rewrite Hs. apply Nat.eqb_refl.
  - intros b' H. unfold postMessage. rewrite H. reflexivity.
Qed.

End Messages.

(** * Worked instances of the further properties *)

Lemma guard_ignores_the_scheme_word_witness :
  protected (L := sample_libraries) (Some "Basic i.teacher") 0 subjectsStudent
    store_with_subject
  = subjectsStudent teacher_claims store_with_subject.
Proof.
  apply (guard_ignores_the_scheme_word (L := sample_libraries) "Basic"
           "i.teacher" 0 subjectsStudent store_with_subject);
    [reflexivity | reflexivity | discriminate].
Defined.

Lemma guard_without_second_word_401_witness :
  protected (L := sample_libraries) (Some "Bearer  .student") 0 subjectsStudent
    store_with_subject
  = (reply 401 (JMessage "No token provided"), store_with_subject).
Proof.
  apply (guard_without_second_word_401 (L := sample_libraries) "Bearer"
           ".student" 0 subjectsStudent store_with_subject).
  reflexivity.
Defined.

Lemma login_200_only_for_matching_credentials_witness :
  exists user,
    findUserByEmail store_signed_up "student1@example.com" = Some user
    /\ bcrypt_compare (Libraries := sample_libraries) "password123"
         (u_password user) = true.
Proof.
  destruct (login_200_only_for_matching_credentials (L := sample_libraries)
              store_signed_up
              (login_body "student1@example.com" "password123" "student") 0
              eq_refl) as (user & Hu & _ & _ & Hc & _).
  exists user. split; [exact Hu | exact Hc].
Defined.

Lemma login_unknown_email_like_wrong_password_witness :
  fst (login (L := sample_libraries) store_signed_up
         (login_body "nobody@example.com" "password123" "student") 0)
  = reply 400 (JMessage "Invalid credentials")
  /\ fst (login (L := sample_libraries) store_signed_up
            (login_body "student1@example.com" "password124" "student") 0)
     = reply 400 (JMessage "Invalid credentials").
Proof.
  split.
  - apply (login_unknown_email_like_wrong_password (L := sample_libraries));
      [reflexivity | left; reflexivity].
  - apply (login_unknown_email_like_wrong_password (L := sample_libraries));
      [reflexivity | right; exists student1_user; repeat split].
Defined.

Lemma signup_invalid_field_400_witness :
  signup (L := sample_libraries) empty_store student1_short_password "salt" 0
  = (reply 400 (JErrors ["Password must be at least 6 characters long"]),
     empty_store).
Proof.
  destruct (signup_invalid_field_400 (L := sample_libraries) empty_store
              student1_short_password "salt" 0) as (errors & H1 & H2 & _).
  - right. left. simpl. lia.
  - rewrite H1, H2. reflexivity.
Defined.

Lemma reachable_stores_keep_the_invariants_witness :
  store_ok (L := sample_libraries) store_with_subject = true
  /\ records_ok store_with_subject = true.
Proof.
  apply (reachable_stores_keep_the_invariants (L := sample_libraries)).
  apply store_with_subject_reachable.
Defined.

Lemma created_subject_is_owned_and_listed_witness :
  fst (createSubject maths_subject student_claims store_signed_up)
  = reply 201 (JSubject maths_subject_doc).
Proof.
  apply (created_subject_is_owned_and_listed maths_subject student_claims
           store_signed_up "Calculus and Differential Equations" "BSc" "Maths");
    try reflexivity; discriminate.
Defined.

Lemma creator_update_replaces_units_only_witness :
  fst (updateUnits (s_id maths_subject_doc) [limits_unit] student_claims
         store_with_subject)
  = json (JSubject
            {| s_id := 1; s_title := "Calculus and Differential Equations";
               s_degree := "BSc"; s_department := "Maths"; s_creator := 0;
               s_units := [limits_unit] |}).
Proof.
  rewrite (creator_update_replaces_units_only store_with_subject
             maths_subject_doc [limits_unit] student_claims eq_refl
             (or_introl eq_refl) eq_refl).
  reflexivity.
Defined.

Lemma teacher_listings_show_own_subjects_witness :
  exists listed,
    app (L := sample_libraries) store_with_subject
        (request_get "/api/subjects/teacher" teacher_bearer) "salt" 0
    = Some (json (JSubjects listed), store_with_subject)
    /\ forall s, In s listed -> s_creator s = 1.
Proof.
  destruct (teacher_listings_show_own_subjects (L := sample_libraries)
              store_with_subject teacher_bearer "salt" 0 teacher_claims eq_refl)
    as (listed & H1 & _ & H3).
  exists listed. split; [exact H1|]. intros s Hs. apply H3 in Hs. apply Hs.
Defined.

Lemma dispatch_takes_the_first_fitting_registration_witness :
  exists before pattern after,
    routes = (before ++ (GET, pattern, GetSubjectsRole) :: after)%list
    /\ match_route pattern "/api/subjects/teacher" = Some ["teacher"].
Proof.
  destruct (dispatch_takes_the_first_fitting_registration routes GET
              "/api/subjects/teacher" GetSubjectsRole ["teacher"] eq_refl)
    as [(before & pattern & after & H1 & H2 & _) _].
  exists before, pattern, after. split; [exact H1 | exact H2].
Defined.

Lemma grade_submission_touches_one_pair_witness :
  grades_of (snd (submitGrade other_scores teacher_claims store_with_grade)) 0 1
  = grades_of store_with_grade 0 1.
Proof.
  apply (grade_submission_touches_one_pair store_with_grade other_scores
           teacher_claims 0 1); [reflexivity | discriminate].
Defined.

Lemma grade_submission_is_idempotent_witness :
  snd (submitGrade first_scores student_claims store_with_grade)
  = store_with_grade.
Proof.
  apply (grade_submission_is_idempotent store_with_subject first_scores
           teacher_claims student_claims).
  reflexivity.
Defined.

Lemma submitted_grade_is_what_the_student_reads_witness :
  exists g,
    getGrades 1 student_claims store_with_grade
    = Sent 200 [populate_subject_title store_with_grade g]
    /\ g_cycleTest1 g = 12%Z /\ g_cycleTest2 g = 15%Z /\ g_assignments g = 7%Z.
Proof.
  apply (submitted_grade_is_what_the_student_reads store_with_subject
           first_scores teacher_claims student_claims); reflexivity.
Defined.

Lemma students_of_a_subject_are_served_to_anyone_witness :
  getStudents student_claims store_with_subject = Refused 403 "Access denied"
  /\ exists rows,
       getStudentsOfSubject 1 student_claims store_with_subject = Sent 200 rows.
Proof.
  destruct (students_of_a_subject_are_served_to_anyone store_with_subject
              student_claims 1 maths_subject_doc eq_refl)
    as (H1 & rows & H2 & _).
  split; [apply H1; discriminate | exists rows; exact H2].
Defined.

Lemma import_pads_day_and_month_witness :
  formatDate "5.1.2025" = Some "2025-01-05".
Proof.
  apply (import_pads_day_and_month "5" "1" "2025"); reflexivity.
Defined.

Lemma import_accepts_malformed_dates_witness :
  formatDate "05.11" = Some "undefined-11-05"
  /\ formatDate "05.11.2025.old" = formatDate "05.11.2025".
Proof.
  apply (import_accepts_malformed_dates "05" "11" "2025" "old"); reflexivity.
Defined.

(** The two ways an import by a teacher can fail, on a calendar holding
    one entry: a date without a dot leaves the entry where it is; a
    mistyped array with good dates leaves the calendar empty. *)
Lemma failed_imports_example :
  calendar (snd (uploadCalendar
                   (Some (EntryArray
                      [ {| r_day := "Friday"; r_date := Some "tomorrow";
                           r_description := "Holiday" |} ]))
                   teacher_claims store_with_calendar))
  = calendar store_with_calendar
  /\ length (calendar store_with_calendar) = 1
  /\ uploadCalendar (Some (MistypedArray [guest_lecture])) teacher_claims
       store_with_calendar
     = (reply 500 (JMessageWithError "Error uploading calendar"),
        set_calendar store_with_calendar [] (next_id store_with_calendar)).
Proof. repeat split. Qed.

(** A percent-encoded path is not the literal one: it goes to the
    [:role] handler with the decoded value, whose [student] branch lists
    every stored subject. *)
Lemma encoded_student_path_example :
  route_of GET "/api/subjects/%73tudent" = Some (GetSubjectsRole, ["student"])
  /\ app (L := sample_libraries) store_with_subject
         (request_get "/api/subjects/%73tudent" student1_bearer) "salt" 0
     = Some (json (JSubjects (subjects store_with_subject)), store_with_subject).
Proof. split; reflexivity. Qed.


Lemma sweep_sets_only_the_flag_of_what_it_returns_witness :
  tasks (snd (checkDeadlines 0 student_claims store_with_task))
  = [mark_sent dsa_task_doc].
Proof.
  pose proof (sweep_sets_only_the_flag_of_what_it_returns store_with_task
                student_claims 0 eq_refl) as H.
  cbv zeta in H. destruct H as (H & _). rewrite H. reflexivity.
Defined.

Lemma task_of_another_user_is_not_found_witness :
  putTask 2 no_patch teacher_claims store_with_task
  = (Refused 404 "Task not found", store_with_task)
  /\ deleteTask 2 teacher_claims store_with_task
     = (Refused 404 "Task not found", store_with_task).
Proof.
  apply (task_of_another_user_is_not_found store_with_task dsa_task_doc
           no_patch teacher_claims);
    [reflexivity | left; reflexivity | simpl; lia].
Defined.

Lemma created_task_is_listed_then_deleted_witness :
  getTasks student_claims store_with_task = Sent 200 [dsa_task_doc]
  /\ tasks (snd (deleteTask 2 student_claims store_with_task))
     = tasks store_with_subject.
Proof.
  destruct (created_task_is_listed_then_deleted store_with_subject dsa_task
              student_claims "Complete DSA assignment" "Academic" "High"
              3600000 eq_refl eq_refl eq_refl eq_refl eq_refl)
    as (_ & H1 & _ & H3 & _); try discriminate.
  split; [exact H1 | exact H3].
Defined.

Lemma owner_update_rearms_the_sweep_witness :
  let rearm :=
    {| tp_text := None; tp_category := None; tp_priority := None;
       tp_dueDate := None; tp_completed := None; tp_creator := None;
       tp_notificationSent := Some false |} in
  let st1 := snd (checkDeadlines 0 student_claims store_with_task) in
  let st2 := snd (putTask 2 rearm student_claims st1) in
  json_tasks (body (fst (checkDeadlines 1000 student_claims st1))) = []
  /\ In dsa_task_doc
        (json_tasks (body (fst (checkDeadlines 1000 student_claims st2)))).
Proof.
  split; [reflexivity|].
  apply (owner_update_rearms_the_sweep store_with_task dsa_task_doc
           student_claims 0 1000);
    [reflexivity | left; reflexivity | reflexivity | reflexivity].
Defined.



Lemma submissions_accumulate_witness :
  submissions_of
    (snd (submitAssignment 2 (Some stack_upload) student_claims 2000
            (snd (submitAssignment 2 (Some stack_upload) student_claims 1000
                    campus_with_assignment))))
    2
  = [ {| sub_student := 0; sub_file := file_ref stack_upload;
         sub_submittedAt := 1000 |};
      {| sub_student := 0; sub_file := file_ref stack_upload;
         sub_submittedAt := 2000 |} ].
Proof.
  destruct (submissions_accumulate campus_with_assignment 2
              {| a_id := 2; a_title := "Implement Stack using Arrays";
                 a_description :=
                   "Write a program to implement stack operations using arrays in C++";
                 a_dueDate := 1763164800000; a_subject := 1; a_creator := 1;
                 a_file := None; a_submissions := [] |}
              stack_upload stack_upload student_claims student_claims 1000 2000
              eq_refl) as (_ & _ & H & _).
  exact H.
Defined.

Lemma assignment_creation_witness :
  getAssignments 1 student_claims campus_with_assignment
  = Sent 200
      [ {| a_id := 2; a_title := "Implement Stack using Arrays";
           a_description :=
             "Write a program to implement stack operations using arrays in C++";
           a_dueDate := 1763164800000; a_subject := 1; a_creator := 1;
           a_file := None; a_submissions := [] |} ].
Proof.
  destruct (assignment_creation campus_start 1 stack_assignment None
              teacher_claims "Implement Stack using Arrays"
              "Write a program to implement stack operations using arrays in C++"
              1763164800000 eq_refl eq_refl eq_refl) as (_ & H & _).
  - discriminate.
  - discriminate.
  - exact H.
Defined.

Lemma alumni_message_reaches_the_senders_cohort_witness :
  exists views,
    getAlumniMessages student_claims
      (snd (postAlumniMessage (Some "Hello from the BCA class") student_claims
              5000 campus_start))
    = Sent 200 views
    /\ length views = 1.
Proof.
  destruct (alumni_message_reaches_the_senders_cohort campus_start
              "Hello from the BCA class" student_claims student_claims 5000
              student1_user student1_user eq_refl eq_refl)
    as (_ & views & H & _); try discriminate.
  exists views. split; [exact H|].
  injection H as <-. reflexivity.
Defined.

Lemma message_lists_are_complete_and_ordered_witness :
  exists views,
    getMessages 1 student_claims
      (snd (postMessage welcome teacher_claims 7000 campus_start))
    = Sent 200 views
    /\ ascending m_createdAt (map mv_message views) = true.
Proof.
  destruct (message_lists_are_complete_and_ordered
              (snd (postMessage welcome teacher_claims 7000 campus_start)) 1
              student_claims student1_user eq_refl)
    as ((views & H1 & H2 & _) & _).
  exists views. split; [exact H1 | exact H2].
Defined.

Lemma posted_message_is_listed_under_its_subject_witness :
  messages (snd (postMessage welcome teacher_claims 7000 campus_start))
  = [ {| m_id := 2;
         m_text := "Welcome to the Data Structures class! Please check the syllabus.";
         m_sender := 1; m_subject := Some 1; m_createdAt := 7000 |} ].
Proof.
  destruct (posted_message_is_listed_under_its_subject campus_start welcome
              teacher_claims 7000
              "Welcome to the Data Structures class! Please check the syllabus."
              eq_refl) as (_ & H & _).
  - discriminate.
  - exact H.
Defined.
